(** * Workload simulation and monitoring engine: a shallow embedding

    The development follows the Python sources of the engine:
    - [core/models.py]            the configuration and metric records;
    - [core/workload_executor.py] parameter generation, single query
                                  execution, the workload task loop and
                                  [run_all_workloads];
    - [core/resource_monitor.py]  the sampling loop, the per-metric cadence
                                  and the start/stop protocol;
    - [core/metrics_collector.py] the database-metric log, written and read
                                  back;
    - [core/adapters.py]          [execute_query] and the two column reads of
                                  the SQL Server adapter;
    - [core/schema_manager.py]    the metadata refresh;
    - [core/data_generator.py]    row generation and the batched inserts.

    Python integers are [Z]; clock readings ([time.time], [time.perf_counter],
    [datetime.now]) are rationals; dictionaries are [gmap]s; a call that may
    raise returns a [result]; everything the code obtains from its
    environment (the random generator, the clocks, the database adapter) is
    read from a [World] of oracles indexed by the number of interactions
    made so far. *)

From Stdlib Require Import ZArith QArith Lia Lqa.
From stdpp Require Import gmap strings list pretty.

Local Open Scope string_scope.
Local Open Scope Z_scope.

(** ** Python values, exceptions and results *)

Local Unset Elimination Schemes.
Inductive PyValue :=
| PyNone
| PyInt (n : Z)
| PyStr (s : string)
| PyTuple (items : list PyValue).
Local Set Elimination Schemes.

Inductive exn :=
| ValueError (msg : string)
| KeyError (key : string)
| IndexError (msg : string)
| TypeError (msg : string)
| AttributeError (msg : string)
| ConnectionError (msg : string)
| FileNotFoundError (path : string)
| OSError (msg : string)
| JSONDecodeError (msg : string)
| OverflowError (msg : string).

Inductive result (A : Type) :=
| Returns (a : A)
| Raises (e : exn).
Arguments Returns {A} a.
Arguments Raises {A} e.

#[global] Instance exn_eq_dec : EqDecision exn.
Proof. solve_decision. Defined.

#[global] Instance result_eq_dec `{EqDecision A} : EqDecision (result A).
Proof. solve_decision. Defined.

Inductive LogLevel := DEBUG | INFO | WARNING | ERROR | CRITICAL.

(** One record handed to the [logging] module: level and message text
    (the interpolated values are the names the message mentions). *)
Definition LogRecord : Type := LogLevel * string.

(** Truthiness as the code uses it: [not s] on an optional string,
    [x or 100] on an optional integer. *)
Definition truthy_str (s : option string) : bool :=
  match s with
  | Some s => negb (String.eqb s "")
  | None => false
  end.

Definition or_default (x : option Z) (d : Z) : Z :=
  match x with
  | Some n => if n =? 0 then d else n
  | None => d
  end.

(** ** core/models.py *)

Module Models.

Record QueryParamGeneratorConfig := {
  type : string;
  table : option string;
  column : option string;
  sample_size : option Z;
  start_days_ago : option Z;
  end_days_ago : option Z
}.

Record QueryDefinition := {
  name : string;
  template : string;
  weight : Z;
  param_generators : list QueryParamGeneratorConfig
}.

Record WorkloadConfig := {
  wl_name : string;
  wl_type : string;
  enabled : bool;
  duration_seconds : Z;
  concurrency : Z;
  queries : list QueryDefinition
}.

Record MonitoringMetricConfig := {
  metric_cfg_name : string;
  query : string;
  frequency_seconds : Z
}.

Record MonitoringConfig := {
  os_metrics : list string;
  dbms_metrics : list MonitoringMetricConfig;
  monitoring_interval_seconds : Z
}.

Record ResourceMetric := {
  rm_timestamp : Q;
  cpu_percent : option Q;
  memory_percent : option Q;
  disk_io_read_bytes : option Z;
  disk_io_write_bytes : option Z
}.

Record DBMSMetricData := {
  metric_name : string;
  dm_timestamp : Q;
  data : list (string * PyValue)
}.

Record QueryExecutionMetric := {
  timestamp : Q;
  workload_name : string;
  query_name : string;
  query_template : string;
  parameters : list PyValue;
  duration_ms : Q;
  rows_affected_or_fetched : option Z;
  success : bool
}.

#[global] Instance QueryParamGeneratorConfig_eq_dec :
  EqDecision QueryParamGeneratorConfig.
Proof. solve_decision. Defined.

#[global] Instance QueryDefinition_eq_dec : EqDecision QueryDefinition.
Proof. solve_decision. Defined.

End Models.
Import Models.

(** ** The random generator

    [random.choice(seq)] is [seq[_randbelow(len(seq))]] and
    [random.randint(a, b)] is [a + _randbelow(b - a + 1)], raising
    [ValueError] when the range is empty.  Both are written over the draw
    [d] that [_randbelow] returns, a natural number below its argument. *)

Module Random.

Definition choice {A} (seq : list A) (d : nat) : result A :=
  match seq !! d with
  | Some x => Returns x
  | None => Raises (IndexError "Cannot choose from an empty sequence")
  end.

Definition randint (a b : Z) (d : nat) : result Z :=
  let width := b - a + 1 in
  if width <=? 0 then Raises (ValueError "empty range for randrange()")
  else Returns (a + Z.of_nat d).

(** The draws [_randbelow n] can return: [0, 1, ..., n-1], each equally
    likely. *)
Definition draws (n : nat) : list nat := seq 0 n.

(** The draws of a uniform [choice] over [pool] that select [x], and the
    probability that [choice] selects [x]. *)
Definition favourable `{EqDecision A} (pool : list A) (x : A) : list nat :=
  filter (fun d => choice pool d = Returns x) (draws (length pool)).

Definition probability `{EqDecision A} (pool : list A) (x : A) : Q :=
  inject_Z (Z.of_nat (length (favourable pool x)))
  / inject_Z (Z.of_nat (length pool)).

End Random.

(** ** Stateful code that may raise

    A method that reads and updates its object and may raise is a function
    from the state to an outcome and the state it leaves behind. *)

Definition StateExn (S A : Type) : Type := S -> result A * S.

Section StateExn.

Context {S : Type}.

Definition ret {A} (a : A) : StateExn S A := fun st => (Returns a, st).
Definition raise {A} (e : exn) : StateExn S A := fun st => (Raises e, st).
Definition bind {A B} (m : StateExn S A) (k : A -> StateExn S B) : StateExn S B :=
  fun st =>
    match m st with
    | (Returns a, st') => k a st'
    | (Raises e, st') => (Raises e, st')
    end.
Definition lift {A} (r : result A) : StateExn S A := fun st => (r, st).

(** [try: m except E: h]: [handler e] is [Some h] when the clause
    catches [e]. *)
Definition try_except {A} (m : StateExn S A)
    (handler : exn -> option (StateExn S A)) : StateExn S A :=
  fun st =>
    match m st with
    | (Returns a, st') => (Returns a, st')
    | (Raises e, st') =>
        match handler e with
        | Some h => h st'
        | None => (Raises e, st')
        end
    end.

End StateExn.

#[global] Instance StateExn_ret {S} : MRet (StateExn S) := @ret S.
#[global] Instance StateExn_bind {S} : MBind (StateExn S) :=
  fun A B k m => bind m k.

(** ** The environment

    What [db_adapter.execute_query] hands back: the fetched rows (a list of
    dictionaries), a row count, or [None] after a database error. *)

Definition Row : Type := list (string * PyValue).

Inductive RawResult :=
| Rows (rows : list Row)
| RowCount (n : Z)
| NoResult.

(** What [psutil] reports when asked: the counters, or a failure. *)
Record PsutilReading := {
  ps_fails : bool;
  ps_cpu_percent : Q;
  ps_memory_percent : Q;
  ps_disk_io_counters : option (Z * Z)
}.

(** Every interaction with the outside is numbered; the oracle of the
    interaction answers at that number. *)
Record World := {
  entropy : nat -> nat;
  perf_counter : nat -> Q;
  time_time : nat -> Q;
  datetime_now : nat -> Q;
  strftime : Q -> string;
  stop_event_is_set : nat -> bool;
  wait_for_times_out : nat -> bool;
  psutil : nat -> PsutilReading;
  get_column_sample : nat -> string -> string -> Z -> result (list PyValue);
  execute_query : nat -> string -> list PyValue -> result RawResult
}.

(** [schema_manager.tables_metadata]: per table, the primary-key column and
    the bounds [refresh_tables_metadata] stored (both [None] for a table
    without rows). *)
Record TableMeta := {
  pk_column : string;
  min_id : option Z;
  max_id : option Z
}.

(** ** core/workload_executor.py *)

Module WorkloadExecutor.

(** The cache key [(gen_type, table, column, sample_size)]. *)
Definition CacheKey : Type := string * string * string * Z.

(** The executor, its collaborators' observable traces included: the
    calls made to [get_column_sample] and [execute_query], the metrics
    handed to [metrics_collector.log_query_execution], the records
    logged. *)
Record Executor := {
  _param_cache : gmap CacheKey (list PyValue);
  events : nat;
  fetch_calls : list (string * string * Z);
  query_calls : list (string * list PyValue);
  query_log : list QueryExecutionMetric;
  logged : list LogRecord
}.

Abbreviation M := (StateExn Executor).

Definition next_event : M nat :=
  fun st =>
    (Returns (events st),
     {| _param_cache := _param_cache st; events := S (events st);
        fetch_calls := fetch_calls st; query_calls := query_calls st;
        query_log := query_log st; logged := logged st |}).

Definition logger (level : LogLevel) (msg : string) : M unit :=
  fun st =>
    (Returns tt,
     {| _param_cache := _param_cache st; events := events st;
        fetch_calls := fetch_calls st; query_calls := query_calls st;
        query_log := query_log st; logged := logged st ++ [(level, msg)] |}).

Definition set_param_cache (c : gmap CacheKey (list PyValue)) : M unit :=
  fun st =>
    (Returns tt,
     {| _param_cache := c; events := events st;
        fetch_calls := fetch_calls st; query_calls := query_calls st;
        query_log := query_log st; logged := logged st |}).

Definition record_fetch (call : string * string * Z) : M unit :=
  fun st =>
    (Returns tt,
     {| _param_cache := _param_cache st; events := events st;
        fetch_calls := fetch_calls st ++ [call]; query_calls := query_calls st;
        query_log := query_log st; logged := logged st |}).

Definition record_query (call : string * list PyValue) : M unit :=
  fun st =>
    (Returns tt,
     {| _param_cache := _param_cache st; events := events st;
        fetch_calls := fetch_calls st; query_calls := query_calls st ++ [call];
        query_log := query_log st; logged := logged st |}).

(** [metrics_collector.log_query_execution]: a debug record and the
    metric appended to the query-execution log. *)
Definition log_query_execution (metric : QueryExecutionMetric) : M unit :=
  fun st =>
    (Returns tt,
     {| _param_cache := _param_cache st; events := events st;
        fetch_calls := fetch_calls st; query_calls := query_calls st;
        query_log := query_log st ++ [metric];
        logged := logged st ++ [(DEBUG, "Query Metric: " ++ query_name metric)] |}).

Section WithWorld.

Variable w : World.
Variable tables_metadata : gmap string TableMeta.

Definition _randbelow (n : nat) : M nat :=
  k ← next_event; ret (entropy w k `mod` n)%nat.

Definition random_choice {A} (seq : list A) : M A :=
  d ← _randbelow (length seq); lift (Random.choice seq d).

(** The empty range is rejected before anything is drawn. *)
Definition random_randint (a b : Z) : M Z :=
  if b - a + 1 <=? 0 then lift (Random.randint a b 0)
  else d ← _randbelow (Z.to_nat (b - a + 1)); lift (Random.randint a b d).

Definition now : M Q := k ← next_event; ret (datetime_now w k).
Definition read_perf_counter : M Q := k ← next_event; ret (perf_counter w k).
Definition read_time : M Q := k ← next_event; ret (time_time w k).

Definition get_param_cache : M (gmap CacheKey (list PyValue)) :=
  fun st => (Returns (_param_cache st), st).

(** *** [_generate_query_param], the [random_from_column_sample] branch

    The coroutine runs without interruption up to its [await] on
    [db_adapter.get_column_sample] and again from the answer on; other
    tasks of the event loop can run in between.  The two halves are
    kept apart so that both orders of execution can be written. *)

Inductive Suspended :=
| Ready (v : PyValue)
| AwaitSample (key : CacheKey) (call : nat) (table column : string) (size : Z).

Definition pick_cached (cache_key : CacheKey) : M PyValue :=
  cache ← get_param_cache;
  match cache !! cache_key with
  | None => raise (KeyError "cache_key")
  | Some [] => ret (PyStr "default_sample_value")
  | Some cached_sample => random_choice cached_sample
  end.

Definition sample_until_await (cfg : QueryParamGeneratorConfig) : M Suspended :=
  if negb (truthy_str (table cfg)) || negb (truthy_str (column cfg)) then
    logger WARNING "Missing table/column for random_from_column_sample. Returning 'default'.";;
    ret (Ready (PyStr "default_sample_value"))
  else
    let tbl := default "" (table cfg) in
    let col := default "" (column cfg) in
    let sample_size := or_default (sample_size cfg) 100 in
    let cache_key := (type cfg, tbl, col, sample_size) in
    cache ← get_param_cache;
    match cache !! cache_key with
    | None =>
        k ← next_event;
        record_fetch (tbl, col, sample_size);;
        ret (AwaitSample cache_key k tbl col sample_size)
    | Some _ => v ← pick_cached cache_key; ret (Ready v)
    end.

Definition sample_after_await (cache_key : CacheKey)
    (answer : result (list PyValue)) : M PyValue :=
  sample_values ← lift answer;
  cache ← get_param_cache;
  set_param_cache
    (<[cache_key := match sample_values with
                    | [] => [PyStr "default_if_empty"]
                    | _ => sample_values
                    end]> cache);;
  pick_cached cache_key.

(** The coroutine resumed with the adapter's answer to its call. *)
Definition resume_sample (s : Suspended) : M PyValue :=
  match s with
  | Ready v => ret v
  | AwaitSample cache_key k tbl col size =>
      sample_after_await cache_key (get_column_sample w k tbl col size)
  end.

(** Run without any other task in between. *)
Definition random_from_column_sample (cfg : QueryParamGeneratorConfig) : M PyValue :=
  s ← sample_until_await cfg;
  resume_sample s.

(** Two tasks of the event loop resolving a sample parameter at the same
    time: each runs up to its [await], then each is resumed. *)
Definition two_tasks_interleaved (cfg_a cfg_b : QueryParamGeneratorConfig)
    : M (PyValue * PyValue) :=
  a ← sample_until_await cfg_a;
  b ← sample_until_await cfg_b;
  va ← resume_sample a;
  vb ← resume_sample b;
  ret (va, vb).

(** *** [_generate_query_param] *)

Definition timedelta_days (days : Z) : Q := inject_Z (days * 86400).

(** [timedelta(days=days)]: the number of days is bounded in magnitude. *)
Definition timedelta (days : Z) : result Q :=
  if 999999999 <? Z.abs days then
    Raises (OverflowError "days; must have magnitude <= 999999999")
  else Returns (timedelta_days days).

(** A [datetime] lies between [datetime.min], 0001-01-01 00:00:00, and
    [datetime.max], 9999-12-31 23:59:59.999999; the readings of
    [datetime.now] count seconds from 1970-01-01 00:00:00. *)
Definition datetime_min : Q := inject_Z (-62135596800).
Definition datetime_max : Q := (inject_Z 253402300800 - 1 / 1000000)%Q.

(** [t - delta] on a [datetime] and a [timedelta]. *)
Definition datetime_sub (t delta : Q) : result Q :=
  let difference := (t - delta)%Q in
  if Qle_bool datetime_min difference && Qle_bool difference datetime_max
  then Returns difference
  else Raises (OverflowError "date value out of range").

Definition random_int_from_column_range (cfg : QueryParamGeneratorConfig) : M PyValue :=
  if negb (truthy_str (table cfg)) || negb (truthy_str (column cfg)) then
    logger WARNING "Missing table/column for random_int_from_column_range. Returning 1.";;
    ret (PyInt 1)
  else
    let missing : M PyValue :=
      logger WARNING "Metadata or range missing. Default 1.";; ret (PyInt 1) in
    match tables_metadata !! default "" (table cfg) with
    | Some meta =>
        match min_id meta, max_id meta with
        | Some lo, Some hi =>
            try_except (n ← random_randint lo hi; ret (PyInt n))
              (fun e => match e with
                        | ValueError _ =>
                            Some (logger WARNING "Range invalid. Default 1.";;
                                  ret (PyInt 1))
                        | _ => None
                        end)
        | _, _ => missing
        end
    | None => missing
    end.

Definition date_range (cfg : QueryParamGeneratorConfig) : M PyValue :=
  let start_days := default 30 (start_days_ago cfg) in
  let end_days := default 0 (end_days_ago cfg) in
  t1 ← now;
  delta1 ← lift (timedelta start_days);
  start_date ← lift (datetime_sub t1 delta1);
  t2 ← now;
  delta2 ← lift (timedelta end_days);
  end_date ← lift (datetime_sub t2 delta2);
  ret (PyTuple [PyStr (strftime w start_date); PyStr (strftime w end_date)]).

Definition _generate_query_param (param_gen_config : QueryParamGeneratorConfig)
    : M PyValue :=
  let gen_type := type param_gen_config in
  if String.eqb gen_type "random_int_from_column_range" then
    random_int_from_column_range param_gen_config
  else if String.eqb gen_type "random_from_column_sample" then
    random_from_column_sample param_gen_config
  else if String.eqb gen_type "date_range" then
    date_range param_gen_config
  else
    logger WARNING
      ("Unknown param generator type: " ++ gen_type ++ ". Returning None.");;
    ret PyNone.

(** *** [_execute_single_query_instance] *)

Fixpoint resolve_params (gens : list QueryParamGeneratorConfig)
    (params_list : list PyValue) : M (list PyValue) :=
  match gens with
  | [] => ret params_list
  | p_gen_conf :: rest =>
      param_val ← _generate_query_param p_gen_conf;
      resolve_params rest
        (match param_val with
         | PyTuple items => params_list ++ items
         | _ => params_list ++ [param_val]
         end)
  end.

Definition db_execute_query (query : string) (params : list PyValue) : M RawResult :=
  k ← next_event;
  record_query (query, params);;
  lift (execute_query w k query params).

Definition rows_of (raw_results : RawResult) : option Z :=
  match raw_results with
  | Rows rows => Some (Z.of_nat (length rows))
  | RowCount n => Some n
  | NoResult => None
  end.

Definition is_not_None (raw_results : RawResult) : bool :=
  match raw_results with
  | NoResult => false
  | _ => true
  end.

Definition _execute_single_query_instance (workload_name : string)
    (query_def : QueryDefinition) : M unit :=
  params_list ← resolve_params (param_generators query_def) [];
  start_time ← read_perf_counter;
  raw_results ← db_execute_query (template query_def) params_list;
  end_time ← read_perf_counter;
  let duration_ms := ((end_time - start_time) * 1000)%Q in
  let rows_affected_or_fetched := rows_of raw_results in
  let success := is_not_None raw_results in
  stamp ← now;
  log_query_execution
    {| timestamp := stamp;
       workload_name := workload_name;
       query_name := name query_def;
       query_template := template query_def;
       parameters := params_list;
       duration_ms := duration_ms;
       rows_affected_or_fetched := rows_affected_or_fetched;
       success := success |};;
  if negb success then logger ERROR ("Query failed: " ++ name query_def)
  else logger DEBUG ("Executed " ++ name query_def).

(** *** [_run_workload_task] *)

Definition weighted_queries (workload_cfg : WorkloadConfig) : list QueryDefinition :=
  flat_map (fun q_def => replicate (Z.to_nat (weight q_def)) q_def)
           (queries workload_cfg).

(** [await asyncio.sleep(random.uniform(0.05, 0.5))]: one draw, one
    suspension. *)
Definition jitter_sleep : M unit :=
  _ ← next_event; _ ← next_event; ret tt.

Inductive TaskStatus := Finished | Running.

(** The [while] loop, for at most [fuel] iterations; [Running] reports
    that the condition still held when the observation ended. *)
Fixpoint workload_loop (fuel : nat) (workload_cfg : WorkloadConfig)
    (pool : list QueryDefinition) (task_start_time : Q) : M TaskStatus :=
  match fuel with
  | O => ret Running
  | S fuel' =>
      k ← next_event;
      if stop_event_is_set w k then ret Finished
      else
        t ← read_time;
        if Qle_bool (inject_Z (duration_seconds workload_cfg)) (t - task_start_time)
        then ret Finished
        else
          query_to_run ← random_choice pool;
          try_except
            (_execute_single_query_instance (wl_name workload_cfg) query_to_run)
            (fun e => Some (logger ERROR
               ("Exception in workload task " ++ wl_name workload_cfg
                ++ " for query " ++ name query_to_run)));;
          jitter_sleep;;
          workload_loop fuel' workload_cfg pool task_start_time
  end.

Definition _run_workload_task (fuel : nat) (workload_cfg : WorkloadConfig)
    : M TaskStatus :=
  logger INFO ("Starting task for workload: " ++ wl_name workload_cfg);;
  match weighted_queries workload_cfg with
  | [] =>
      logger WARNING ("No queries in workload " ++ wl_name workload_cfg
                      ++ ". Task exiting.");;
      ret Finished
  | pool =>
      task_start_time ← read_time;
      status ← workload_loop fuel workload_cfg pool task_start_time;
      match status with
      | Finished =>
          logger INFO ("Workload task " ++ wl_name workload_cfg
                       ++ " finished or was stopped.");;
          ret Finished
      | Running => ret Running
      end
  end.

(** *** [run_all_workloads]

    The call as the event loop sees it: the executor, the tasks created
    (each with the workload it runs, in the order of creation), the global
    stop event, and what [gather] handed back.  The tasks run interleaved
    with the caller while it sleeps; what each of them comes to is given by
    [task_outcome] for the task created at each position. *)

Record EventLoop := {
  executor : Executor;
  tasks : list WorkloadConfig;
  global_stop_event : bool;
  gathered : option (list (TaskStatus + exn))
}.

Abbreviation L := (StateExn EventLoop).

(** A step of the executor, taken inside the call. *)
Definition on_executor {A} (m : M A) : L A :=
  fun l =>
    ((m (executor l)).1,
     {| executor := (m (executor l)).2; tasks := tasks l;
        global_stop_event := global_stop_event l; gathered := gathered l |}).

(** [global_stop_event = asyncio.Event()] and [tasks = []]. *)
Definition new_event_and_tasks : L unit :=
  fun l =>
    (Returns tt,
     {| executor := executor l; tasks := []; global_stop_event := false;
        gathered := gathered l |}).

(** [tasks.append(asyncio.create_task(...))]. *)
Definition create_task (workload_cfg : WorkloadConfig) : L unit :=
  fun l =>
    (Returns tt,
     {| executor := executor l; tasks := tasks l ++ [workload_cfg];
        global_stop_event := global_stop_event l; gathered := gathered l |}).

Definition set_global_stop_event : L unit :=
  fun l =>
    (Returns tt,
     {| executor := executor l; tasks := tasks l; global_stop_event := true;
        gathered := gathered l |}).

(** [for _ in range(workload_cfg.concurrency)]. *)
Fixpoint create_tasks (n : nat) (workload_cfg : WorkloadConfig) : L unit :=
  match n with
  | O => ret tt
  | S n' => create_task workload_cfg;; create_tasks n' workload_cfg
  end.

(** [for workload_cfg in active_workloads]. *)
Fixpoint create_all_tasks (active_workloads : list WorkloadConfig) : L unit :=
  match active_workloads with
  | [] => ret tt
  | workload_cfg :: rest =>
      create_tasks (Z.to_nat (concurrency workload_cfg)) workload_cfg;;
      create_all_tasks rest
  end.

(** What [gather] holds for a task: its result, or with
    [return_exceptions=True] the exception it raised. *)
Definition held {A} (outcome : result A) : A + exn :=
  match outcome with
  | Returns a => inl a
  | Raises e => inr e
  end.

(** [await asyncio.gather( *tasks, return_exceptions=True)]: every task
    created is awaited, in order of creation. *)
Definition gather_return_exceptions
    (task_outcome : nat -> WorkloadConfig -> result TaskStatus) : L unit :=
  fun l =>
    (Returns tt,
     {| executor := executor l; tasks := tasks l;
        global_stop_event := global_stop_event l;
        gathered := Some (held <$> imap task_outcome (tasks l)) |}).

Definition run_all_workloads (workloads_config : list WorkloadConfig)
    (task_outcome : nat -> WorkloadConfig -> result TaskStatus)
    (global_duration_seconds : Z) : L unit :=
  on_executor (set_param_cache ∅);;
  match filter (fun wl => enabled wl = true) workloads_config with
  | [] => on_executor (logger INFO "No enabled workloads to run.")
  | active_workloads =>
      on_executor (logger INFO "Starting all enabled workloads.");;
      new_event_and_tasks;;
      create_all_tasks active_workloads;;
      k ← on_executor next_event;
      (if wait_for_times_out w k
       then on_executor
              (logger INFO "Global simulation duration reached via timeout.")
       else ret tt);;
      on_executor
        (logger INFO
           "Global simulation time up. Signaling all workload tasks to stop.");;
      set_global_stop_event;;
      gather_return_exceptions task_outcome;;
      on_executor (logger INFO "All workload tasks have completed.")
  end.

End WithWorld.

End WorkloadExecutor.

(** ** core/resource_monitor.py *)

Module ResourceMonitor.

(** The monitor with what its collaborators observe of it: the threads
    whose loop has not returned, the coroutines handed to the event loop
    ([dispatched]: metric name, query, dispatch time), the records given
    to the metrics collector and the log. *)
Record Monitor := {
  _stop_event : bool;
  _monitor_thread : option nat;
  _dbms_metric_last_run : gmap string Q;
  alive : gset nat;
  events : nat;
  dispatched : list (string * string * Q);
  system_log : list ResourceMetric;
  dbms_log : list DBMSMetricData;
  logged : list LogRecord
}.

Abbreviation M := (StateExn Monitor).

Definition next_event : M nat :=
  fun st =>
    (Returns (events st),
     {| _stop_event := _stop_event st; _monitor_thread := _monitor_thread st;
        _dbms_metric_last_run := _dbms_metric_last_run st; alive := alive st;
        events := S (events st); dispatched := dispatched st;
        system_log := system_log st; dbms_log := dbms_log st;
        logged := logged st |}).

Definition logger (level : LogLevel) (msg : string) : M unit :=
  fun st =>
    (Returns tt,
     {| _stop_event := _stop_event st; _monitor_thread := _monitor_thread st;
        _dbms_metric_last_run := _dbms_metric_last_run st; alive := alive st;
        events := events st; dispatched := dispatched st;
        system_log := system_log st; dbms_log := dbms_log st;
        logged := logged st ++ [(level, msg)] |}).

(** [metrics_collector.log_system_metric] and [log_dbms_metric]. *)
Definition log_system_metric (system_data : ResourceMetric) : M unit :=
  fun st =>
    (Returns tt,
     {| _stop_event := _stop_event st; _monitor_thread := _monitor_thread st;
        _dbms_metric_last_run := _dbms_metric_last_run st; alive := alive st;
        events := events st; dispatched := dispatched st;
        system_log := system_log st ++ [system_data]; dbms_log := dbms_log st;
        logged := logged st ++ [(DEBUG, "OS Metric")] |}).

Definition log_dbms_metric (dbms_data : DBMSMetricData) : M unit :=
  fun st =>
    (Returns tt,
     {| _stop_event := _stop_event st; _monitor_thread := _monitor_thread st;
        _dbms_metric_last_run := _dbms_metric_last_run st; alive := alive st;
        events := events st; dispatched := dispatched st;
        system_log := system_log st; dbms_log := dbms_log st ++ [dbms_data];
        logged := logged st ++ [(DEBUG, "DBMS Metric: " ++ metric_name dbms_data)] |}).

(** [run_coroutine_threadsafe(_collect_one_dbms_metric(name, query), loop)]
    followed by [_dbms_metric_last_run[name] = now]. *)
Definition dispatch (metric_cfg : MonitoringMetricConfig) (now : Q) : M unit :=
  fun st =>
    (Returns tt,
     {| _stop_event := _stop_event st; _monitor_thread := _monitor_thread st;
        _dbms_metric_last_run :=
          <[metric_cfg_name metric_cfg := now]> (_dbms_metric_last_run st);
        alive := alive st; events := events st;
        dispatched := dispatched st
                      ++ [(metric_cfg_name metric_cfg, query metric_cfg, now)];
        system_log := system_log st; dbms_log := dbms_log st;
        logged := logged st |}).

Definition get_last_run (metric : string) : M Q :=
  fun st => (Returns (default 0%Q (_dbms_metric_last_run st !! metric)), st).

Section WithWorld.

Variable w : World.
Variable monitoring_config : MonitoringConfig.

Definition now : M Q := k ← next_event; ret (datetime_now w k).
Definition read_time : M Q := k ← next_event; ret (time_time w k).

Definition configured (metric : string) : bool :=
  bool_decide (metric ∈ os_metrics monitoring_config).

(** One numbered reading of [psutil] per pass; it is consulted, and can
    fail, only for the metrics that are configured. *)
Definition _collect_os_metrics_sync : M (option ResourceMetric) :=
  match os_metrics monitoring_config with
  | [] => ret None
  | _ =>
      stamp ← now;
      k ← next_event;
      let reading := psutil w k in
      let consulted := configured "cpu_percent" || configured "memory_percent"
                       || configured "disk_io_counters" in
      if consulted && ps_fails reading then
        logger ERROR "Error collecting OS metrics";; ret None
      else
        let io := if configured "disk_io_counters"
                  then ps_disk_io_counters reading else None in
        ret (Some
          {| rm_timestamp := stamp;
             cpu_percent := if configured "cpu_percent"
                            then Some (ps_cpu_percent reading) else None;
             memory_percent := if configured "memory_percent"
                               then Some (ps_memory_percent reading) else None;
             disk_io_read_bytes := fst <$> io;
             disk_io_write_bytes := snd <$> io |})
  end.

(** *** [_collect_one_dbms_metric] *)

Fixpoint emit_rows (metric_cfg_name : string) (results : list Row) : M unit :=
  match results with
  | [] => ret tt
  | row_data :: rest =>
      stamp ← now;
      log_dbms_metric
        {| metric_name := metric_cfg_name; dm_timestamp := stamp; data := row_data |};;
      emit_rows metric_cfg_name rest
  end.

Definition _collect_one_dbms_metric (metric_cfg_name query : string) : M unit :=
  logger DEBUG ("Collecting DBMS metric: " ++ metric_cfg_name);;
  try_except
    (k ← next_event;
     results ← lift (execute_query w k query []);
     match results with
     | Rows rows => emit_rows metric_cfg_name rows
     | RowCount _ => raise (TypeError "'int' object is not iterable")
     | NoResult =>
         logger WARNING ("Failed to fetch DBMS metric '" ++ metric_cfg_name
                         ++ "'. Query returned None.")
     end)
    (fun e => Some (logger ERROR ("Error collecting DBMS metric " ++ metric_cfg_name))).

(** *** [_monitoring_loop_sync] *)

Definition check_metric (now : Q) (metric_cfg : MonitoringMetricConfig) : M unit :=
  last_run ← get_last_run (metric_cfg_name metric_cfg);
  if Qle_bool (inject_Z (frequency_seconds metric_cfg)) (now - last_run)
  then dispatch metric_cfg now
  else ret tt.

Fixpoint check_metrics (now : Q) (cfgs : list MonitoringMetricConfig) : M unit :=
  match cfgs with
  | [] => ret tt
  | metric_cfg :: rest => check_metric now metric_cfg;; check_metrics now rest
  end.

(** One pass through the body of the [while] loop. *)
Definition loop_body : M unit :=
  os_data ← _collect_os_metrics_sync;
  match os_data with
  | Some d => log_system_metric d
  | None => ret tt
  end;;
  now ← read_time;
  check_metrics now (dbms_metrics monitoring_config);;
  _ ← next_event;
  ret tt.

(** The [while] loop, for at most [fuel] passes. *)
Fixpoint sampling_loop (fuel : nat) : M unit :=
  match fuel with
  | O => ret tt
  | S fuel' =>
      fun st =>
        if _stop_event st
        then logger INFO "Resource monitoring loop stopped." st
        else (loop_body;; sampling_loop fuel') st
  end.

Definition _monitoring_loop_sync (fuel : nat) : M unit :=
  logger INFO "Resource monitoring loop started.";;
  (if configured "cpu_percent" then _ ← next_event; ret tt else ret tt);;
  sampling_loop fuel.

(** *** [start_monitoring] and [stop_monitoring]

    A thread is known by a number; [alive] holds the threads whose loop
    has not returned. *)

Definition is_alive (st : Monitor) (thread : nat) : bool :=
  bool_decide (thread ∈ alive st).

Definition thread_is_running (st : Monitor) : bool :=
  match _monitor_thread st with
  | Some thread => is_alive st thread
  | None => false
  end.

Definition start_thread : M unit :=
  fun st =>
    let thread := fresh (alive st) in
    (Returns tt,
     {| _stop_event := false;
        _monitor_thread := Some thread;
        _dbms_metric_last_run :=
          list_to_map ((fun cfg => (metric_cfg_name cfg, 0%Q))
                       <$> dbms_metrics monitoring_config);
        alive := {[thread]} ∪ alive st;
        events := events st; dispatched := dispatched st;
        system_log := system_log st; dbms_log := dbms_log st;
        logged := logged st |}).

Definition start_monitoring : M unit :=
  fun st =>
    if thread_is_running st
    then logger WARNING "Monitoring is already running." st
    else (start_thread;;
          logger INFO "System resource monitoring started in a separate thread.") st.

(** [thread.join(timeout)]: the loop returns [exit_delay] seconds after
    the stop event is set, or not at all ([None]); [join] waits for it,
    [timeout] seconds at most.  The result is the time waited. *)
Definition join (timeout : Q) (exit_delay : option Q) : M Q :=
  fun st =>
    match exit_delay, _monitor_thread st with
    | Some delay, Some thread =>
        if Qle_bool delay timeout then
          (Returns delay,
           {| _stop_event := _stop_event st; _monitor_thread := _monitor_thread st;
              _dbms_metric_last_run := _dbms_metric_last_run st;
              alive := alive st ∖ {[thread]};
              events := events st; dispatched := dispatched st;
              system_log := system_log st; dbms_log := dbms_log st;
              logged := logged st |})
        else (Returns timeout, st)
    | _, _ => (Returns timeout, st)
    end.

Definition set_stop_event : M unit :=
  fun st =>
    (Returns tt,
     {| _stop_event := true; _monitor_thread := _monitor_thread st;
        _dbms_metric_last_run := _dbms_metric_last_run st; alive := alive st;
        events := events st; dispatched := dispatched st;
        system_log := system_log st; dbms_log := dbms_log st;
        logged := logged st |}).

Definition forget_thread : M unit :=
  fun st =>
    (Returns tt,
     {| _stop_event := _stop_event st; _monitor_thread := None;
        _dbms_metric_last_run := _dbms_metric_last_run st; alive := alive st;
        events := events st; dispatched := dispatched st;
        system_log := system_log st; dbms_log := dbms_log st;
        logged := logged st |}).

Definition join_timeout : Q := 10.

Definition stop_monitoring (exit_delay : option Q) : M Q :=
  fun st =>
    if thread_is_running st then
      (logger INFO "Stopping resource monitoring...";;
       set_stop_event;;
       waited ← join join_timeout exit_delay;
       (fun st' =>
          if thread_is_running st'
          then logger WARNING "Monitoring thread did not stop in time." st'
          else logger INFO "Resource monitoring stopped successfully." st');;
       forget_thread;;
       ret waited) st
    else
      (logger INFO "Monitoring not running or already stopped.";; ret 0%Q) st.

End WithWorld.

End ResourceMonitor.

(** ** core/metrics_collector.py: reading the database-metric log back *)

Module MetricsCollector.

(** What [json.loads] produces. *)
Local Unset Elimination Schemes.
Inductive Json :=
| JNull
| JBool (b : bool)
| JNum (n : Z)
| JStr (s : string)
| JArr (items : list Json)
| JObj (fields : list (string * Json)).
Local Set Elimination Schemes.

(** The [DBMSMetricData] built from one entry of the log: the name and the
    data are the JSON values found under their keys. *)
Record ReadBack := {
  rb_metric_name : Json;
  rb_timestamp : Q;
  rb_data : Json
}.

Fixpoint dict_lookup (key : string) (fields : list (string * Json)) : option Json :=
  match fields with
  | [] => None
  | (k, v) :: rest => if String.eqb k key then Some v else dict_lookup key rest
  end.

(** [entry_dict[key]]. *)
Definition getitem (fields : list (string * Json)) (key : string) : result Json :=
  match dict_lookup key fields with
  | Some v => Returns v
  | None => Raises (KeyError key)
  end.

(** [entry_dict.get('metric_name') == metric_name_filter or
    metric_name_filter is None]. *)
Definition selected (fields : list (string * Json)) (metric_name_filter : option string)
    : bool :=
  match metric_name_filter with
  | None => true
  | Some wanted =>
      match dict_lookup "metric_name" fields with
      | Some (JStr s) => String.eqb s wanted
      | _ => false
      end
  end.

(** The clause [except (json.JSONDecodeError, KeyError, TypeError)] around
    one line. *)
Definition caught_per_line (e : exn) : bool :=
  match e with
  | JSONDecodeError _ | KeyError _ | TypeError _ => true
  | _ => false
  end.

Section WithParsers.

(** [json.loads] and [datetime.fromisoformat] are library functions; the
    read-back is written over them. *)
Variable json_loads : string -> result Json.
Variable fromisoformat : string -> result Q.

Definition parse_timestamp (v : Json) : result Q :=
  match v with
  | JStr s => fromisoformat s
  | _ => Raises (TypeError "fromisoformat: argument must be str")
  end.

(** The body of the inner [try]: [Returns None] when the entry is not
    selected. *)
Definition read_entry (metric_name_filter : option string) (line : string)
    : result (option ReadBack) :=
  match json_loads line with
  | Raises e => Raises e
  | Returns (JObj entry_dict) =>
      if selected entry_dict metric_name_filter then
        match getitem entry_dict "metric_name" with
        | Raises e => Raises e
        | Returns metric_name =>
            match getitem entry_dict "timestamp" with
            | Raises e => Raises e
            | Returns stamp =>
                match parse_timestamp stamp with
                | Raises e => Raises e
                | Returns t =>
                    match getitem entry_dict "data" with
                    | Raises e => Raises e
                    | Returns data =>
                        Returns (Some {| rb_metric_name := metric_name;
                                         rb_timestamp := t;
                                         rb_data := data |})
                    end
                end
            end
        end
      else Returns None
  | Returns _ => Raises (AttributeError "object has no attribute 'get'")
  end.

(** The [for line in f] loop inside the outer [try]: the records
    collected and the log records written. *)
Fixpoint read_lines (metric_name_filter : option string) (lines : list string)
    (collected : list ReadBack) (log : list LogRecord)
    : list ReadBack * list LogRecord :=
  match lines with
  | [] => (collected, log)
  | line :: rest =>
      match read_entry metric_name_filter line with
      | Returns (Some entry) =>
          read_lines metric_name_filter rest (collected ++ [entry]) log
      | Returns None => read_lines metric_name_filter rest collected log
      | Raises e =>
          if caught_per_line e
          then read_lines metric_name_filter rest collected
                 (log ++ [(WARNING, ("Skipping malformed line: " ++ line)%string)])%list
          else (collected, (log ++ [(ERROR, "Error reading DBMS metrics")])%list)
      end
  end.

(** [file] is what [open(self.dbms_log_path, 'r')] gives: the lines, or
    the exception it raises. *)
Definition get_collected_dbms_metrics (file : result (list string))
    (metric_name_filter : option string) : list ReadBack * list LogRecord :=
  match file with
  | Returns lines => read_lines metric_name_filter lines [] []
  | Raises (FileNotFoundError _) => ([], [(INFO, "DBMS metrics file not found.")])
  | Raises _ => ([], [(ERROR, "Error reading DBMS metrics")])
  end.

End WithParsers.

End MetricsCollector.

(** ** core/metrics_collector.py: writing the database-metric log *)

Module MetricsSink.

Import MetricsCollector.

(** How [json.dump] encodes the values of a row. *)
Fixpoint to_json (v : PyValue) : Json :=
  match v with
  | PyNone => JNull
  | PyInt n => JNum n
  | PyStr s => JStr s
  | PyTuple items => JArr (List.map to_json items)
  end.

Definition dict_to_json (d : Row) : Json :=
  JObj ((fun kv => (kv.1, to_json kv.2)) <$> d).

Definition newline : string := String (Ascii.ascii_of_nat 10) "".

Section WithSerializer.

(** [json.dumps] and [datetime.isoformat] are library functions; the writer
    is written over them. *)
Variable json_dumps : Json -> string.
Variable isoformat : Q -> string.

(** [asdict(dbms_data)] as [json.dump] sees it: the timestamp goes through
    [_default_json_serializer], which renders a [datetime] with
    [isoformat]. *)
Definition dbms_entry (dbms_data : DBMSMetricData) : Json :=
  JObj [("metric_name", JStr (metric_name dbms_data));
        ("timestamp", JStr (isoformat (dm_timestamp dbms_data)));
        ("data", dict_to_json (data dbms_data))].

(** [_append_to_jsonl_file]: [opened] tells whether [open(file_path, 'a')]
    succeeded; its [IOError] is logged and the file left as it was.  The
    keys of a row are strings and every other value goes through the
    default serializer, so [json.dump] raises no [TypeError]; a write that
    fails once the file is open is not modelled. *)
Definition _append_to_jsonl_file (opened : bool) (file : list string)
    (data_dict : Json) : list string * list LogRecord :=
  if opened then ((file ++ [(json_dumps data_dict ++ newline)%string])%list, [])
  else (file, [(ERROR, "IOError writing to log file")]).

Definition log_dbms_metric (opened : bool) (file : list string)
    (dbms_data : DBMSMetricData) : list string * list LogRecord :=
  let written := _append_to_jsonl_file opened file (dbms_entry dbms_data) in
  (written.1,
   (DEBUG, "DBMS Metric: " ++ metric_name dbms_data)%string :: written.2).

(** The records handed to the sink one after another, each with the outcome
    of its [open]. *)
Fixpoint log_all (writes : list (bool * DBMSMetricData)) (file : list string)
    : list string :=
  match writes with
  | [] => file
  | (opened, dbms_data) :: rest =>
      log_all rest (log_dbms_metric opened file dbms_data).1
  end.

End WithSerializer.

End MetricsSink.
(** ** core/models.py: the schema

    The fields the metadata refresh and the data generator read; the
    fields that only shape the DDL text ([unique], [default], [length],
    [precision], [scale], the indexes) and the Faker parameters are left
    out. *)

Module SchemaModels.

Record ColumnDefinition := {
  col_name : string;
  col_type : string;
  primary_key : bool;
  identity : bool;
  nullable : bool;
  generator : option string;
  foreign_key : option (gmap string string)
}.

Record TableSchema := {
  tbl_name : string;
  columns : list ColumnDefinition;
  row_count : Z
}.

Record SchemaConfig := {
  tables : list TableSchema
}.

End SchemaModels.

(** ** core/adapters.py: [SQLServerAdapter] *)

Module SQLServerAdapter.

(** What the cursor does with one statement: [cur.execute] raises
    [aioodbc.Error], or it runs and leaves [cur.description] (the column
    names), what [cur.fetchall()] gives ([None] here when it raises
    [aioodbc.Error]) and [cur.rowcount]. *)
Inductive CursorOutcome :=
| Fails
| Executes (description : option (list string))
    (fetchall : option (list (list PyValue))) (rowcount : Z).

(** The adapter: whether [self.pool] is set, and the cursor's answer to the
    statement of each numbered call. *)
Record Adapter := {
  pool : bool;
  cursor : nat -> string -> list PyValue -> CursorOutcome
}.

(** [d[k] = v] on a dictionary kept in insertion order: an existing key
    keeps its place and takes the new value. *)
Fixpoint setitem (k : string) (v : PyValue) (d : Row) : Row :=
  match d with
  | [] => [(k, v)]
  | (k', v') :: d' =>
      if decide (k' = k) then (k, v) :: d' else (k', v') :: setitem k v d'
  end.

(** [dict(pairs)]. *)
Definition dict (pairs : list (string * PyValue)) : Row :=
  foldl (fun d kv => setitem kv.1 kv.2 d) [] pairs.

(** [zip] stops at the shorter argument. *)
Definition zip {A B} (l : list A) (k : list B) : list (A * B) := combine l k.

Definition values (d : Row) : list PyValue := d.*2.

(** [d[k]] where [k in d]. *)
Fixpoint get (k : string) (d : Row) : option PyValue :=
  match d with
  | [] => None
  | (k', v) :: d' => if decide (k' = k) then Some v else get k d'
  end.

Definition execute_query (a : Adapter) (k : nat) (query : string)
    (params : list PyValue) (fetch_results : bool) : result RawResult :=
  if negb (pool a) then
    Raises (ConnectionError "Database connection pool is not initialized.")
  else
    match cursor a k query params with
    | Fails => Returns NoResult
    | Executes description fetchall rowcount =>
        if fetch_results then
          let columns := default [] description in
          match fetchall with
          | Some rows_tuples =>
              Returns (Rows ((fun row => dict (zip columns row)) <$> rows_tuples))
          | None => Returns NoResult
          end
        else Returns (RowCount rowcount)
    end.

(** Iterating or indexing a row count is a [TypeError]; with
    [fetch_results=True] [execute_query] never hands one back. *)
Definition not_a_list {A} : result A :=
  Raises (TypeError "'int' object is not iterable").

Definition min_max_query (table_name column_name : string) : string :=
  "SELECT MIN([" ++ column_name ++ "]), MAX([" ++ column_name
    ++ "]) FROM dbo.[" ++ table_name ++ "];".

Definition get_column_min_max (a : Adapter) (k : nat)
    (table_name column_name : string) : result (PyValue * PyValue) :=
  match execute_query a k (min_max_query table_name column_name) [] true with
  | Raises e => Raises e
  | Returns (Rows [row]) =>
      match values row with
      | [lo; hi] => Returns (lo, hi)
      | _ => Returns (PyNone, PyNone)
      end
  | Returns (Rows _) => Returns (PyNone, PyNone)
  | Returns (RowCount n) =>
      if n =? 0 then Returns (PyNone, PyNone) else not_a_list
  | Returns NoResult => Returns (PyNone, PyNone)
  end.

Definition sample_query (table_name column_name : string) (sample_size : Z)
    : string :=
  "SELECT TOP (" ++ pretty sample_size ++ ") [" ++ column_name
    ++ "] FROM dbo.[" ++ table_name ++ "] ORDER BY NEWID();".

Definition get_column_sample (a : Adapter) (k : nat)
    (table_name column_name : string) (sample_size : Z)
    : result (list PyValue) :=
  match execute_query a k (sample_query table_name column_name sample_size)
          [] true with
  | Raises e => Raises e
  | Returns (Rows results) => Returns (omap (get column_name) results)
  | Returns (RowCount n) => if n =? 0 then Returns [] else not_a_list
  | Returns NoResult => Returns []
  end.

End SQLServerAdapter.

(** ** core/schema_manager.py: [refresh_tables_metadata] *)

Module SchemaManager.

Import SchemaModels.

Section WithAdapter.

(** [db_adapter.get_column_min_max] at each numbered call; the identity
    values are integers. *)
Variable get_column_min_max :
  nat -> string -> string -> result (option Z * option Z).

(** The first column that is both primary key and identity. *)
Definition pk_column_def (table_cfg : TableSchema) : option ColumnDefinition :=
  List.find (fun col => primary_key col && identity col) (columns table_cfg).

(** The loop over the tables: [k] numbers the adapter calls made so far;
    an exception of the adapter leaves the entries stored before it. *)
Fixpoint refresh_tables (tables : list TableSchema) (k : nat)
    (tables_metadata : gmap string TableMeta)
    : result unit * gmap string TableMeta :=
  match tables with
  | [] => (Returns tt, tables_metadata)
  | table_cfg :: rest =>
      match pk_column_def table_cfg with
      | Some col =>
          match get_column_min_max k (tbl_name table_cfg) (col_name col) with
          | Raises e => (Raises e, tables_metadata)
          | Returns (Some lo, Some hi) =>
              refresh_tables rest (S k)
                (<[tbl_name table_cfg :=
                     {| pk_column := col_name col;
                        min_id := Some lo; max_id := Some hi |}]>
                   tables_metadata)
          | Returns _ =>
              refresh_tables rest (S k)
                (<[tbl_name table_cfg :=
                     {| pk_column := col_name col;
                        min_id := None; max_id := None |}]>
                   tables_metadata)
          end
      | None => refresh_tables rest k tables_metadata
      end
  end.

Definition refresh_tables_metadata (schema_config : SchemaConfig) (k : nat)
    : result unit * gmap string TableMeta :=
  refresh_tables (tables schema_config) k ∅.

End WithAdapter.

End SchemaManager.

(** ** core/data_generator.py *)

Module DataGenerator.

Import SchemaModels.

(** The generator with the trace of its [executemany] calls. *)
Record Generator := {
  events : nat;
  executemany_calls : list (string * list (list PyValue));
  logged : list LogRecord
}.

Abbreviation M := (StateExn Generator).

Definition next_event : M nat :=
  fun st =>
    (Returns (events st),
     {| events := S (events st); executemany_calls := executemany_calls st;
        logged := logged st |}).

Definition logger (level : LogLevel) (msg : string) : M unit :=
  fun st =>
    (Returns tt,
     {| events := events st; executemany_calls := executemany_calls st;
        logged := logged st ++ [(level, msg)] |}).

Definition record_executemany (sql : string) (batch : list (list PyValue))
    : M unit :=
  fun st =>
    (Returns tt,
     {| events := events st;
        executemany_calls := executemany_calls st ++ [(sql, batch)];
        logged := logged st |}).

(** [list(range(start, stop, step))]. *)
Definition range (start stop step : Z) : result (list Z) :=
  if step =? 0 then Raises (ValueError "range() arg 3 must not be zero")
  else
    let count :=
      if 0 <? step then (stop - start + step - 1) / step
      else (start - stop - step - 1) / (- step) in
    Returns ((fun j => start + Z.of_nat j * step) <$> seq 0 (Z.to_nat count)).

Definition join (sep : string) (parts : list string) : string :=
  String.concat sep parts.

Section WithWorld.

(** The random generator, and the value a column's Faker method yields
    once converted to the column's type (or the exception raised on the
    way). *)
Variable entropy : nat -> nat.
Variable faker_value : nat -> ColumnDefinition -> result PyValue.

(** The adapter: whether [self.db_adapter.pool] is set; what entering
    [pool.acquire()] and [conn.cursor()] comes to at each attempt; and, once
    the cursor is open, the outcome of [cur.executemany]. *)
Variable pool : bool.
Variable acquire : nat -> result unit.
Variable executemany : nat -> string -> list (list PyValue) -> result unit.

(** [schema_manager.tables_metadata] and [self.batch_size]. *)
Variable tables_metadata : gmap string TableMeta.
Variable batch_size : Z.

Definition _randbelow (n : nat) : M nat :=
  k ← next_event; ret (entropy k `mod` n)%nat.

Definition random_randint (a b : Z) : M Z :=
  if b - a + 1 <=? 0 then lift (Random.randint a b 0)
  else d ← _randbelow (Z.to_nat (b - a + 1)); lift (Random.randint a b d).

(** [None if col_def.nullable else v]. *)
Definition null_or (col_def : ColumnDefinition) (v : PyValue) : PyValue :=
  if nullable col_def then PyNone else v.

Definition foreign_key_value (col_def : ColumnDefinition)
    (fk_conf : gmap string string) : M PyValue :=
  match fk_conf !! "table" with
  | None => raise (KeyError "table")
  | Some ref_table_name =>
      let no_metadata : M PyValue :=
        logger WARNING "Ref table has no data/PK metadata. Using NULL.";;
        ret (null_or col_def (PyInt 0)) in
      match tables_metadata !! ref_table_name with
      | Some ref_table_meta =>
          match min_id ref_table_meta, max_id ref_table_meta with
          | Some lo, Some hi =>
              try_except
                (if lo =? hi then ret (PyInt lo)
                 else n ← random_randint lo hi; ret (PyInt n))
                (fun e => match e with
                          | ValueError _ =>
                              Some (logger WARNING "Cannot generate FK. Using NULL.";;
                                    ret (null_or col_def (PyInt 0)))
                          | _ => None
                          end)
          | _, _ => no_metadata
          end
      | None => no_metadata
      end
  end.

Definition generated_value (col_def : ColumnDefinition) : M PyValue :=
  k ← next_event;
  match faker_value k col_def with
  | Returns value => ret value
  | Raises _ =>
      logger ERROR "Error generating data for column";;
      ret (null_or col_def (PyStr "ErrorValue"))
  end.

(** The value appended for one column that is not an identity. *)
Definition column_value (col_def : ColumnDefinition) : M PyValue :=
  let otherwise : M PyValue :=
    if truthy_str (generator col_def) then generated_value col_def
    else ret (null_or col_def (PyStr "DefaultValue")) in
  match foreign_key col_def with
  | Some fk_conf =>
      if decide (fk_conf = ∅) then otherwise
      else foreign_key_value col_def fk_conf
  | None => otherwise
  end.

Fixpoint row_data_from (columns : list ColumnDefinition)
    (row_data : list PyValue) : M (list PyValue) :=
  match columns with
  | [] => ret row_data
  | col_def :: rest =>
      if identity col_def then row_data_from rest row_data
      else
        value ← column_value col_def;
        row_data_from rest (row_data ++ [value])%list
  end.

Definition _generate_row_data (table_cfg : TableSchema) : M (list PyValue) :=
  row_data_from (columns table_cfg) [].

(** *** [generate_data_for_table] *)

Definition column_names_for_insert (table_cfg : TableSchema) : list string :=
  (fun col => "[" ++ col_name col ++ "]")
    <$> filter (fun col => identity col = false) (columns table_cfg).

Definition insert_sql (table_cfg : TableSchema) (schema : string) : string :=
  let names := column_names_for_insert table_cfg in
  "INSERT INTO [" ++ schema ++ "].[" ++ tbl_name table_cfg ++ "] ("
    ++ join ", " names ++ ") VALUES ("
    ++ join ", " (replicate (length names) "?") ++ ");".

(** The inner loop: [n] rows appended to the batch. *)
Fixpoint batch_rows (table_cfg : TableSchema) (n : nat)
    (batch_data_tuples : list (list PyValue)) : M (list (list PyValue)) :=
  match n with
  | O => ret batch_data_tuples
  | S n' =>
      row_values ← _generate_row_data table_cfg;
      batch_rows table_cfg n' (batch_data_tuples ++ [row_values])%list
  end.

(** The body of the [try]: the connection and its cursor are entered
    first, and [executemany] is reached only with an open cursor. *)
Definition send_batch (sql : string) (batch_data_tuples : list (list PyValue))
    : M unit :=
  if pool then
    k ← next_event;
    lift (acquire k);;
    record_executemany sql batch_data_tuples;;
    lift (executemany k sql batch_data_tuples)
  else raise (AttributeError "'NoneType' object has no attribute 'acquire'").

(** The outer loop over the batch starts [i]; it carries
    [generated_count] and ends at the first batch whose sending raises
    ([break]). *)
Fixpoint insert_batches (table_cfg : TableSchema) (sql : string)
    (starts : list Z) (generated_count : Z) : M Z :=
  match starts with
  | [] => ret generated_count
  | i :: rest =>
      let current_batch_size := Z.min batch_size (row_count table_cfg - i) in
      batch_data_tuples ←
        batch_rows table_cfg (Z.to_nat current_batch_size) [];
      match batch_data_tuples with
      | [] => insert_batches table_cfg sql rest generated_count
      | _ :: _ =>
          sent ← try_except
                   (send_batch sql batch_data_tuples;; ret true)
                   (fun e =>
                      Some (logger ERROR "Error bulk inserting";;
                            logger ERROR "Problematic SQL";;
                            logger ERROR "Sample data";;
                            ret false));
          if sent : bool then
            let generated_count :=
              generated_count + Z.of_nat (length batch_data_tuples) in
            logger INFO ("Inserted rows. Total: " ++ pretty generated_count);;
            insert_batches table_cfg sql rest generated_count
          else ret generated_count
      end
  end.

Definition generate_data_for_table (table_cfg : TableSchema) : M unit :=
  if row_count table_cfg =? 0 then
    logger INFO "Skipping data generation (row_count is 0)."
  else
    logger INFO "Starting data generation";;
    match column_names_for_insert table_cfg with
    | [] => logger INFO "Table has only identity columns."
    | _ :: _ =>
        starts ← lift (range 0 (row_count table_cfg) batch_size);
        generated_count ←
          insert_batches table_cfg (insert_sql table_cfg "dbo") starts 0;
        logger INFO
          ("Data generation completed. Total rows: " ++ pretty generated_count)
    end.

End WithWorld.

End DataGenerator.

(** * Notions used in the statements *)

(** ** Weighted selection *)

Definition total_weight (workload_cfg : WorkloadConfig) : Z :=
  foldr (fun q_def acc => weight q_def + acc) 0 (queries workload_cfg).

(** Number of positions of [l] that hold [x]. *)
Definition occurrences `{EqDecision A} (x : A) (l : list A) : nat :=
  length (filter (fun y => y = x) l).

(** The expansion [weighted_queries] makes of a list of queries. *)
Definition expand (qs : list QueryDefinition) : list QueryDefinition :=
  flat_map (fun q_def => replicate (Z.to_nat (weight q_def)) q_def) qs.

(** ** What a computation leaves untouched, what it keeps true *)

(** [m] never changes the component [proj] of the state. *)
Definition frames {S T A} (proj : S -> T) (m : StateExn S A) : Prop :=
  ∀ st, proj (m st).2 = proj st.

(** [m] keeps [P] true of the state, whether it returns or raises. *)
Definition preserves {S A} (P : S -> Prop) (m : StateExn S A) : Prop :=
  ∀ st, P st → P (m st).2.

(** [m] returns, from every state. *)
Definition never_raises {S A} (m : StateExn S A) : Prop :=
  ∀ st, ∃ a, (m st).1 = Returns a.

(** ** The executor *)

(** What is stored for a fetched sample. *)
Definition stored_sample (sample_values : list PyValue) : list PyValue :=
  match sample_values with
  | [] => [PyStr "default_if_empty"]
  | _ => sample_values
  end.

(** Every sample fetched so far was fetched once and is in the cache. *)
Definition fetched_once (st : WorkloadExecutor.Executor) : Prop :=
  NoDup (WorkloadExecutor.fetch_calls st)
  ∧ ∀ tbl col size,
      (tbl, col, size) ∈ WorkloadExecutor.fetch_calls st →
      is_Some (WorkloadExecutor._param_cache st
               !! ("random_from_column_sample", tbl, col, size)).

(** The executor [n] interactions with the environment later, nothing else
    changed. *)
Definition later (n : nat) (st : WorkloadExecutor.Executor) : WorkloadExecutor.Executor :=
  {| WorkloadExecutor._param_cache := WorkloadExecutor._param_cache st;
     WorkloadExecutor.events := n + WorkloadExecutor.events st;
     WorkloadExecutor.fetch_calls := WorkloadExecutor.fetch_calls st;
     WorkloadExecutor.query_calls := WorkloadExecutor.query_calls st;
     WorkloadExecutor.query_log := WorkloadExecutor.query_log st;
     WorkloadExecutor.logged := WorkloadExecutor.logged st |}.

(** ** The sampler *)

(** Interactions a pass of the loop makes before it reads [time.time()]. *)
Definition os_events (monitoring_config : MonitoringConfig) : nat :=
  match os_metrics monitoring_config with
  | [] => 0
  | _ => 2
  end.

(** The interaction at which pass [j] of a loop started at interaction [e]
    reads [time.time()]. *)
Definition time_read (monitoring_config : MonitoringConfig) (e j : nat) : nat :=
  (e + (os_events monitoring_config + 2) * j + os_events monitoring_config)%nat.

(** The passes at which a metric of frequency 10 is due when the passes
    are one second apart. *)
Definition due_passes (first count : nat) : list nat :=
  filter (fun j => (j `mod` 10 = 0)%nat) (seq first count).

(** Where the last dispatch stands before pass [j]: none yet, or at a pass
    [d], a multiple of ten, less than ten passes ago. *)
Definition cadence_inv (t0 : Q) (j : nat) (last_run : Q) : Prop :=
  (j = 0%nat ∧ (last_run == 0)%Q)
  ∨ ∃ d : nat, (last_run == t0 + inject_Z (Z.of_nat d))%Q
               ∧ (d `mod` 10 = 0)%nat ∧ (d < j ≤ d + 10)%nat.

(** [now - last_run[name] >= frequency], on the [last_run] of [st]. *)
Definition is_due (now : Q) (st : ResourceMonitor.Monitor)
    (metric_cfg : MonitoringMetricConfig) : bool :=
  Qle_bool (inject_Z (frequency_seconds metric_cfg))
           (now - default 0%Q (ResourceMonitor._dbms_metric_last_run st
                               !! metric_cfg_name metric_cfg)).

(** The record built for row [i] of a result that arrived at interaction
    [arrival]: stamped with the clock reading taken for that row. *)
Definition record_of (w : World) (metric_cfg_name : string) (arrival : nat)
    (i : nat) (row : Row) : DBMSMetricData :=
  {| metric_name := metric_cfg_name;
     dm_timestamp := datetime_now w (arrival + i);
     data := row |}.

(** The states of the sampler: [Running] while the thread it holds is alive
    and the stop event clear, [Stopping] once the event is set and the
    thread has not returned, [Idle] otherwise. *)
Inductive Phase := Idle | Running | Stopping.

Definition phase (st : ResourceMonitor.Monitor) : Phase :=
  if ResourceMonitor.thread_is_running st
  then (if ResourceMonitor._stop_event st then Stopping else Running)
  else Idle.

(** ** More on the executor *)

(** [days] is a number of days [timedelta] accepts, and the reading [t]
    less that many days is a date [datetime] can hold. *)
Definition days_fit (t : Q) (days : Z) : Prop :=
  Z.abs days <= 999999999
  ∧ (WorkloadExecutor.datetime_min <= t - WorkloadExecutor.timedelta_days days)%Q
  ∧ (t - WorkloadExecutor.timedelta_days days <= WorkloadExecutor.datetime_max)%Q.

(** The two dates of a date range resolved from interaction [k] on fit. *)
Definition date_range_fits (w : World) (k : nat)
    (cfg : QueryParamGeneratorConfig) : Prop :=
  days_fit (datetime_now w k) (default 30 (start_days_ago cfg))
  ∧ days_fit (datetime_now w (S k)) (default 0 (end_days_ago cfg)).


(** The metric was emitted for workload [workload_name] and one of the
    queries of [pool]. *)
Definition labelled (workload_name : string) (pool : list QueryDefinition)
    (metric : QueryExecutionMetric) : Prop :=
  Models.workload_name metric = workload_name
  ∧ ∃ q, q ∈ pool ∧ query_name metric = name q ∧ query_template metric = template q.

(** The tasks a run is to create: for every enabled workload, in
    configuration order, as many as its concurrency. *)
Definition spawned (workloads_config : list WorkloadConfig) : list WorkloadConfig :=
  flat_map (fun workload_cfg =>
              replicate (Z.to_nat (concurrency workload_cfg)) workload_cfg)
           (filter (fun wl => enabled wl = true) workloads_config).

(** Tasks spawned for a list of workloads: the concurrency of each enabled
    one, a negative concurrency counting as none. *)
Definition task_count (workloads_config : list WorkloadConfig) : nat :=
  foldr (fun wl acc => ((if enabled wl then Z.to_nat (concurrency wl) else 0) + acc)%nat)
        0%nat workloads_config.

(** The metrics appended to [base] so far all bear the workload's name and
    one of the pool's queries. *)
Definition appended_labelled (workload_cfg : WorkloadConfig)
    (base : list QueryExecutionMetric) (st : WorkloadExecutor.Executor) : Prop :=
  ∃ new, WorkloadExecutor.query_log st = (base ++ new)%list
         ∧ Forall (labelled (wl_name workload_cfg) (WorkloadExecutor.weighted_queries workload_cfg))
                   new.

(** ** The metric log *)

(** The record the read-back builds from a line, if it builds one. *)
Definition entry_of (json_loads : string -> result MetricsCollector.Json)
    (fromisoformat : string -> result Q) (metric_name_filter : option string)
    (line : string) : option MetricsCollector.ReadBack :=
  match MetricsCollector.read_entry json_loads fromisoformat metric_name_filter line with
  | Returns (Some entry) => Some entry
  | _ => None
  end.

(** Reading the line raises. *)
Definition raises_on (json_loads : string -> result MetricsCollector.Json)
    (fromisoformat : string -> result Q) (metric_name_filter : option string)
    (line : string) : bool :=
  match MetricsCollector.read_entry json_loads fromisoformat metric_name_filter line with
  | Raises _ => true
  | Returns _ => false
  end.

(** Reading the line raises nothing but what the per-line clause catches. *)
Definition tolerated (json_loads : string -> result MetricsCollector.Json)
    (fromisoformat : string -> result Q) (metric_name_filter : option string)
    (line : string) : Prop :=
  ∀ e, MetricsCollector.read_entry json_loads fromisoformat metric_name_filter line
       = Raises e →
       MetricsCollector.caught_per_line e = true.

(** What the read-back makes of a record written by the sink. *)
Definition read_back_of (dbms_data : DBMSMetricData) : MetricsCollector.ReadBack :=
  {| MetricsCollector.rb_metric_name := MetricsCollector.JStr (metric_name dbms_data);
     MetricsCollector.rb_timestamp := dm_timestamp dbms_data;
     MetricsCollector.rb_data := MetricsSink.dict_to_json (data dbms_data) |}.

(** The record has the wanted name, or no name is wanted. *)
Definition wanted_by (metric_name_filter : option string) (dbms_data : DBMSMetricData)
    : bool :=
  match metric_name_filter with
  | Some wanted => String.eqb (metric_name dbms_data) wanted
  | None => true
  end.
(** ** The schema and the data generator *)

(** A foreign key that is set names the table it refers to. *)
Definition names_ref_table (col : SchemaModels.ColumnDefinition) : bool :=
  match SchemaModels.foreign_key col with
  | Some fk_conf =>
      bool_decide (fk_conf = ∅) || bool_decide (is_Some (fk_conf !! "table"))
  | None => true
  end.

(** The columns a generated row has a value for. *)
Definition inserted_columns (table_cfg : SchemaModels.TableSchema)
    : list SchemaModels.ColumnDefinition :=
  filter (fun col => SchemaModels.identity col = false)
    (SchemaModels.columns table_cfg).

(** The records of a batch that did not get through, and their number in
    the log. *)
Definition is_bulk_error (record : LogRecord) : bool :=
  match record with
  | (ERROR, msg) => String.eqb msg "Error bulk inserting"
  | _ => false
  end.

Definition bulk_insert_errors (st : DataGenerator.Generator) : nat :=
  length (filter (fun record => is_bulk_error record = true)
            (DataGenerator.logged st)).

(** The rows handed to [executemany], call after call. *)
Definition rows_sent (st : DataGenerator.Generator) : list (list PyValue) :=
  concat (snd <$> DataGenerator.executemany_calls st).

(** ** Concrete environments and inputs *)

Module Examples.

Definition no_reading : PsutilReading :=
  {| ps_fails := false; ps_cpu_percent := 0; ps_memory_percent := 0;
     ps_disk_io_counters := None |}.

Definition order_rows : list Row :=
  [[("wait_type", PyStr "PAGEIOLATCH_SH"); ("waiting_tasks_count", PyInt 4)];
   [("wait_type", PyStr "LCK_M_X"); ("waiting_tasks_count", PyInt 1)]].

(** A database that answers: every clock advances by one unit per
    interaction, [time.time()] by one second every second interaction from
    1700000000, queries return two rows and samples three values. *)
Definition answering : World :=
  {| entropy := fun k => k;
     perf_counter := fun k => inject_Z (Z.of_nat k);
     time_time := fun k => (1700000000 + inject_Z (Z.of_nat (k / 2)))%Q;
     datetime_now := fun k => inject_Z (Z.of_nat k);
     strftime := fun _ => "2024-01-01 00:00:00";
     stop_event_is_set := fun _ => false;
     wait_for_times_out := fun _ => false;
     psutil := fun _ => no_reading;
     get_column_sample := fun _ _ _ _ => Returns [PyInt 7; PyInt 8; PyInt 9];
     execute_query := fun _ _ _ => Returns (Rows order_rows) |}.

(** A database whose adapter raises on every call. *)
Definition disconnected : World :=
  {| entropy := fun k => k;
     perf_counter := fun k => inject_Z (Z.of_nat k);
     time_time := fun k => (1700000000 + inject_Z (Z.of_nat (k / 2)))%Q;
     datetime_now := fun k => inject_Z (Z.of_nat k);
     strftime := fun _ => "2024-01-01 00:00:00";
     stop_event_is_set := fun _ => false;
     wait_for_times_out := fun _ => false;
     psutil := fun _ => no_reading;
     get_column_sample := fun _ _ _ _ =>
       Raises (ConnectionError "Database connection pool is not initialized.");
     execute_query := fun _ _ _ =>
       Raises (ConnectionError "Database connection pool is not initialized.") |}.

Definition orders_42 : gmap string TableMeta :=
  {[ "Orders" := {| pk_column := "OrderID"; min_id := Some 42; max_id := Some 42 |} ]}.

Definition range_orders : QueryParamGeneratorConfig :=
  {| type := "random_int_from_column_range"; table := Some "Orders";
     column := Some "OrderID"; sample_size := None;
     start_days_ago := None; end_days_ago := None |}.

(** A range generator that names its table and no column. *)
Definition range_orders_no_column : QueryParamGeneratorConfig :=
  {| type := "random_int_from_column_range"; table := Some "Orders";
     column := None; sample_size := None;
     start_days_ago := None; end_days_ago := None |}.

Definition sample_customers : QueryParamGeneratorConfig :=
  {| type := "random_from_column_sample"; table := Some "Orders";
     column := Some "CustomerID"; sample_size := None;
     start_days_ago := None; end_days_ago := None |}.

Definition by_id : QueryDefinition :=
  {| name := "order_by_id"; template := "SELECT * FROM Orders WHERE OrderID = ?";
     weight := 3; param_generators := [range_orders] |}.

Definition by_customer : QueryDefinition :=
  {| name := "orders_by_customer";
     template := "SELECT * FROM Orders WHERE CustomerID = ?";
     weight := 1; param_generators := [sample_customers] |}.

Definition count_orders : QueryDefinition :=
  {| name := "count_orders"; template := "SELECT COUNT(1) FROM Orders";
     weight := 1; param_generators := [] |}.

Definition oltp : WorkloadConfig :=
  {| wl_name := "oltp"; wl_type := "OLTP"; enabled := true;
     duration_seconds := 60; concurrency := 2;
     queries := [by_id; by_customer] |}.

Definition counting : WorkloadConfig :=
  {| wl_name := "counting"; wl_type := "OLAP"; enabled := true;
     duration_seconds := 60; concurrency := 1;
     queries := [count_orders] |}.

(** [count_orders] listed twice, around [by_id]. *)
Definition listed_twice : WorkloadConfig :=
  {| wl_name := "listed_twice"; wl_type := "OLTP"; enabled := true;
     duration_seconds := 60; concurrency := 1;
     queries := [count_orders; by_id; count_orders] |}.

Definition no_queries : WorkloadConfig :=
  {| wl_name := "empty"; wl_type := "OLTP"; enabled := true;
     duration_seconds := 60; concurrency := 1; queries := [] |}.

Definition fresh_executor : WorkloadExecutor.Executor :=
  {| WorkloadExecutor._param_cache := ∅; WorkloadExecutor.events := 0;
     WorkloadExecutor.fetch_calls := []; WorkloadExecutor.query_calls := [];
     WorkloadExecutor.query_log := []; WorkloadExecutor.logged := [] |}.

(** An event loop on which nothing has run yet. *)
Definition idle_loop : WorkloadExecutor.EventLoop :=
  {| WorkloadExecutor.executor := fresh_executor;
     WorkloadExecutor.tasks := [];
     WorkloadExecutor.global_stop_event := false;
     WorkloadExecutor.gathered := None |}.

(** Of the tasks of a run, the second fails and the others finish. *)
Definition second_fails (i : nat) (workload_cfg : WorkloadConfig)
    : result WorkloadExecutor.TaskStatus :=
  if Nat.eqb i 1 then Raises (OSError "logging failed")
  else Returns WorkloadExecutor.Finished.

Definition wait_stats : MonitoringMetricConfig :=
  {| metric_cfg_name := "wait_stats";
     query := "SELECT wait_type, waiting_tasks_count FROM sys.dm_os_wait_stats";
     frequency_seconds := 10 |}.

Definition every_second : MonitoringConfig :=
  {| os_metrics := []; dbms_metrics := [wait_stats];
     monitoring_interval_seconds := 1 |}.

Definition idle_monitor : ResourceMonitor.Monitor :=
  {| ResourceMonitor._stop_event := false;
     ResourceMonitor._monitor_thread := None;
     ResourceMonitor._dbms_metric_last_run := {[ "wait_stats" := 0%Q ]};
     ResourceMonitor.alive := ∅;
     ResourceMonitor.events := 0;
     ResourceMonitor.dispatched := [];
     ResourceMonitor.system_log := [];
     ResourceMonitor.dbms_log := [];
     ResourceMonitor.logged := [] |}.

Definition running_monitor : ResourceMonitor.Monitor :=
  {| ResourceMonitor._stop_event := false;
     ResourceMonitor._monitor_thread := Some 0%nat;
     ResourceMonitor._dbms_metric_last_run := {[ "wait_stats" := 0%Q ]};
     ResourceMonitor.alive := {[ 0%nat ]};
     ResourceMonitor.events := 0;
     ResourceMonitor.dispatched := [];
     ResourceMonitor.system_log := [];
     ResourceMonitor.dbms_log := [];
     ResourceMonitor.logged := [] |}.

(** Two lines of a database-metric log: an entry whose timestamp is not in
    ISO format, and a well-formed entry. *)
Definition quoted (s : string) : string :=
  String (Ascii.ascii_of_nat 34) (s ++ String (Ascii.ascii_of_nat 34) "")%string.

Definition entry_line (stamp data : string) : string :=
  ("{" ++ quoted "metric_name" ++ ": " ++ quoted "wait_stats" ++ ", "
   ++ quoted "timestamp" ++ ": " ++ quoted stamp ++ ", "
   ++ quoted "data" ++ ": " ++ data ++ "}")%string.

Definition bad_stamp_line : string := entry_line "not-a-date" "{}".

Definition good_line : string :=
  entry_line "2024-01-01T00:00:00" ("{" ++ quoted "n" ++ ": 1}")%string.

Definition bad_stamp_entry : MetricsCollector.Json :=
  MetricsCollector.JObj
    [("metric_name", MetricsCollector.JStr "wait_stats");
     ("timestamp", MetricsCollector.JStr "not-a-date");
     ("data", MetricsCollector.JObj [])].

Definition good_entry : MetricsCollector.Json :=
  MetricsCollector.JObj
    [("metric_name", MetricsCollector.JStr "wait_stats");
     ("timestamp", MetricsCollector.JStr "2024-01-01T00:00:00");
     ("data", MetricsCollector.JObj [("n", MetricsCollector.JNum 1)])].

(** [json.loads] and [datetime.fromisoformat] on the strings of these two
    lines. *)
Definition loads_two_lines (line : string) : result MetricsCollector.Json :=
  if String.eqb line bad_stamp_line then Returns bad_stamp_entry
  else if String.eqb line good_line then Returns good_entry
  else Raises (JSONDecodeError "Expecting value").

Definition fromisoformat_2024 (s : string) : result Q :=
  if String.eqb s "2024-01-01T00:00:00" then Returns 1704067200%Q
  else Raises (ValueError "Invalid isoformat string").

End Examples.

(** ** Further environments and inputs *)

Module MoreExamples.

Import Examples SchemaModels.

Definition unknown_kind : QueryParamGeneratorConfig :=
  {| type := "uuid"; table := None; column := None; sample_size := None;
     start_days_ago := None; end_days_ago := None |}.


Definition sample_no_column : QueryParamGeneratorConfig :=
  {| type := "random_from_column_sample"; table := Some "Orders";
     column := None; sample_size := None;
     start_days_ago := None; end_days_ago := None |}.

(** The sample of [sample_customers] with its size spelled out. *)
Definition sample_customers_100 : QueryParamGeneratorConfig :=
  {| type := "random_from_column_sample"; table := Some "Orders";
     column := Some "CustomerID"; sample_size := Some 100;
     start_days_ago := None; end_days_ago := None |}.

Definition orders_inverted : gmap string TableMeta :=
  {[ "Orders" := {| pk_column := "OrderID"; min_id := Some 50; max_id := Some 10 |} ]}.

Definition weightless : WorkloadConfig :=
  {| wl_name := "weightless"; wl_type := "OLTP"; enabled := true;
     duration_seconds := 60; concurrency := 1;
     queries := [{| name := "never"; template := "SELECT 1"; weight := 0;
                    param_generators := [] |}] |}.

Definition switched_off : WorkloadConfig :=
  {| wl_name := "oltp"; wl_type := "OLTP"; enabled := false;
     duration_seconds := 60; concurrency := 2;
     queries := [by_id; by_customer] |}.

(** The answering database with the stop event set from the start. *)
Definition stopped : World :=
  {| entropy := entropy answering;
     perf_counter := perf_counter answering;
     time_time := time_time answering;
     datetime_now := datetime_now answering;
     strftime := strftime answering;
     stop_event_is_set := fun _ => true;
     wait_for_times_out := wait_for_times_out answering;
     psutil := psutil answering;
     get_column_sample := get_column_sample answering;
     execute_query := execute_query answering |}.


(** The disconnected database, with the stop event set from the twentieth
    interaction on. *)
Definition disconnected_then_stopped : World :=
  {| entropy := entropy disconnected;
     perf_counter := perf_counter disconnected;
     time_time := time_time disconnected;
     datetime_now := datetime_now disconnected;
     strftime := strftime disconnected;
     stop_event_is_set := fun k => Nat.leb 20 k;
     wait_for_times_out := wait_for_times_out disconnected;
     psutil := psutil disconnected;
     get_column_sample := get_column_sample disconnected;
     execute_query := execute_query disconnected |}.

(** A second metric under the name of [wait_stats]. *)
Definition wait_stats_again : MonitoringMetricConfig :=
  {| metric_cfg_name := "wait_stats";
     query := "SELECT COUNT(1) FROM sys.dm_os_wait_stats";
     frequency_seconds := 30 |}.

(** The processor load and the disk counters, on a host where [psutil]
    reports no disk counters ([no_reading]). *)
Definition host_cpu_disk : MonitoringConfig :=
  {| os_metrics := ["cpu_percent"; "disk_io_counters"]; dbms_metrics := [];
     monitoring_interval_seconds := 1 |}.

(** One record, and the library functions on it: [json.dumps] of its entry
    is [good_line], which [json.loads] reads back. *)
Definition wait_record : DBMSMetricData :=
  {| metric_name := "wait_stats"; dm_timestamp := 1704067200;
     data := [("n", PyInt 1)] |}.

Definition dumps_wait_record (entry : MetricsCollector.Json) : string := good_line.

Definition loads_written (line : string) : result MetricsCollector.Json :=
  if String.eqb line (good_line ++ MetricsSink.newline) then Returns good_entry
  else Raises (JSONDecodeError "Expecting value").

Definition isoformat_2024 (t : Q) : string := "2024-01-01T00:00:00".

(** Adapters: one whose driver reports both aggregates without a name, one
    whose driver reports the sampled column in upper case, one whose
    database rejects every statement. *)
Definition unnamed_aggregates : SQLServerAdapter.Adapter :=
  {| SQLServerAdapter.pool := true;
     SQLServerAdapter.cursor := fun _ _ _ =>
       SQLServerAdapter.Executes (Some [""; ""]) (Some [[PyInt 1; PyInt 500]]) (-1) |}.

Definition upper_case_names : SQLServerAdapter.Adapter :=
  {| SQLServerAdapter.pool := true;
     SQLServerAdapter.cursor := fun _ _ _ =>
       SQLServerAdapter.Executes (Some ["CUSTOMERID"])
         (Some [[PyInt 7]; [PyInt 8]]) (-1) |}.

Definition rejecting : SQLServerAdapter.Adapter :=
  {| SQLServerAdapter.pool := true;
     SQLServerAdapter.cursor := fun _ _ _ => SQLServerAdapter.Fails |}.

(** The answering environment with the samples read through [rejecting]. *)
Definition rejected_samples : World :=
  {| entropy := entropy answering;
     perf_counter := perf_counter answering;
     time_time := time_time answering;
     datetime_now := datetime_now answering;
     strftime := strftime answering;
     stop_event_is_set := stop_event_is_set answering;
     wait_for_times_out := wait_for_times_out answering;
     psutil := psutil answering;
     get_column_sample := SQLServerAdapter.get_column_sample rejecting;
     execute_query := execute_query answering |}.

(** A schema of one table: an identity key, a foreign key and a text. *)
Definition order_id : ColumnDefinition :=
  {| col_name := "OrderID"; col_type := "INT"; primary_key := true;
     identity := true; nullable := false; generator := None;
     foreign_key := None |}.

Definition customer_id : ColumnDefinition :=
  {| col_name := "CustomerID"; col_type := "INT"; primary_key := false;
     identity := false; nullable := false; generator := None;
     foreign_key := Some {[ "table" := "Customers"; "column" := "CustomerID" ]} |}.

Definition note : ColumnDefinition :=
  {| col_name := "Note"; col_type := "NVARCHAR"; primary_key := false;
     identity := false; nullable := true; generator := Some "sentence";
     foreign_key := None |}.

Definition orders : TableSchema :=
  {| tbl_name := "Orders"; columns := [order_id; customer_id; note];
     row_count := 5 |}.

Definition shop : SchemaConfig := {| tables := [orders] |}.

Definition bounds_1_500 (k : nat) (table_name column_name : string)
    : result (option Z * option Z) :=
  Returns (Some 1, Some 500).

Definition customers_1_9 : gmap string TableMeta :=
  {[ "Customers" := {| pk_column := "CustomerID"; min_id := Some 1; max_id := Some 9 |} ]}.

Definition fresh_generator : DataGenerator.Generator :=
  {| DataGenerator.events := 0; DataGenerator.executemany_calls := [];
     DataGenerator.logged := [] |}.

Definition sentences (k : nat) (col : ColumnDefinition) : result PyValue :=
  Returns (PyStr "lorem ipsum").

(** A connection that opens every time; a database that accepts every
    batch, and one that refuses every batch. *)
Definition opening (k : nat) : result unit := Returns tt.

Definition accepting (k : nat) (sql : string) (batch : list (list PyValue))
    : result unit :=
  Returns tt.

Definition refusing (k : nat) (sql : string) (batch : list (list PyValue))
    : result unit :=
  Raises (OSError "Communication link failure").

End MoreExamples.

(** * Properties *)

(** ** Weighted selection *)

Section WeightedSelection.

Import WorkloadExecutor.

Lemma filter_ext_elem {A} (P1 P2 : A -> Prop)
    `{!∀ x, Decision (P1 x)} `{!∀ x, Decision (P2 x)} (l : list A) :
  (∀ x, x ∈ l → P1 x ↔ P2 x) → filter P1 l = filter P2 l.
Proof.
  induction l as [|a l IH]; intros Hext; [done|].
  rewrite !filter_cons.
  assert (Ha : P1 a ↔ P2 a) by (apply Hext; left).
  rewrite IH by (intros x Hx; apply Hext; by right).
  destruct (decide (P1 a)), (decide (P2 a)); tauto || done.
Qed.

Lemma favourable_shift `{EqDecision A} (pool : list A) (x : A) (s : nat) :
  length (filter (fun d => Random.choice pool (d - s) = Returns x)
                 (seq s (length pool)))
  = occurrences x pool.
Proof.
  revert s. induction pool as [|a pool IH]; intros s; [done|].
  unfold occurrences. cbn [length seq]. rewrite !filter_cons.
  replace (s - s)%nat with 0%nat by lia. cbn [Random.choice lookup list_lookup].
  rewrite (filter_ext_elem _ (fun d => Random.choice pool (d - S s) = Returns x)).
  - specialize (IH (S s)). unfold occurrences in IH.
    destruct (decide (Returns a = Returns x)) as [Heq|Hne], (decide (a = x)) as [Hax|Hax];
      cbn [length]; try (rewrite IH; done).
    + congruence.
    + subst. done.
  - intros d Hd. apply elem_of_seq in Hd.
    replace (d - s)%nat with (S (d - S s)) by lia. done.
Qed.

Lemma favourable_occurrences `{EqDecision A} (pool : list A) (x : A) :
  length (Random.favourable pool x) = occurrences x pool.
Proof.
  unfold Random.favourable, Random.draws.
  rewrite <- (favourable_shift pool x 0).
  f_equal. apply filter_ext_elem. intros d _. by rewrite Nat.sub_0_r.
Qed.

Lemma occurrences_app `{EqDecision A} (x : A) (l1 l2 : list A) :
  occurrences x (l1 ++ l2) = (occurrences x l1 + occurrences x l2)%nat.
Proof. unfold occurrences. by rewrite filter_app, length_app. Qed.

Lemma occurrences_replicate_eq `{EqDecision A} (x : A) (n : nat) :
  occurrences x (replicate n x) = n.
Proof.
  unfold occurrences. induction n as [|n IH]; [done|].
  cbn [replicate]. rewrite filter_cons. destruct (decide (x = x)); [|done].
  cbn [length]. by rewrite IH.
Qed.

Lemma occurrences_replicate_ne `{EqDecision A} (x y : A) (n : nat) :
  y ≠ x → occurrences x (replicate n y) = 0%nat.
Proof.
  intros Hne. unfold occurrences. induction n as [|n IH]; [done|].
  cbn [replicate]. rewrite filter_cons. by destruct (decide (y = x)).
Qed.

Lemma occurrences_expand (q : QueryDefinition) (qs : list QueryDefinition) :
  occurrences q (expand qs) = (occurrences q qs * Z.to_nat (weight q))%nat.
Proof.
  induction qs as [|a qs IH]; [done|].
  unfold expand. cbn [flat_map]. rewrite occurrences_app.
  fold (expand qs). rewrite IH.
  unfold occurrences at 3. rewrite filter_cons.
  destruct (decide (a = q)) as [->|Hne].
  - rewrite occurrences_replicate_eq. cbn [length]. unfold occurrences. lia.
  - rewrite occurrences_replicate_ne by done. unfold occurrences. lia.
Qed.

Lemma length_expand (qs : list QueryDefinition) :
  (∀ q, q ∈ qs → 0 <= weight q) →
  Z.of_nat (length (expand qs)) = foldr (fun q_def acc => weight q_def + acc) 0 qs.
Proof.
  induction qs as [|a qs IH]; intros Hw; [done|].
  unfold expand. cbn [flat_map foldr]. rewrite length_app, length_replicate.
  fold (expand qs). rewrite Nat2Z.inj_add, IH by (intros; apply Hw; by right).
  rewrite Z2Nat.id by (apply Hw; left). done.
Qed.

(** C1 (amended). The pool of a workload task repeats each entry of the
    workload weight-many times: when every weight is at least 1, the pool
    has as many entries as the weights sum to, a query listed [k] times in
    the workload fills exactly [k * weight q] positions of the pool, and a
    uniform [random.choice] over the pool selects it with probability
    [k * weight q / total weight]; for a query listed once that is
    [weight q / total weight]. *)
Theorem C1_weighted_pool_probability
    (workload_cfg : WorkloadConfig) (q : QueryDefinition) :
  (∀ q', q' ∈ queries workload_cfg → 1 <= weight q') →
  let listed := Z.of_nat (occurrences q (queries workload_cfg)) in
  Z.of_nat (length (weighted_queries workload_cfg)) = total_weight workload_cfg
  ∧ Z.of_nat (occurrences q (weighted_queries workload_cfg)) = listed * weight q
  ∧ (Random.probability (weighted_queries workload_cfg) q
     == inject_Z (listed * weight q) / inject_Z (total_weight workload_cfg))%Q
  ∧ (listed = 1 →
     (Random.probability (weighted_queries workload_cfg) q
      == inject_Z (weight q) / inject_Z (total_weight workload_cfg))%Q).
Proof.
  intros Hw listed.
  assert (Hlen : Z.of_nat (length (weighted_queries workload_cfg))
                 = total_weight workload_cfg).
  { apply length_expand. intros q' Hq'. specialize (Hw q' Hq'). lia. }
  assert (Hocc : Z.of_nat (occurrences q (weighted_queries workload_cfg))
                 = listed * weight q).
  { unfold weighted_queries. fold (expand (queries workload_cfg)).
    rewrite occurrences_expand, Nat2Z.inj_mul. subst listed.
    destruct (occurrences q (queries workload_cfg)) as [|n] eqn:Hn; [lia|].
    assert (Hq : q ∈ queries workload_cfg).
    { unfold occurrences in Hn.
      destruct (filter (fun y => y = q) (queries workload_cfg)) as [|y l] eqn:Hf;
        [done|].
      assert (Hy : y ∈ filter (fun y => y = q) (queries workload_cfg))
        by (rewrite Hf; left).
      apply list_elem_of_filter in Hy as [-> Hy]. done. }
    specialize (Hw q Hq). rewrite Z2Nat.id by lia. done. }
  assert (Hprob : (Random.probability (weighted_queries workload_cfg) q
                   == inject_Z (listed * weight q)
                      / inject_Z (total_weight workload_cfg))%Q).
  { unfold Random.probability. rewrite favourable_occurrences, Hocc, Hlen.
    reflexivity. }
  split; [done|]. split; [done|]. split; [done|].
  intros Hone. rewrite Hprob, Hone, Z.mul_1_l. reflexivity.
Qed.

End WeightedSelection.

(** ** Frame reasoning: what a computation leaves untouched *)

Section Frames.

Context {S T : Type} (proj : S -> T).

Lemma frames_ret {A} (a : A) : frames proj (ret a).
Proof. by intros st. Qed.

Lemma frames_mret {A} (a : A) : frames proj (mret a : StateExn S A).
Proof. by intros st. Qed.

Lemma frames_raise {A} (e : exn) : frames proj (raise e : StateExn S A).
Proof. by intros st. Qed.

Lemma frames_lift {A} (r : result A) : frames proj (lift r : StateExn S A).
Proof. by intros st. Qed.

Lemma frames_bind {A B} (m : StateExn S A) (k : A -> StateExn S B) :
  frames proj m → (∀ a, frames proj (k a)) → frames proj (m ≫= k).
Proof.
  intros Hm Hk st. unfold mbind, StateExn_bind, bind.
  specialize (Hm st). destruct (m st) as [[a|e] st1]; cbn in *.
  - by rewrite Hk.
  - done.
Qed.

Lemma frames_try_except {A} (m : StateExn S A) (handler : exn -> option (StateExn S A)) :
  frames proj m → (∀ e h, handler e = Some h → frames proj h) →
  frames proj (try_except m handler).
Proof.
  intros Hm Hh st. unfold try_except.
  specialize (Hm st). destruct (m st) as [[a|e] st1]; cbn in *; [done|].
  destruct (handler e) as [h|] eqn:He; [|done].
  by rewrite (Hh e h He).
Qed.

End Frames.

(** Running a sequence whose first part returns. *)
Lemma bind_returns {S A B} (m : StateExn S A) (k : A -> StateExn S B)
    (st st1 : S) (a : A) :
  m st = (Returns a, st1) → (m ≫= k) st = k a st1.
Proof. intros Hm. unfold mbind, StateExn_bind, bind. by rewrite Hm. Qed.

Ltac frames_auto :=
  repeat first
    [ apply frames_ret | apply frames_mret | apply frames_raise | apply frames_lift
    | apply frames_bind
    | apply frames_try_except
    | match goal with
      | |- frames _ (match ?x with _ => _ end) => destruct x
      | |- frames _ (let _ := _ in _) => cbv zeta
      | H : (match ?e with _ => _ end) = Some _ |- _ => destruct e; try discriminate H
      | H : Some _ = Some _ |- _ => injection H as <-
      end
    | (intros st; reflexivity)
    | intro ].

(** ** Single query execution *)

Section SingleQuery.

Import WorkloadExecutor.

Variable w : World.
Variable tables_metadata : gmap string TableMeta.

Lemma generate_frames_query_log (cfg : QueryParamGeneratorConfig) :
  frames query_log (_generate_query_param w tables_metadata cfg).
Proof.
  unfold _generate_query_param, random_int_from_column_range,
    random_from_column_sample, resume_sample, sample_until_await,
    sample_after_await, pick_cached, date_range, random_randint, random_choice, _randbelow, now.
  frames_auto.
Qed.

Lemma resolve_frames_query_log (gens : list QueryParamGeneratorConfig) :
  ∀ params_list, frames query_log (resolve_params w tables_metadata gens params_list).
Proof.
  induction gens as [|g gens IH]; intros params_list; cbn [resolve_params].
  - apply frames_mret.
  - apply frames_bind; [apply generate_frames_query_log|]. intros v. apply IH.
Qed.

(** C2. A single query execution whose call to [execute_query] returns a
    result [raw] ([None] included) hands exactly one metric to the metrics
    collector; its duration is not negative (the performance counter is
    monotonic), [success] holds exactly when [raw] is not [None], and the row
    count is the length of a list result, the value of an integer result,
    and absent for [None].  The call to the adapter is the second interaction
    after the parameters are resolved, the first being the reading of the
    performance counter. *)
Theorem C2_one_metric_per_execution
    (workload_name : string) (query_def : QueryDefinition)
    (st st1 : Executor) (params : list PyValue) (raw : RawResult) :
  (∀ i j, (i ≤ j)%nat → (perf_counter w i <= perf_counter w j)%Q) →
  resolve_params w tables_metadata (param_generators query_def) [] st
    = (Returns params, st1) →
  execute_query w (S (events st1)) (template query_def) params = Returns raw →
  ∃ metric st',
    _execute_single_query_instance w tables_metadata workload_name query_def st
      = (Returns tt, st')
    ∧ query_log st' = (query_log st ++ [metric])%list
    ∧ (0 <= duration_ms metric)%Q
    ∧ (success metric = true ↔ raw ≠ NoResult)
    ∧ rows_affected_or_fetched metric
      = match raw with
        | Rows rows => Some (Z.of_nat (length rows))
        | RowCount n => Some n
        | NoResult => None
        end
    ∧ parameters metric = params
    ∧ query_name metric = name query_def
    ∧ Models.workload_name metric = workload_name.
Proof.
  intros Hmono Hres Hexec.
  pose proof (resolve_frames_query_log (param_generators query_def) [] st) as Hframe.
  rewrite Hres in Hframe. cbn in Hframe.
  unfold _execute_single_query_instance.
  unfold mbind at 1. unfold StateExn_bind, bind. rewrite Hres.
  unfold read_perf_counter, db_execute_query, now, mbind, StateExn_bind, bind,
    next_event, record_query, lift, mret, StateExn_ret, ret. cbn.
  rewrite Hexec.
  assert (perf_counter w (events st1) <= perf_counter w (S (S (events st1))))%Q
    as Hclock by (apply Hmono; lia).
  destruct raw; cbn; (eexists _, _; split; [reflexivity|]); cbn;
    rewrite Hframe; repeat split; try done.
  all: cbn [duration_ms]; lra.
Qed.

End SingleQuery.

(** ** Parameter generation: [random_int_from_column_range] *)

Section RangeFromTable.

Import WorkloadExecutor.

Variable w : World.
Variable tables_metadata : gmap string TableMeta.

Lemma generate_range_eq (cfg : QueryParamGeneratorConfig) :
  type cfg = "random_int_from_column_range" →
  _generate_query_param w tables_metadata cfg
  = random_int_from_column_range w tables_metadata cfg.
Proof. intros Ht. unfold _generate_query_param. by rewrite Ht. Qed.

(** [random.randint lo hi] on a non-empty range: the value is [lo] plus the
    draw, within the bounds. *)
Lemma random_randint_in_range (lo hi : Z) (st : Executor) :
  lo <= hi →
  ∃ d : nat,
    d = (entropy w (events st) `mod` Z.to_nat (hi - lo + 1))%nat
    ∧ (random_randint w lo hi st).1 = Returns (lo + Z.of_nat d)
    ∧ lo <= lo + Z.of_nat d <= hi
    ∧ logged (random_randint w lo hi st).2 = logged st.
Proof.
  intros Hle. eexists. split; [reflexivity|].
  unfold random_randint, _randbelow, Random.randint, next_event, lift.
  cbn. destruct (Z.leb_spec (hi - lo + 1) 0) as [?|_]; [lia|].
  cbn. repeat split; try lia.
  pose proof (Nat.mod_upper_bound (entropy w (events st)) (Z.to_nat (hi - lo + 1))).
  lia.
Qed.

(** Over the equally likely draws, [randint lo hi] takes each value of
    [lo .. hi] exactly once. *)
Lemma randint_uniform (lo hi : Z) :
  lo <= hi →
  Random.randint lo hi <$> Random.draws (Z.to_nat (hi - lo + 1))
  = Returns <$> seqZ lo (hi - lo + 1).
Proof.
  intros Hle. unfold Random.draws, seqZ. rewrite <- !list_fmap_compose.
  apply list_fmap_ext. intros i d _. cbn.
  unfold Random.randint. destruct (Z.leb_spec (hi - lo + 1) 0); [lia|]. f_equal. lia.
Qed.

(** C4 (amended). A [random_int_from_column_range] resolution never raises
    and yields an integer.  When the generator names no table or no column,
    the result is the fallback 1 with a warning, whatever the metadata holds.
    When it names both: with both bounds present and equal the result is that
    constant; with [min < max] it is [min] plus the generator's draw, within
    [min, max], every value of the interval being the image of exactly one of
    the equally likely draws; with the metadata or one of its bounds absent
    the result is the fallback 1 with a warning. *)
Theorem C4_range_from_table (cfg : QueryParamGeneratorConfig) (st : Executor) :
  type cfg = "random_int_from_column_range" →
  let run := _generate_query_param w tables_metadata cfg st in
  (∃ n, run.1 = Returns (PyInt n))
  ∧ (truthy_str (table cfg) = false ∨ truthy_str (column cfg) = false →
     run.1 = Returns (PyInt 1)
     ∧ ∃ msg, logged run.2 = (logged st ++ [(WARNING, msg)])%list)
  ∧ (truthy_str (table cfg) = true → truthy_str (column cfg) = true →
     ∀ tbl, table cfg = Some tbl →
       (∀ meta lo hi,
          tables_metadata !! tbl = Some meta →
          min_id meta = Some lo → max_id meta = Some hi →
          (lo = hi → run.1 = Returns (PyInt lo))
          ∧ (lo < hi →
             (∃ d : nat,
                d = (entropy w (events st) `mod` Z.to_nat (hi - lo + 1))%nat
                ∧ run.1 = Returns (PyInt (lo + Z.of_nat d))
                ∧ lo <= lo + Z.of_nat d <= hi)
             ∧ Random.randint lo hi <$> Random.draws (Z.to_nat (hi - lo + 1))
               = Returns <$> seqZ lo (hi - lo + 1)))
       ∧ (tables_metadata !! tbl = None
          ∨ (∃ meta, tables_metadata !! tbl = Some meta
                     ∧ (min_id meta = None ∨ max_id meta = None)) →
          run.1 = Returns (PyInt 1)
          ∧ ∃ msg, logged run.2 = (logged st ++ [(WARNING, msg)])%list)).
Proof.
  intros Ht run. subst run. rewrite (generate_range_eq cfg Ht).
  unfold random_int_from_column_range.
  destruct (truthy_str (table cfg)) eqn:Htbl; cbn [negb orb];
    [destruct (truthy_str (column cfg)) eqn:Hcol; cbn [negb orb]|].
  2,3: (split; [by eexists|]); split; [intros _; split; [done|by eexists]|done].
  assert (Hrand : ∀ lo hi,
    (∃ n, (try_except (n ← random_randint w lo hi; ret (PyInt n))
             (fun e => match e with
                       | ValueError _ =>
                           Some (logger WARNING "Range invalid. Default 1.";;
                                 ret (PyInt 1))
                       | _ => None
                       end) st).1 = Returns (PyInt n))).
  { intros lo hi. unfold try_except, random_randint, _randbelow, Random.randint,
      mbind, StateExn_bind, bind, next_event, lift, ret. cbn.
    destruct (hi - lo + 1 <=? 0); cbn; by eexists. }
  split.
  { destruct (tables_metadata !! default "" (table cfg)) as [meta|]; [|by eexists].
    destruct (min_id meta) as [lo|], (max_id meta) as [hi|]; try by eexists.
    apply Hrand. }
  split; [intros [?|?]; discriminate|].
  intros _ _ tbl Htable. rewrite Htable.
  change (default "" (Some tbl)) with tbl.
  split.
  - intros meta lo hi Hmeta Hlo Hhi. rewrite Hmeta, Hlo, Hhi.
    assert (Hin : lo <= hi →
      ∃ d : nat,
        d = (entropy w (events st) `mod` Z.to_nat (hi - lo + 1))%nat
        ∧ (try_except (n ← random_randint w lo hi; ret (PyInt n))
             (fun e => match e with
                       | ValueError _ =>
                           Some (logger WARNING "Range invalid. Default 1.";;
                                 ret (PyInt 1))
                       | _ => None
                       end) st).1 = Returns (PyInt (lo + Z.of_nat d))
        ∧ lo <= lo + Z.of_nat d <= hi).
    { intros Hle. destruct (random_randint_in_range lo hi st Hle) as (d & Hd & Hr & Hb & _).
      exists d. split; [done|]. split; [|done].
      unfold try_except, mbind, StateExn_bind, bind.
      destruct (random_randint w lo hi st) as [r st1]. cbn in Hr. by rewrite Hr. }
    split.
    + intros ->. destruct Hin as (d & Hd & Hr & Hb); [lia|].
      rewrite Hr. do 2 f_equal. lia.
    + intros Hlt. split; [apply Hin; lia|]. apply randint_uniform. lia.
  - intros [Hnone|(meta & Hmeta & Hb)].
    + rewrite Hnone. split; [done|by eexists].
    + rewrite Hmeta. destruct Hb as [Hb|Hb]; rewrite Hb.
      * split; [done|by eexists].
      * destruct (min_id meta); (split; [done|by eexists]).
Qed.

End RangeFromTable.

(** ** Invariants carried through a computation *)

Section Preserves.

Context {S : Type} (P : S -> Prop).

Lemma preserves_mret {A} (a : A) : preserves P (mret a : StateExn S A).
Proof. by intros st. Qed.

Lemma preserves_ret {A} (a : A) : preserves P (ret a : StateExn S A).
Proof. by intros st. Qed.

Lemma preserves_raise {A} (e : exn) : preserves P (raise e : StateExn S A).
Proof. by intros st. Qed.

Lemma preserves_lift {A} (r : result A) : preserves P (lift r : StateExn S A).
Proof. by intros st. Qed.

Lemma preserves_bind {A B} (m : StateExn S A) (k : A -> StateExn S B) :
  preserves P m → (∀ a, preserves P (k a)) → preserves P (m ≫= k).
Proof.
  intros Hm Hk st HP. unfold mbind, StateExn_bind, bind.
  specialize (Hm st HP). destruct (m st) as [[a|e] st1]; cbn in *; [by apply Hk|done].
Qed.

Lemma preserves_try_except {A} (m : StateExn S A)
    (handler : exn -> option (StateExn S A)) :
  preserves P m → (∀ e h, handler e = Some h → preserves P h) →
  preserves P (try_except m handler).
Proof.
  intros Hm Hh st HP. unfold try_except.
  specialize (Hm st HP). destruct (m st) as [[a|e] st1]; cbn in *; [done|].
  destruct (handler e) as [h|] eqn:He; [|done]. by apply (Hh e h He).
Qed.

End Preserves.

Ltac preserves_auto :=
  repeat first
    [ apply preserves_ret | apply preserves_mret | apply preserves_raise
    | apply preserves_lift
    | apply preserves_bind
    | apply preserves_try_except
    | match goal with
      | |- preserves _ (match ?x with _ => _ end) => destruct x
      | |- preserves _ (let _ := _ in _) => cbv zeta
      | H : (match ?e with _ => _ end) = Some _ |- _ => destruct e; try discriminate H
      | H : Some _ = Some _ |- _ => injection H as <-
      end
    | (intros st Hst; exact Hst)
    | intro ].

(** The same, for an invariant that bounds the number of interactions from
    below. *)
Ltac advances_auto :=
  repeat first
    [ apply preserves_ret | apply preserves_mret | apply preserves_raise
    | apply preserves_lift
    | apply preserves_bind
    | apply preserves_try_except
    | match goal with
      | |- preserves _ (match ?x with _ => _ end) => destruct x
      | |- preserves _ (let _ := _ in _) => cbv zeta
      | H : (match ?e with _ => _ end) = Some _ |- _ => destruct e; try discriminate H
      | H : Some _ = Some _ |- _ => injection H as <-
      end
    | (intros ?st ?Hst; cbn in *; lia)
    | intro ].

(** ** Parameter generation: [random_from_column_sample] and its cache *)

Section SampleCache.

Import WorkloadExecutor.

Variable w : World.
Variable tables_metadata : gmap string TableMeta.

Lemma stored_sample_nonempty (l : list PyValue) : stored_sample l ≠ [].
Proof. by destruct l. Qed.

Lemma random_choice_elem {A} (l : list A) (st : Executor) :
  l ≠ [] →
  ∃ v, (random_choice w l st).1 = Returns v ∧ v ∈ l
       ∧ _param_cache (random_choice w l st).2 = _param_cache st
       ∧ fetch_calls (random_choice w l st).2 = fetch_calls st.
Proof.
  intros Hl. unfold random_choice, _randbelow, Random.choice, next_event, lift,
    mbind, StateExn_bind, bind, mret, StateExn_ret, ret. cbn.
  assert (Hlt : (entropy w (events st) `mod` length l < length l)%nat).
  { apply Nat.mod_upper_bound. destruct l; [done|]. cbn. lia. }
  destruct (lookup_lt_is_Some_2 l _ Hlt) as [v Hv].
  rewrite Hv. exists v. repeat split; [|done..].
  by apply list_elem_of_lookup_2 in Hv.
Qed.

Lemma pick_cached_hit (key : CacheKey) (l : list PyValue) (st : Executor) :
  _param_cache st !! key = Some l → l ≠ [] →
  ∃ v, (pick_cached w key st).1 = Returns v ∧ v ∈ l
       ∧ _param_cache (pick_cached w key st).2 = _param_cache st
       ∧ fetch_calls (pick_cached w key st).2 = fetch_calls st.
Proof.
  intros Hkey Hl. unfold pick_cached, get_param_cache, mbind, StateExn_bind, bind.
  rewrite Hkey. destruct l as [|x l]; [done|].
  apply (random_choice_elem (x :: l) st Hl).
Qed.

Lemma generate_sample_eq (cfg : QueryParamGeneratorConfig) :
  type cfg = "random_from_column_sample" →
  _generate_query_param w tables_metadata cfg
  = random_from_column_sample w cfg.
Proof. intros Ht. unfold _generate_query_param. by rewrite Ht. Qed.

(** On a miss the call is recorded, the answer stored, and the value picked
    from the stored list. *)
Lemma sample_miss_eq (cfg : QueryParamGeneratorConfig) (st : Executor)
    (tbl col : string) (fetched : list PyValue) :
  truthy_str (table cfg) = true → truthy_str (column cfg) = true →
  table cfg = Some tbl → column cfg = Some col →
  let size := or_default (sample_size cfg) 100 in
  let key := (type cfg, tbl, col, size) in
  _param_cache st !! key = None →
  get_column_sample w (events st) tbl col size = Returns fetched →
  random_from_column_sample w cfg st
  = pick_cached w key
      {| _param_cache := <[key := stored_sample fetched]> (_param_cache st);
         events := S (events st);
         fetch_calls := fetch_calls st ++ [(tbl, col, size)];
         query_calls := query_calls st;
         query_log := query_log st;
         logged := logged st |}.
Proof.
  intros Ht Hc Htbl Hcol size key Hmiss Hfetch.
  unfold random_from_column_sample, sample_until_await.
  rewrite Ht, Hc, Htbl, Hcol. cbn [negb orb default from_option id].
  fold size. fold key.
  unfold mbind at 1 2. unfold StateExn_bind, bind, get_param_cache.
  rewrite Hmiss.
  unfold next_event, record_fetch, mbind, StateExn_bind, bind, mret, StateExn_ret, ret.
  cbn. rewrite Hfetch.
  unfold sample_after_await, lift, get_param_cache, set_param_cache, mbind,
    StateExn_bind, bind. cbn.
  reflexivity.
Qed.

Lemma sample_hit_eq (cfg : QueryParamGeneratorConfig) (st : Executor)
    (tbl col : string) (cached : list PyValue) :
  truthy_str (table cfg) = true → truthy_str (column cfg) = true →
  table cfg = Some tbl → column cfg = Some col →
  let key := (type cfg, tbl, col, or_default (sample_size cfg) 100) in
  _param_cache st !! key = Some cached →
  random_from_column_sample w cfg st = pick_cached w key st.
Proof.
  intros Ht Hc Htbl Hcol key Hhit.
  unfold random_from_column_sample, sample_until_await.
  rewrite Ht, Hc, Htbl, Hcol. cbn [negb orb default from_option id].
  fold key.
  unfold mbind at 1 2. unfold StateExn_bind, bind, get_param_cache.
  rewrite Hhit.
  unfold mbind, StateExn_bind, bind.
  destruct (pick_cached w key st) as [[v|e] st2]; reflexivity.
Qed.

Lemma pick_cached_preserves (key : CacheKey) :
  preserves fetched_once (pick_cached w key).
Proof.
  unfold pick_cached, random_choice, _randbelow, get_param_cache.
  preserves_auto.
Qed.

Hypothesis fetch_returns :
  ∀ k tbl col size, ∃ l, get_column_sample w k tbl col size = Returns l.

Lemma sample_preserves (cfg : QueryParamGeneratorConfig) :
  type cfg = "random_from_column_sample" →
  preserves fetched_once (random_from_column_sample w cfg).
Proof.
  intros Htype st Hinv.
  destruct (truthy_str (table cfg)) eqn:Ht; [destruct (truthy_str (column cfg)) eqn:Hc|].
  2,3: unfold random_from_column_sample, sample_until_await; rewrite Ht, ?Hc; exact Hinv.
  destruct (table cfg) as [tbl|] eqn:Htbl; [|done].
  destruct (column cfg) as [col|] eqn:Hcol; [|done].
  set (size := or_default (sample_size cfg) 100).
  set (key := (type cfg, tbl, col, size)).
  destruct (_param_cache st !! key) as [cached|] eqn:Hlook.
  - rewrite (sample_hit_eq cfg st tbl col cached); try done; try (by rewrite ?Htbl, ?Hcol).
    by apply pick_cached_preserves.
  - destruct (fetch_returns (events st) tbl col size) as [l Hl].
    rewrite (sample_miss_eq cfg st tbl col l); try done; try (by rewrite ?Htbl, ?Hcol).
    apply pick_cached_preserves. fold size key.
    destruct Hinv as [Hnd Hdom]. split; cbn.
    + apply NoDup_app. split; [done|]. split; [|apply NoDup_singleton].
      intros call Hcall Hin. apply list_elem_of_singleton in Hin as ->.
      apply Hdom in Hcall. subst key. rewrite Htype in Hlook.
      rewrite Hlook in Hcall. by destruct Hcall.
    + intros t c n Hin. apply elem_of_app in Hin as [Hin|Hin].
      * apply Hdom in Hin. destruct Hin as [x Hx].
        destruct (decide (key = ("random_from_column_sample", t, c, n))) as [<-|Hne].
        -- rewrite lookup_insert_eq. by eexists.
        -- rewrite lookup_insert_ne by done. by eexists.
      * apply list_elem_of_singleton in Hin. injection Hin as -> -> ->.
        subst key. rewrite Htype. rewrite lookup_insert_eq. by eexists.
Qed.

Lemma generate_preserves (cfg : QueryParamGeneratorConfig) :
  preserves fetched_once (_generate_query_param w tables_metadata cfg).
Proof.
  unfold _generate_query_param.
  destruct (String.eqb_spec (type cfg) "random_int_from_column_range") as [_|_].
  { unfold random_int_from_column_range, random_randint, _randbelow. preserves_auto. }
  destruct (String.eqb_spec (type cfg) "random_from_column_sample") as [Hs|_].
  { by apply sample_preserves. }
  destruct (String.eqb_spec (type cfg) "date_range") as [_|_].
  { unfold date_range, now. preserves_auto. }
  preserves_auto.
Qed.

Lemma resolve_preserves (gens : list QueryParamGeneratorConfig) :
  ∀ params_list,
    preserves fetched_once (resolve_params w tables_metadata gens params_list).
Proof.
  induction gens as [|g gens IH]; intros params_list; cbn [resolve_params].
  - apply preserves_mret.
  - apply preserves_bind; [apply generate_preserves|]. intros v. apply IH.
Qed.

Lemma execute_preserves (workload_name : string) (query_def : QueryDefinition) :
  preserves fetched_once
    (_execute_single_query_instance w tables_metadata workload_name query_def).
Proof.
  unfold _execute_single_query_instance.
  apply preserves_bind; [apply resolve_preserves|]. intros params.
  unfold read_perf_counter, db_execute_query, now. preserves_auto.
Qed.

Lemma loop_preserves (fuel : nat) (workload_cfg : WorkloadConfig)
    (pool : list QueryDefinition) (start : Q) :
  preserves fetched_once (workload_loop w tables_metadata fuel workload_cfg pool start).
Proof.
  induction fuel as [|fuel IH]; cbn [workload_loop]; [apply preserves_mret|].
  apply preserves_bind; [by intros st Hst|]. intros k.
  destruct (stop_event_is_set w k); [apply preserves_mret|].
  apply preserves_bind; [unfold read_time; preserves_auto|]. intros t.
  destruct (Qle_bool _ _); [apply preserves_mret|].
  apply preserves_bind; [unfold random_choice, _randbelow; preserves_auto|].
  intros query_to_run.
  apply preserves_bind.
  { apply preserves_try_except; [apply execute_preserves|].
    intros e h [= <-]. by intros st Hst. }
  intros _. apply preserves_bind; [unfold jitter_sleep; preserves_auto|].
  intros _. apply IH.
Qed.

Lemma task_preserves (fuel : nat) (workload_cfg : WorkloadConfig) :
  preserves fetched_once (_run_workload_task w tables_metadata fuel workload_cfg).
Proof.
  unfold _run_workload_task.
  apply preserves_bind; [by intros st Hst|]. intros _.
  destruct (weighted_queries workload_cfg) as [|q pool]; [preserves_auto|].
  apply preserves_bind; [unfold read_time; preserves_auto|]. intros start.
  apply preserves_bind; [apply loop_preserves|]. intros status.
  preserves_auto.
Qed.

(** C5 (amended). When the adapter's fetches return and a resolution is not
    overtaken by another between its look-up and its store: a
    [random_from_column_sample] resolution that misses the cache issues one
    fetch, stores the fetched list under its key (the one-element fallback
    list when the fetch is empty) and returns an element of the stored list;
    a resolution that finds a non-empty list under its key issues no fetch,
    leaves the cache as it is and returns an element of that list; and a
    workload task running on its own from an empty fetch record issues no
    fetch twice. *)
Theorem C5_one_fetch_per_key_in_turn :
  (∀ (cfg : QueryParamGeneratorConfig) (st : Executor) (tbl col : string),
     type cfg = "random_from_column_sample" →
     truthy_str (table cfg) = true → truthy_str (column cfg) = true →
     table cfg = Some tbl → column cfg = Some col →
     let size := or_default (sample_size cfg) 100 in
     let key := ("random_from_column_sample", tbl, col, size) in
     let run := _generate_query_param w tables_metadata cfg st in
     (_param_cache st !! key = None →
      ∃ fetched,
        get_column_sample w (events st) tbl col size = Returns fetched
        ∧ fetch_calls run.2 = (fetch_calls st ++ [(tbl, col, size)])%list
        ∧ _param_cache run.2 = <[key := stored_sample fetched]> (_param_cache st)
        ∧ ∃ v, run.1 = Returns v ∧ v ∈ stored_sample fetched)
     ∧ (∀ cached,
          _param_cache st !! key = Some cached → cached ≠ [] →
          fetch_calls run.2 = fetch_calls st
          ∧ _param_cache run.2 = _param_cache st
          ∧ ∃ v, run.1 = Returns v ∧ v ∈ cached))
  ∧ (∀ (fuel : nat) (workload_cfg : WorkloadConfig) (st : Executor),
       fetch_calls st = [] →
       NoDup (fetch_calls (_run_workload_task w tables_metadata fuel workload_cfg st).2)).
Proof.
  split.
  - intros cfg st tbl col Htype Ht Hc Htbl Hcol size key run. subst run.
    rewrite (generate_sample_eq cfg Htype).
    assert (Hkey : key = (type cfg, tbl, col, size)) by (by rewrite Htype).
    split.
    + intros Hmiss. destruct (fetch_returns (events st) tbl col size) as [l Hl].
      exists l. split; [done|].
      rewrite Hkey in *.
      rewrite (sample_miss_eq cfg st tbl col l Ht Hc Htbl Hcol Hmiss Hl).
      match goal with
      | |- context [pick_cached w ?k ?s] => set (st2 := s); set (k2 := k)
      end.
      destruct (pick_cached_hit k2 (stored_sample l) st2)
        as (v & Hv & Hin & Hc2 & Hf2).
      { subst st2 k2. cbn. apply lookup_insert_eq. }
      { apply stored_sample_nonempty. }
      rewrite Hf2, Hc2. subst st2. cbn. repeat split; eauto.
    + intros cached Hhit Hne. rewrite Hkey in *.
      rewrite (sample_hit_eq cfg st tbl col cached Ht Hc Htbl Hcol Hhit).
      destruct (pick_cached_hit _ cached st Hhit Hne) as (v & Hv & Hin & Hc2 & Hf2).
      repeat split; eauto.
  - intros fuel workload_cfg st Hempty.
    apply (task_preserves fuel workload_cfg st).
    split; rewrite Hempty; [apply NoDup_nil_2|]. intros ??? Hin.
    by apply elem_of_nil in Hin.
Qed.

End SampleCache.

(** ** The workload task and [run_all_workloads] *)

Section WorkloadTask.

Import WorkloadExecutor.

Variable w : World.
Variable tables_metadata : gmap string TableMeta.

Lemma never_raises_mret {A} (a : A) : never_raises (mret a : M A).
Proof. intros st. by exists a. Qed.

Lemma never_raises_bind {A B} (m : M A) (k : A -> M B) :
  never_raises m → (∀ a, never_raises (k a)) → never_raises (m ≫= k).
Proof.
  intros Hm Hk st. unfold mbind, StateExn_bind, bind.
  destruct (Hm st) as [a Ha]. destruct (m st) as [r st1]. cbn in Ha. subst r.
  apply Hk.
Qed.

Lemma never_raises_try_except {A} (m : M A) (h : exn -> M A) :
  (∀ e, never_raises (h e)) → never_raises (try_except m (fun e => Some (h e))).
Proof.
  intros Hh st. unfold try_except. destruct (m st) as [[a|e] st1]; [by exists a|].
  apply Hh.
Qed.

Lemma never_raises_logger (level : LogLevel) (msg : string) :
  never_raises (logger level msg).
Proof. intros st. by exists tt. Qed.

Lemma never_raises_next_event : never_raises next_event.
Proof. intros st. by eexists. Qed.

Lemma never_raises_random_choice {A} (x : A) (l : list A) :
  never_raises (random_choice w (x :: l)).
Proof.
  intros st. destruct (random_choice_elem w (x :: l) st) as (v & Hv & _); [done|].
  by exists v.
Qed.

Lemma loop_never_raises (fuel : nat) (workload_cfg : WorkloadConfig)
    (q : QueryDefinition) (pool : list QueryDefinition) (start : Q) :
  never_raises (workload_loop w tables_metadata fuel workload_cfg (q :: pool) start).
Proof.
  induction fuel as [|fuel IH]; cbn [workload_loop]; [apply never_raises_mret|].
  apply never_raises_bind; [apply never_raises_next_event|]. intros k.
  destruct (stop_event_is_set w k); [apply never_raises_mret|].
  apply never_raises_bind.
  { unfold read_time. apply never_raises_bind; [apply never_raises_next_event|].
    intros ?. apply never_raises_mret. }
  intros t. destruct (Qle_bool _ _); [apply never_raises_mret|].
  apply never_raises_bind; [apply never_raises_random_choice|]. intros query_to_run.
  apply never_raises_bind.
  { apply (never_raises_try_except _ (fun _ => logger ERROR _)).
    intros _. apply never_raises_logger. }
  intros _. apply never_raises_bind; [|intros _; apply IH].
  unfold jitter_sleep. repeat (apply never_raises_bind;
    [apply never_raises_next_event|intros ?]). apply never_raises_mret.
Qed.

Lemma task_never_raises (fuel : nat) (workload_cfg : WorkloadConfig) :
  never_raises (_run_workload_task w tables_metadata fuel workload_cfg).
Proof.
  unfold _run_workload_task.
  apply never_raises_bind; [apply never_raises_logger|]. intros _.
  destruct (weighted_queries workload_cfg) as [|q pool].
  { apply never_raises_bind; [apply never_raises_logger|]. intros _.
    apply never_raises_mret. }
  apply never_raises_bind.
  { unfold read_time. apply never_raises_bind; [apply never_raises_next_event|].
    intros ?. apply never_raises_mret. }
  intros start. apply never_raises_bind; [apply loop_never_raises|].
  intros [|]; [|apply never_raises_mret].
  apply never_raises_bind; [apply never_raises_logger|]. intros _.
  apply never_raises_mret.
Qed.

(** The two loops of [run_all_workloads] create the tasks of [spawned]. *)
Lemma create_tasks_spec (n : nat) (workload_cfg : WorkloadConfig) (l : EventLoop) :
  create_tasks n workload_cfg l
  = (Returns tt,
     {| executor := executor l;
        tasks := tasks l ++ replicate n workload_cfg;
        global_stop_event := global_stop_event l; gathered := gathered l |}).
Proof.
  revert l. induction n as [|n IH]; intros l.
  { cbn. rewrite app_nil_r. by destruct l. }
  cbn [create_tasks]. unfold create_task, mbind, StateExn_bind, bind.
  rewrite IH. cbn. by rewrite <- app_assoc.
Qed.

Lemma create_all_tasks_spec (active_workloads : list WorkloadConfig)
    (l : EventLoop) :
  create_all_tasks active_workloads l
  = (Returns tt,
     {| executor := executor l;
        tasks := tasks l
                 ++ flat_map (fun workload_cfg =>
                                replicate (Z.to_nat (concurrency workload_cfg))
                                  workload_cfg) active_workloads;
        global_stop_event := global_stop_event l; gathered := gathered l |}).
Proof.
  revert l. induction active_workloads as [|workload_cfg rest IH]; intros l.
  { cbn. rewrite app_nil_r. by destruct l. }
  cbn [create_all_tasks flat_map]. unfold mbind, StateExn_bind, bind.
  rewrite create_tasks_spec, IH. cbn. by rewrite <- app_assoc.
Qed.

(** A run with an enabled workload: the tasks created, the stop event set,
    every task gathered. *)
Lemma run_all_workloads_active (workloads_config : list WorkloadConfig)
    (task_outcome : nat -> WorkloadConfig -> result TaskStatus)
    (global_duration_seconds : Z) (l : EventLoop) :
  filter (fun wl => enabled wl = true) workloads_config ≠ [] →
  ∃ st',
    _param_cache st' = ∅
    ∧ run_all_workloads w workloads_config task_outcome global_duration_seconds l
    = (Returns tt,
       {| executor := st'; tasks := spawned workloads_config;
          global_stop_event := true;
          gathered := Some (held <$> imap task_outcome (spawned workloads_config)) |}).
Proof.
  intros Hactive. unfold run_all_workloads, spawned.
  destruct (filter (fun wl => enabled wl = true) workloads_config)
    as [|wl active] eqn:Hf; [done|].
  set (all := wl :: active).
  unfold on_executor, new_event_and_tasks, set_global_stop_event,
    gather_return_exceptions, set_param_cache, logger, next_event.
  unfold mbind, StateExn_bind, bind, mret, StateExn_ret, ret.
  cbn [fst snd]. rewrite create_all_tasks_spec.
  cbn [fst snd executor tasks global_stop_event gathered events app].
  destruct (wait_for_times_out w _); cbn; eexists; (split; [|reflexivity]); done.
Qed.

(** C6. In a workload task, an iteration whose query execution raises logs
    the exception and the loop goes on with the next iteration; the task
    itself never raises; and [run_all_workloads] returns normally whatever
    the outcomes of its tasks: with an enabled workload it creates the tasks
    the configuration asks for, sets the stop event and gathers every task
    it created, in order, [gather] holding the exception of a task that
    failed instead of raising it and the result of every task that
    returned; and when the tasks come to what [_run_workload_task] comes to,
    nothing but results is gathered. *)
Theorem C6_failures_are_contained :
  (∀ (fuel : nat) (workload_cfg : WorkloadConfig) (pool : list QueryDefinition)
     (start : Q) (st st_exc : Executor) (query_to_run : QueryDefinition) (e : exn),
     stop_event_is_set w (events st) = false →
     Qle_bool (inject_Z (duration_seconds workload_cfg))
              (time_time w (S (events st)) - start) = false →
     pool !! (entropy w (S (S (events st))) `mod` length pool)%nat = Some query_to_run →
     _execute_single_query_instance w tables_metadata (wl_name workload_cfg)
       query_to_run (later 3 st) = (Raises e, st_exc) →
     workload_loop w tables_metadata (S fuel) workload_cfg pool start st
     = workload_loop w tables_metadata fuel workload_cfg pool start
         (later 2
            {| _param_cache := _param_cache st_exc; events := events st_exc;
               fetch_calls := fetch_calls st_exc; query_calls := query_calls st_exc;
               query_log := query_log st_exc;
               logged := logged st_exc
                         ++ [(ERROR, "Exception in workload task "
                                     ++ wl_name workload_cfg ++ " for query "
                                     ++ name query_to_run)] |}))
  ∧ (∀ (fuel : nat) (workload_cfg : WorkloadConfig) (st : Executor),
       ∃ status,
         (_run_workload_task w tables_metadata fuel workload_cfg st).1 = Returns status)
  ∧ (∀ (workloads_config : list WorkloadConfig)
       (task_outcome : nat -> WorkloadConfig -> result TaskStatus)
       (global_duration_seconds : Z) (l : EventLoop),
       let run := run_all_workloads w workloads_config task_outcome
                    global_duration_seconds l in
       run.1 = Returns tt
       ∧ (filter (fun wl => enabled wl = true) workloads_config ≠ [] →
          tasks run.2 = spawned workloads_config
          ∧ global_stop_event run.2 = true
          ∧ ∃ results,
              gathered run.2 = Some results
              ∧ length results = length (tasks run.2)
              ∧ (∀ i workload_cfg,
                   tasks run.2 !! i = Some workload_cfg →
                   (∀ e, task_outcome i workload_cfg = Raises e →
                         results !! i = Some (inr e))
                   ∧ (∀ status, task_outcome i workload_cfg = Returns status →
                                results !! i = Some (inl status)))
              ∧ ((∀ i workload_cfg,
                    tasks run.2 !! i = Some workload_cfg →
                    ∃ fuel st,
                      task_outcome i workload_cfg
                      = (_run_workload_task w tables_metadata fuel
                           workload_cfg st).1) →
                 ∀ i r, results !! i = Some r → ∃ status, r = inl status))).
Proof.
  split; [|split].
  - intros fuel workload_cfg pool start st st_exc q e Hstop Htime Hq Hexc.
    cbn [workload_loop].
    unfold mbind at 1. unfold StateExn_bind, bind, next_event at 1. cbn.
    rewrite Hstop.
    unfold read_time, next_event, random_choice, _randbelow, Random.choice, lift,
      mbind, StateExn_bind, bind, mret, StateExn_ret, ret.
    cbn -[Nat.modulo lookup Qle_bool Qminus].
    rewrite Htime. cbn -[Nat.modulo lookup]. rewrite Hq.
    unfold try_except. unfold later in Hexc. cbn in Hexc. rewrite Hexc.
    unfold jitter_sleep, logger, next_event, mbind, StateExn_bind, bind. cbn.
    reflexivity.
  - intros fuel workload_cfg st. apply task_never_raises.
  - intros workloads_config task_outcome d l run. subst run.
    destruct (decide (filter (fun wl => enabled wl = true) workloads_config = []))
      as [Hnone|Hactive].
    { split; [|done]. unfold run_all_workloads. rewrite Hnone. done. }
    destruct (run_all_workloads_active workloads_config task_outcome d l Hactive)
      as (st' & _ & ->).
    split; [done|]. intros _. cbn [fst snd tasks global_stop_event gathered].
    split; [done|]. split; [done|].
    eexists. split; [reflexivity|]. split; [|split].
    + by rewrite length_fmap, length_imap.
    + intros i workload_cfg Hi. split.
      * intros e He. rewrite list_lookup_fmap, list_lookup_imap, Hi. cbn.
        by rewrite He.
      * intros status Hs. rewrite list_lookup_fmap, list_lookup_imap, Hi. cbn.
        by rewrite Hs.
    + intros Htask i r. rewrite list_lookup_fmap, list_lookup_imap.
      destruct (spawned workloads_config !! i) as [workload_cfg|] eqn:Hi;
        [|done].
      cbn. intros [= <-]. destruct (Htask i workload_cfg Hi) as (fuel & st & ->).
      destruct (task_never_raises fuel workload_cfg st) as [status ->].
      by exists status.
Qed.

(** C10. A workload whose weight-expanded pool is empty, as it is for a
    workload without queries, makes its task return at once: whatever the
    duration, the stop signal and the rest of the environment, no query is
    executed, no metric is emitted, and the environment is not consulted. *)
Theorem C10_empty_pool_returns_at_once
    (fuel : nat) (workload_cfg : WorkloadConfig) (st : Executor) :
  (queries workload_cfg = [] → weighted_queries workload_cfg = [])
  ∧ (weighted_queries workload_cfg = [] →
     let run := _run_workload_task w tables_metadata fuel workload_cfg st in
     run.1 = Returns Finished
     ∧ query_calls run.2 = query_calls st
     ∧ fetch_calls run.2 = fetch_calls st
     ∧ query_log run.2 = query_log st
     ∧ events run.2 = events st
     ∧ logged run.2
       = (logged st
          ++ [(INFO, ("Starting task for workload: " ++ wl_name workload_cfg)%string);
              (WARNING, ("No queries in workload " ++ wl_name workload_cfg
                         ++ ". Task exiting.")%string)])%list).
Proof.
  split.
  - intros Hq. unfold weighted_queries. by rewrite Hq.
  - intros Hpool run. subst run. unfold _run_workload_task. rewrite Hpool.
    unfold logger, mbind, StateExn_bind, bind, mret, StateExn_ret, ret. cbn.
    repeat split; try done. by rewrite <- app_assoc.
Qed.

End WorkloadTask.

(** ** The resource sampler: cadence of the database metrics *)

Section Cadence.

Import ResourceMonitor.

Variable w : World.
Variable monitoring_config : MonitoringConfig.

(** One check of one metric: dispatched exactly when
    [now - last_run >= frequency], [last_run] then set to [now]. *)
Lemma check_metric_spec (now : Q) (metric_cfg : MonitoringMetricConfig) (st : Monitor) :
  let last_run := default 0%Q (_dbms_metric_last_run st !! metric_cfg_name metric_cfg) in
  let st' := (check_metric now metric_cfg st).2 in
  (check_metric now metric_cfg st).1 = Returns tt
  ∧ events st' = events st ∧ _stop_event st' = _stop_event st
  ∧ ((inject_Z (frequency_seconds metric_cfg) <= now - last_run)%Q →
     dispatched st'
     = (dispatched st ++ [(metric_cfg_name metric_cfg, query metric_cfg, now)])%list
     ∧ _dbms_metric_last_run st'
       = <[metric_cfg_name metric_cfg := now]> (_dbms_metric_last_run st))
  ∧ (¬ (inject_Z (frequency_seconds metric_cfg) <= now - last_run)%Q →
     dispatched st' = dispatched st
     ∧ _dbms_metric_last_run st' = _dbms_metric_last_run st).
Proof.
  intros last_run st'. subst st'.
  unfold check_metric, get_last_run, mbind, StateExn_bind, bind. cbn.
  fold last_run.
  destruct (Qle_bool (inject_Z (frequency_seconds metric_cfg)) (now - last_run)) eqn:Hdue.
  - apply Qle_bool_iff in Hdue. cbn. repeat split; try done.
  - assert (¬ (inject_Z (frequency_seconds metric_cfg) <= now - last_run)%Q) as Hnot.
    { intros H. apply Qle_bool_iff in H. congruence. }
    cbn. repeat split; try done.
Qed.

Lemma collect_os_frames (st : Monitor) :
  let st' := (_collect_os_metrics_sync w monitoring_config st).2 in
  (∃ d, (_collect_os_metrics_sync w monitoring_config st).1 = Returns d)
  ∧ events st' = (events st + os_events monitoring_config)%nat
  ∧ _stop_event st' = _stop_event st
  ∧ dispatched st' = dispatched st
  ∧ _dbms_metric_last_run st' = _dbms_metric_last_run st.
Proof.
  unfold _collect_os_metrics_sync, os_events.
  destruct (os_metrics monitoring_config) as [|m ms].
  - cbn. split; [by eexists|]. repeat split; try done; lia.
  - unfold now, next_event, logger, mbind, StateExn_bind, bind, mret, StateExn_ret, ret.
    cbn. destruct (_ && ps_fails _); cbn; (split; [by eexists|]); repeat split;
      try done; lia.
Qed.

(** One pass of the loop with a single configured metric. *)
Lemma loop_body_single (metric_cfg : MonitoringMetricConfig) (st : Monitor) :
  dbms_metrics monitoring_config = [metric_cfg] →
  let now := time_time w (events st + os_events monitoring_config) in
  let last_run := default 0%Q (_dbms_metric_last_run st !! metric_cfg_name metric_cfg) in
  let st' := (loop_body w monitoring_config st).2 in
  (loop_body w monitoring_config st).1 = Returns tt
  ∧ events st' = (events st + os_events monitoring_config + 2)%nat
  ∧ _stop_event st' = _stop_event st
  ∧ ((inject_Z (frequency_seconds metric_cfg) <= now - last_run)%Q →
     dispatched st'
     = (dispatched st ++ [(metric_cfg_name metric_cfg, query metric_cfg, now)])%list
     ∧ _dbms_metric_last_run st'
       = <[metric_cfg_name metric_cfg := now]> (_dbms_metric_last_run st))
  ∧ (¬ (inject_Z (frequency_seconds metric_cfg) <= now - last_run)%Q →
     dispatched st' = dispatched st
     ∧ _dbms_metric_last_run st' = _dbms_metric_last_run st).
Proof.
  intros Hcfg now last_run st'. subst st' now last_run.
  unfold loop_body. rewrite Hcfg.
  destruct (collect_os_frames st) as ([d Hd] & He & Hs & Hdisp & Hlast).
  destruct (_collect_os_metrics_sync w monitoring_config st) as [r st1] eqn:Hos.
  cbn in Hd, He, Hs, Hdisp, Hlast. subst r.
  rewrite (bind_returns _ _ st st1 d Hos).
  set (record := match d with Some d0 => log_system_metric d0 | None => mret tt end).
  assert (Hst2 : ∃ st2, record st1 = (Returns tt, st2)
                 ∧ events st2 = events st1 ∧ _stop_event st2 = _stop_event st1
                 ∧ dispatched st2 = dispatched st1
                 ∧ _dbms_metric_last_run st2 = _dbms_metric_last_run st1)
    by (subst record; destruct d; by eexists).
  destruct Hst2 as (st2 & Hr2 & He2 & Hs2 & Hd2 & Hl2).
  rewrite (bind_returns _ _ st1 st2 tt Hr2).
  eassert (Hrt : read_time w st2 = (Returns (time_time w (events st2)), _))
    by reflexivity.
  rewrite (bind_returns _ _ _ _ _ Hrt). clear Hrt.
  cbn [check_metrics].
  set (now := time_time w (events st2)).
  match goal with
  | |- context [(_ ≫= ?k) ?s] => set (st3 := s); set (rest := k)
  end.
  destruct (check_metric_spec now metric_cfg st3) as (Hr & Hev & Hstop & Hyes & Hno).
  destruct (check_metric now metric_cfg st3) as [r4 st4] eqn:Hcm.
  cbn in Hr, Hev, Hstop, Hyes, Hno. subst r4.
  assert (Hseq : (check_metric now metric_cfg;; ret ()) st3 = (Returns tt, st4)).
  { by rewrite (bind_returns _ _ st3 st4 tt Hcm). }
  rewrite (bind_returns _ _ st3 st4 tt Hseq).
  subst rest. unfold next_event, mbind, StateExn_bind, bind, mret, StateExn_ret, ret.
  cbn.
  assert (Hnow : now = time_time w (events st + os_events monitoring_config))
    by (subst now; by rewrite He2, He).
  rewrite <- Hnow.
  subst st3. cbn in Hev, Hstop, Hyes, Hno.
  rewrite Hl2, Hlast, Hd2, Hdisp in Hyes. rewrite Hl2, Hlast, Hd2, Hdisp in Hno.
  rewrite Hev, Hstop, He2, He, Hs2, Hs.
  repeat split; try done; try lia; tauto.
Qed.

Lemma due_iff (t0 now last_run : Q) (j : nat) :
  (inject_Z 10 <= t0)%Q →
  (now == t0 + inject_Z (Z.of_nat j))%Q →
  cadence_inv t0 j last_run →
  (inject_Z 10 <= now - last_run)%Q ↔ (j `mod` 10 = 0)%nat.
Proof.
  intros Ht0 Hnow [[-> Hlast]|(d & Hlast & Hd & Hlt)].
  - rewrite Hnow, Hlast. split; [done|]. intros _.
    change (inject_Z (Z.of_nat 0)) with 0%Q. lra.
  - rewrite Hnow, Hlast.
    assert (t0 + inject_Z (Z.of_nat j) - (t0 + inject_Z (Z.of_nat d))
            == inject_Z (Z.of_nat j - Z.of_nat d))%Q as ->.
    { unfold Z.sub at 1. rewrite inject_Z_plus, inject_Z_opp. lra. }
    rewrite <- Zle_Qle.
    pose proof (Nat.div_mod_eq j 10). pose proof (Nat.div_mod_eq d 10).
    pose proof (Nat.mod_upper_bound j 10). pose proof (Nat.mod_upper_bound d 10).
    split; intros; lia.
Qed.

Lemma schedule (metric_cfg : MonitoringMetricConfig) (t0 : Q) (e n : nat) :
  dbms_metrics monitoring_config = [metric_cfg] →
  frequency_seconds metric_cfg = 10 →
  (inject_Z 10 <= t0)%Q →
  (∀ j, time_time w (time_read monitoring_config e j)
        == t0 + inject_Z (Z.of_nat j * monitoring_interval_seconds monitoring_config))%Q →
  monitoring_interval_seconds monitoring_config = 1 →
  ∀ (j0 : nat) (st : Monitor),
    events st = (e + (os_events monitoring_config + 2) * j0)%nat →
    _stop_event st = false →
    cadence_inv t0 j0
      (default 0%Q (_dbms_metric_last_run st !! metric_cfg_name metric_cfg)) →
    dispatched (sampling_loop w monitoring_config n st).2
    = (dispatched st
       ++ ((fun j => (metric_cfg_name metric_cfg, query metric_cfg,
                      time_time w (time_read monitoring_config e j)))
           <$> due_passes j0 n))%list.
Proof.
  intros Hcfg Hfreq Ht0 Htime Hint.
  induction n as [|n IH]; intros j0 st Hev Hstop Hinv.
  - cbn. by rewrite app_nil_r.
  - cbn [sampling_loop]. rewrite Hstop.
    destruct (loop_body_single metric_cfg st Hcfg) as (Hr & Hev' & Hstop' & Hyes & Hno).
    destruct (loop_body w monitoring_config st) as [r st1] eqn:Hbody.
    cbn in Hr, Hev', Hstop', Hyes, Hno. subst r.
    rewrite (bind_returns _ _ st st1 tt Hbody).
    assert (Hidx : (events st + os_events monitoring_config)%nat
                   = time_read monitoring_config e j0)
      by (unfold time_read; lia).
    rewrite Hidx in Hyes, Hno. rewrite Hfreq in Hyes, Hno.
    assert (Hnow : (time_time w (time_read monitoring_config e j0)
                    == t0 + inject_Z (Z.of_nat j0))%Q).
    { rewrite Htime, Hint. by rewrite Z.mul_1_r. }
    pose proof (due_iff t0 _ _ j0 Ht0 Hnow Hinv) as Hdue.
    unfold due_passes. cbn [seq]. rewrite filter_cons.
    destruct (decide (j0 `mod` 10 = 0)%nat) as [Hmod|Hmod].
    + destruct Hyes as [Hd Hl]; [by apply Hdue|].
      rewrite (IH (S j0) st1).
      * rewrite Hd. cbn [fmap list_fmap]. by rewrite <- app_assoc.
      * rewrite Hev', Hev. lia.
      * by rewrite Hstop'.
      * rewrite Hl, lookup_insert_eq. cbn. right. exists j0.
        split; [done|]. split; [done|]. lia.
    + destruct Hno as [Hd Hl]; [by rewrite Hdue|].
      rewrite (IH (S j0) st1).
      * by rewrite Hd.
      * rewrite Hev', Hev. lia.
      * by rewrite Hstop'.
      * rewrite Hl. destruct Hinv as [[-> _]|(d & Hlast & Hdm & Hlt)]; [done|].
        right. exists d. split; [done|]. split; [done|].
        pose proof (Nat.div_mod_eq j0 10). pose proof (Nat.div_mod_eq d 10).
        pose proof (Nat.mod_upper_bound j0 10). lia.
Qed.

Lemma check_metric_due (now : Q) (metric_cfg : MonitoringMetricConfig) (st : Monitor) :
  check_metric now metric_cfg st
  = if is_due now st metric_cfg then dispatch metric_cfg now st else (Returns tt, st).
Proof.
  unfold check_metric, get_last_run, is_due, mbind, StateExn_bind, bind. cbn.
  by destruct (Qle_bool _ _).
Qed.

(** A pass over metrics of distinct names: each one is judged on the
    [last_run] the pass started with. *)
Lemma check_metrics_spec (now : Q) (cfgs : list MonitoringMetricConfig) :
  NoDup (metric_cfg_name <$> cfgs) →
  ∀ st : Monitor,
    let st' := (check_metrics now cfgs st).2 in
    (check_metrics now cfgs st).1 = Returns tt
    ∧ dispatched st'
      = (dispatched st
         ++ ((fun m => (metric_cfg_name m, query m, now))
             <$> filter (fun m => is_due now st m = true) cfgs))%list
    ∧ (∀ m, m ∈ cfgs →
         _dbms_metric_last_run st' !! metric_cfg_name m
         = if is_due now st m then Some now
           else _dbms_metric_last_run st !! metric_cfg_name m)
    ∧ (∀ other, other ∉ metric_cfg_name <$> cfgs →
         _dbms_metric_last_run st' !! other = _dbms_metric_last_run st !! other).
Proof.
  induction cfgs as [|m cfgs IH]; intros Hnd st.
  - cbn. split; [done|]. split; [by rewrite app_nil_r|].
    split; [|done]. intros m Hm. by apply elem_of_nil in Hm.
  - rewrite fmap_cons in Hnd. apply NoDup_cons in Hnd as [Hm Hnd].
    cbn [check_metrics]. cbv zeta.
    set (st1 := (check_metric now m st).2).
    assert (Hstep : check_metric now m st = (Returns tt, st1)).
    { subst st1. rewrite check_metric_due. by destruct (is_due now st m). }
    rewrite (bind_returns _ _ st st1 tt Hstep).
    assert (Hother : ∀ k, k ≠ metric_cfg_name m →
              _dbms_metric_last_run st1 !! k = _dbms_metric_last_run st !! k).
    { intros k Hk. subst st1. rewrite check_metric_due.
      destruct (is_due now st m); [|done]. cbn. by rewrite lookup_insert_ne. }
    assert (Hsame : ∀ m', m' ∈ cfgs → is_due now st1 m' = is_due now st m').
    { intros m' Hm'. unfold is_due. rewrite Hother; [done|].
      intros Heq. apply Hm. rewrite <- Heq. by apply list_elem_of_fmap_2. }
    destruct (IH Hnd st1) as (Hr & Hd & Hl & Hrest).
    split; [done|]. rewrite Hd.
    rewrite (filter_ext_elem (fun m' => is_due now st1 m' = true)
               (fun m' => is_due now st m' = true) cfgs)
      by (intros m' Hm'; by rewrite Hsame).
    split; [|split].
    + rewrite filter_cons. subst st1. rewrite check_metric_due.
      destruct (is_due now st m) eqn:Hdue.
      * destruct (decide (true = true)); [|done]. cbn. by rewrite <- app_assoc.
      * destruct (decide (false = true)); [done|]. done.
    + intros m' Hm'. apply elem_of_cons in Hm' as [->|Hm'].
      * rewrite Hrest by done. subst st1. rewrite check_metric_due.
        destruct (is_due now st m); [|done]. cbn. by rewrite lookup_insert_eq.
      * rewrite Hl, Hsame by done. destruct (is_due now st m'); [done|].
        apply Hother. intros Heq. apply Hm. rewrite <- Heq. by apply list_elem_of_fmap_2.
    + intros other Hnot. rewrite fmap_cons in Hnot.
      apply not_elem_of_cons in Hnot as [Hne Hnot]. rewrite Hrest by done.
      by apply Hother.
Qed.

(** C3. When the loop checks a configured database metric at time [now], it
    dispatches the metric's query exactly when [now - last_run[name]] is at
    least the metric's frequency, and then sets [last_run[name]] to [now],
    the time of dispatch; otherwise nothing changes.  In a pass over metrics
    of distinct names each metric is so judged on the [last_run] the pass
    started with.  Consequently, with one metric of frequency 10, passes one
    second apart (the base interval) from a first pass at [t0 >= 10] and
    [last_run] initially 0, the query is dispatched on passes 0, 10, 20, ...
    and on no other pass. *)
Theorem C3_dispatch_cadence :
  (∀ (now : Q) (metric_cfg : MonitoringMetricConfig) (st : Monitor),
     let last_run :=
       default 0%Q (_dbms_metric_last_run st !! metric_cfg_name metric_cfg) in
     let st' := (check_metric now metric_cfg st).2 in
     ((inject_Z (frequency_seconds metric_cfg) <= now - last_run)%Q →
      dispatched st'
      = (dispatched st ++ [(metric_cfg_name metric_cfg, query metric_cfg, now)])%list
      ∧ _dbms_metric_last_run st'
        = <[metric_cfg_name metric_cfg := now]> (_dbms_metric_last_run st))
     ∧ (¬ (inject_Z (frequency_seconds metric_cfg) <= now - last_run)%Q →
        dispatched st' = dispatched st
        ∧ _dbms_metric_last_run st' = _dbms_metric_last_run st))
  ∧ (∀ (now : Q) (st : Monitor),
       NoDup (metric_cfg_name <$> dbms_metrics monitoring_config) →
       let st' := (check_metrics now (dbms_metrics monitoring_config) st).2 in
       dispatched st'
       = (dispatched st
          ++ ((fun m => (metric_cfg_name m, query m, now))
              <$> filter (fun m => is_due now st m = true)
                         (dbms_metrics monitoring_config)))%list
       ∧ ∀ m, m ∈ dbms_metrics monitoring_config →
           _dbms_metric_last_run st' !! metric_cfg_name m
           = if is_due now st m then Some now
             else _dbms_metric_last_run st !! metric_cfg_name m)
  ∧ (∀ (metric_cfg : MonitoringMetricConfig) (t0 : Q) (n : nat) (st : Monitor),
       dbms_metrics monitoring_config = [metric_cfg] →
       frequency_seconds metric_cfg = 10 →
       monitoring_interval_seconds monitoring_config = 1 →
       (inject_Z 10 <= t0)%Q →
       (∀ j, time_time w (time_read monitoring_config (events st) j)
             == t0 + inject_Z (Z.of_nat j
                               * monitoring_interval_seconds monitoring_config))%Q →
       _stop_event st = false →
       (default 0%Q (_dbms_metric_last_run st !! metric_cfg_name metric_cfg) == 0)%Q →
       dispatched (sampling_loop w monitoring_config n st).2
       = (dispatched st
          ++ ((fun j => (metric_cfg_name metric_cfg, query metric_cfg,
                         time_time w (time_read monitoring_config (events st) j)))
              <$> filter (fun j => (j `mod` 10 = 0)%nat) (seq 0 n)))%list).
Proof.
  split; [|split].
  - intros now metric_cfg st last_run st'.
    destruct (check_metric_spec now metric_cfg st) as (_ & _ & _ & Hyes & Hno).
    by split.
  - intros now st Hnd st'.
    destruct (check_metrics_spec now _ Hnd st) as (_ & Hd & Hl & _). by split.
  - intros metric_cfg t0 n st Hcfg Hfreq Hint Ht0 Htime Hstop Hlast.
    apply (schedule metric_cfg t0 (events st) n Hcfg Hfreq Ht0 Htime Hint 0%nat st);
      [lia|done|by left].
Qed.

End Cadence.

(** ** The resource sampler: the records of one dispatch *)

Section DispatchRecords.

Import ResourceMonitor.

Variable w : World.

Lemma emit_rows_spec (metric_cfg_name : string) (rows : list Row) :
  ∀ st : Monitor,
    let st' := (emit_rows w metric_cfg_name rows st).2 in
    (emit_rows w metric_cfg_name rows st).1 = Returns tt
    ∧ dbms_log st'
      = (dbms_log st ++ imap (record_of w metric_cfg_name (events st)) rows)%list
    ∧ system_log st' = system_log st
    ∧ dispatched st' = dispatched st.
Proof.
  induction rows as [|row rows IH]; intros st.
  - cbn. by rewrite app_nil_r.
  - cbn [emit_rows]. cbv zeta.
    eassert (Hnow : now w st = (Returns (datetime_now w (events st)), _)) by reflexivity.
    rewrite (bind_returns _ _ _ _ _ Hnow). clear Hnow.
    eassert (Hlog : log_dbms_metric
                      {| metric_name := metric_cfg_name;
                         dm_timestamp := datetime_now w (events st);
                         data := row |} _ = (Returns tt, _)) by reflexivity.
    rewrite (bind_returns _ _ _ _ _ Hlog). clear Hlog.
    match goal with |- context [emit_rows w metric_cfg_name rows ?s] =>
      destruct (IH s) as (Hr & Hd & Hs & Hdisp)
    end.
    split; [done|]. rewrite Hd, Hs, Hdisp. cbn [dbms_log system_log dispatched events].
    split; [|done]. rewrite <- app_assoc. f_equal. cbn [imap app]. f_equal.
    + unfold record_of. by rewrite Nat.add_0_r.
    + apply imap_ext. intros i r _. unfold record_of. cbn. do 2 f_equal. lia.
Qed.

(** C8 (amended). A dispatched database-metric query whose result rows
    arrive hands exactly one record per result row to the metrics collector,
    in row order, each under the metric's name and with its row as data;
    the record of each row carries the reading of the clock taken when that
    record is built, one reading per row after the arrival. *)
Theorem C8_one_record_per_row
    (metric_cfg_name query : string) (rows : list Row) (st : Monitor) :
  execute_query w (events st) query [] = Returns (Rows rows) →
  let st' := (_collect_one_dbms_metric w metric_cfg_name query st).2 in
  (_collect_one_dbms_metric w metric_cfg_name query st).1 = Returns tt
  ∧ dbms_log st'
    = (dbms_log st
       ++ imap (fun i row =>
                  {| metric_name := metric_cfg_name;
                     dm_timestamp := datetime_now w (S (events st) + i);
                     data := row |}) rows)%list
  ∧ length (dbms_log st') = (length (dbms_log st) + length rows)%nat.
Proof.
  intros Hres. cbv zeta.
  unfold _collect_one_dbms_metric.
  eassert (Hlog : logger DEBUG ("Collecting DBMS metric: " ++ metric_cfg_name) st
                  = (Returns tt, _)) by reflexivity.
  rewrite (bind_returns _ _ _ _ _ Hlog). clear Hlog.
  unfold try_except.
  match goal with |- context [(next_event ≫= ?k) ?s] =>
    set (st1 := s); set (body := next_event ≫= k)
  end.
  assert (Hbody : body st1
                  = emit_rows w metric_cfg_name rows (next_event st1).2).
  { subst body st1. unfold mbind, StateExn_bind, bind, next_event, lift. cbn.
    by rewrite Hres. }
  rewrite Hbody.
  destruct (emit_rows_spec metric_cfg_name rows (next_event st1).2)
    as (Hr & Hd & _ & _).
  destruct (emit_rows w metric_cfg_name rows (next_event st1).2) as [r st2].
  cbn in Hr, Hd. subst r. cbn [fst snd].
  split; [done|]. rewrite Hd. subst st1. cbn.
  split; [done|]. by rewrite length_app, length_imap.
Qed.

End DispatchRecords.

(** ** The resource sampler: starting and stopping *)

Section StartStop.

Import ResourceMonitor.

Variable monitoring_config : MonitoringConfig.

Lemma start_when_idle (st : Monitor) :
  thread_is_running st = false →
  let st' := (start_monitoring monitoring_config st).2 in
  (start_monitoring monitoring_config st).1 = Returns tt
  ∧ _monitor_thread st' = Some (fresh (alive st))
  ∧ ¬ (fresh (alive st) ∈ alive st)
  ∧ alive st' = {[fresh (alive st)]} ∪ alive st
  ∧ _stop_event st' = false
  ∧ thread_is_running st' = true.
Proof.
  intros Hidle. unfold start_monitoring. rewrite Hidle.
  unfold start_thread, logger, mbind, StateExn_bind, bind. cbn.
  repeat split; try done.
  - apply is_fresh.
  - unfold thread_is_running, is_alive. cbn. apply bool_decide_eq_true. set_solver.
Qed.

Lemma stop_leaves_idle (exit_delay : option Q) (st : Monitor) :
  thread_is_running (stop_monitoring exit_delay st).2 = false.
Proof.
  unfold stop_monitoring. destruct (thread_is_running st) eqn:Hrun.
  - unfold forget_thread, logger, set_stop_event, join, mbind, StateExn_bind, bind,
      mret, StateExn_ret, ret. cbn.
    repeat case_match; simplify_eq; done.
  - unfold logger, mbind, StateExn_bind, bind, mret, StateExn_ret, ret. cbn.
    done.
Qed.

(** A loop that outlives the wait of [stop] is still alive after the next
    [start], beside the new thread, and the stop event it was to observe is
    clear again. *)
Lemma abandoned_loop_outlives_restart (st : Monitor) (thread : nat) :
  _monitor_thread st = Some thread → thread ∈ alive st →
  let restarted :=
    (start_monitoring monitoring_config (stop_monitoring None st).2).2 in
  thread ∈ alive restarted
  ∧ _stop_event restarted = false
  ∧ ∃ other, _monitor_thread restarted = Some other
             ∧ other ≠ thread ∧ other ∈ alive restarted.
Proof.
  intros Hthread Halive restarted. subst restarted.
  pose proof (stop_leaves_idle None st) as Hidle.
  destruct (start_when_idle _ Hidle) as (_ & Ht & Hfresh & Hal & Hstop & _).
  assert (Hkept : alive (stop_monitoring None st).2 = alive st).
  { unfold stop_monitoring, thread_is_running, is_alive. rewrite Hthread.
    rewrite bool_decide_eq_true_2 by done.
    unfold forget_thread, logger, set_stop_event, join, mbind, StateExn_bind, bind,
      thread_is_running, is_alive. cbn. rewrite Hthread.
    by rewrite bool_decide_eq_true_2. }
  rewrite Hal, Hstop, Ht, Hkept in *.
  split; [apply elem_of_union; by right|]. split; [done|].
  eexists. split; [done|]. split.
  - intros Heq. apply Hfresh. by rewrite Heq.
  - apply elem_of_union. left. by apply elem_of_singleton.
Qed.

(** C9. The sampler moves idle -> running -> stopping -> idle.  [start]
    from idle starts a fresh thread and the sampler is running; [start] while
    running only logs a warning: no thread is started and nothing else
    changes.  [stop] while running sets the stop event (the sampler is then
    stopping), waits for the loop at most the 10 second timeout, logs a
    warning when the thread is still alive after the wait, raises nothing,
    and leaves the sampler idle; a [start] after any [stop] starts a fresh
    thread and the sampler is running again. *)
Theorem C9_start_stop_protocol :
  (∀ st : Monitor,
     phase st = Idle →
     (start_monitoring monitoring_config st).1 = Returns tt
     ∧ phase (start_monitoring monitoring_config st).2 = Running)
  ∧ (∀ st : Monitor,
       thread_is_running st = true →
       let st' := (start_monitoring monitoring_config st).2 in
       (start_monitoring monitoring_config st).1 = Returns tt
       ∧ _monitor_thread st' = _monitor_thread st
       ∧ alive st' = alive st
       ∧ _stop_event st' = _stop_event st
       ∧ _dbms_metric_last_run st' = _dbms_metric_last_run st
       ∧ phase st' = phase st
       ∧ logged st' = (logged st ++ [(WARNING, "Monitoring is already running.")])%list)
  ∧ (∀ (st : Monitor) (exit_delay : option Q),
       thread_is_running st = true →
       phase ((logger INFO "Stopping resource monitoring...";; set_stop_event) st).2
       = Stopping
       ∧ ∃ waited st',
           stop_monitoring exit_delay st = (Returns waited, st')
           ∧ (waited <= 10)%Q
           ∧ _stop_event st' = true
           ∧ _monitor_thread st' = None
           ∧ phase st' = Idle
           ∧ (∀ thread, _monitor_thread st = Some thread → thread ∈ alive st' →
                (WARNING, "Monitoring thread did not stop in time.") ∈ logged st')
           ∧ (∀ delay, exit_delay = Some delay → (delay <= 10)%Q →
                ∀ thread, _monitor_thread st = Some thread → ¬ (thread ∈ alive st')))
  ∧ (∀ (st : Monitor) (exit_delay : option Q),
       let stopped := (stop_monitoring exit_delay st).2 in
       let restarted := (start_monitoring monitoring_config stopped).2 in
       phase stopped = Idle
       ∧ (start_monitoring monitoring_config stopped).1 = Returns tt
       ∧ phase restarted = Running
       ∧ ∃ thread, _monitor_thread restarted = Some thread
                   ∧ ¬ (thread ∈ alive stopped)
                   ∧ alive restarted = {[thread]} ∪ alive stopped).
Proof.
  assert (Hidle_start : ∀ st, thread_is_running st = false →
            (start_monitoring monitoring_config st).1 = Returns tt
            ∧ phase (start_monitoring monitoring_config st).2 = Running).
  { intros st Hidle.
    destruct (start_when_idle st Hidle) as (Hr & _ & _ & _ & Hstop & Hrun).
    split; [done|]. unfold phase. by rewrite Hrun, Hstop. }
  split; [|split; [|split]].
  - intros st Hphase. apply Hidle_start. unfold phase in Hphase.
    destruct (thread_is_running st); [by destruct (_stop_event st)|done].
  - intros st Hrun. cbv zeta. unfold start_monitoring. rewrite Hrun. cbn.
    repeat split.
  - clear Hidle_start. intros st exit_delay Hrun. split.
    { unfold thread_is_running in Hrun.
      destruct (_monitor_thread st) as [t|] eqn:Hthread; [|done].
      unfold phase, thread_is_running, is_alive, logger, set_stop_event, mbind,
        StateExn_bind, bind in *. cbn. by rewrite Hthread, Hrun. }
    unfold stop_monitoring. rewrite Hrun.
    unfold thread_is_running in Hrun.
    destruct (_monitor_thread st) as [t|] eqn:Hthread; [|done].
    unfold is_alive in Hrun. apply bool_decide_eq_true in Hrun.
    unfold forget_thread, logger, set_stop_event, join, mbind, StateExn_bind, bind,
      mret, StateExn_ret, ret, thread_is_running, is_alive, join_timeout, phase.
    cbn. rewrite Hthread.
    destruct exit_delay as [delay|]; [destruct (Qle_bool delay 10) eqn:Hle|].
    + apply Qle_bool_iff in Hle. cbn.
      assert (Hgone : ¬ (t ∈ alive st ∖ {[t]})).
      { rewrite elem_of_difference, elem_of_singleton. tauto. }
      rewrite bool_decide_eq_false_2 by done. cbn.
      eexists _, _. split; [reflexivity|]. cbn. repeat split; try done.
      * by intros thread [= <-] ?.
      * by intros d _ _ thread [= <-].
    + cbn. rewrite bool_decide_eq_true_2 by done. cbn.
      eexists _, _. split; [reflexivity|]. cbn. repeat split; try done.
      * intros _ _ _. set_solver.
      * intros d [= <-] Hd. apply Qle_bool_iff in Hd. congruence.
    + cbn. rewrite bool_decide_eq_true_2 by done. cbn.
      eexists _, _. split; [reflexivity|]. cbn. repeat split; try done.
      intros _ _ _. set_solver.
  - intros st exit_delay stopped restarted. subst stopped restarted.
    pose proof (stop_leaves_idle exit_delay st) as Hidle.
    destruct (start_when_idle _ Hidle) as (Hr & Ht & Hfresh & Hal & Hstop & Hrun).
    split; [unfold phase; by rewrite Hidle|]. split; [done|].
    split; [unfold phase; by rewrite Hrun, Hstop|].
    eexists. split; [exact Ht|]. split; [exact Hfresh|exact Hal].
Qed.

End StartStop.

(** ** Reading the database-metric log back *)

Section ReadBack.

Import MetricsCollector.

Variable json_loads : string -> result Json.
Variable fromisoformat : string -> result Q.

(** A missing log file gives an empty result and an informational record. *)
Lemma read_back_missing_file (path : string) (metric_name_filter : option string) :
  get_collected_dbms_metrics json_loads fromisoformat
    (Raises (FileNotFoundError path)) metric_name_filter
  = ([], [(INFO, "DBMS metrics file not found.")]).
Proof. reflexivity. Qed.

(** A line on which the per-line clause catches the exception is skipped
    with a warning and the reading goes on. *)
Lemma read_back_skips_caught (metric_name_filter : option string) (line : string)
    (rest : list string) (collected : list ReadBack) (log : list LogRecord) (e : exn) :
  read_entry json_loads fromisoformat metric_name_filter line = Raises e →
  caught_per_line e = true →
  read_lines json_loads fromisoformat metric_name_filter (line :: rest) collected log
  = read_lines json_loads fromisoformat metric_name_filter rest collected
      (log ++ [(WARNING, ("Skipping malformed line: " ++ line)%string)])%list.
Proof. intros He Hc. cbn [read_lines]. by rewrite He, Hc. Qed.

(** Any other exception ends the reading: the lines after it are not
    read. *)
Lemma read_back_stops_uncaught (metric_name_filter : option string) (line : string)
    (rest : list string) (collected : list ReadBack) (log : list LogRecord) (e : exn) :
  read_entry json_loads fromisoformat metric_name_filter line = Raises e →
  caught_per_line e = false →
  read_lines json_loads fromisoformat metric_name_filter (line :: rest) collected log
  = (collected, (log ++ [(ERROR, "Error reading DBMS metrics")])%list).
Proof. intros He Hc. cbn [read_lines]. by rewrite He, Hc. Qed.

(** C7 (failing input). A log whose first line is an entry
    with a timestamp that [fromisoformat] rejects with a [ValueError], and
    whose second line is a well-formed entry of the wanted metric: the
    read-back returns no record and logs an error, the second line is never
    read; on the second line alone it returns that line's record. *)
Theorem C7_malformed_timestamp_ends_the_read
    (bad good : string) (msg : string) (t : Q) :
  json_loads bad
  = Returns (JObj [("metric_name", JStr "wait_stats");
                   ("timestamp", JStr "not-a-date");
                   ("data", JObj [])]) →
  fromisoformat "not-a-date" = Raises (ValueError msg) →
  json_loads good
  = Returns (JObj [("metric_name", JStr "wait_stats");
                   ("timestamp", JStr "2024-01-01T00:00:00");
                   ("data", JObj [("n", JNum 1)])]) →
  fromisoformat "2024-01-01T00:00:00" = Returns t →
  get_collected_dbms_metrics json_loads fromisoformat
    (Returns [bad; good]) (Some "wait_stats")
  = ([], [(ERROR, "Error reading DBMS metrics")])
  ∧ get_collected_dbms_metrics json_loads fromisoformat
      (Returns [good]) (Some "wait_stats")
    = ([{| rb_metric_name := JStr "wait_stats";
           rb_timestamp := t;
           rb_data := JObj [("n", JNum 1)] |}], []).
Proof.
  intros Hbad Hstamp Hgood Ht. split.
  - unfold get_collected_dbms_metrics.
    apply (read_back_stops_uncaught _ bad [good] [] [] (ValueError msg)); [|done].
    unfold read_entry. rewrite Hbad. cbn. by rewrite Hstamp.
  - unfold get_collected_dbms_metrics. cbn [read_lines].
    unfold read_entry. rewrite Hgood. cbn. by rewrite Ht.
Qed.

End ReadBack.

(** ** Parameter generation: the fallbacks *)

Section GeneratorFallbacks.

Import WorkloadExecutor.

Variable w : World.
Variable tables_metadata : gmap string TableMeta.

Lemma generate_frames_fetch_calls (cfg : QueryParamGeneratorConfig) :
  type cfg ≠ "random_from_column_sample" →
  frames fetch_calls (_generate_query_param w tables_metadata cfg).
Proof.
  intros Hne. unfold _generate_query_param.
  destruct (String.eqb_spec (type cfg) "random_int_from_column_range") as [_|_].
  { unfold random_int_from_column_range, random_randint, _randbelow. frames_auto. }
  destruct (String.eqb_spec (type cfg) "random_from_column_sample") as [?|_]; [done|].
  unfold date_range, now. frames_auto.
Qed.

Lemma generate_frames_param_cache (cfg : QueryParamGeneratorConfig) :
  type cfg ≠ "random_from_column_sample" →
  frames _param_cache (_generate_query_param w tables_metadata cfg).
Proof.
  intros Hne. unfold _generate_query_param.
  destruct (String.eqb_spec (type cfg) "random_int_from_column_range") as [_|_].
  { unfold random_int_from_column_range, random_randint, _randbelow. frames_auto. }
  destruct (String.eqb_spec (type cfg) "random_from_column_sample") as [?|_]; [done|].
  unfold date_range, now. frames_auto.
Qed.

Lemma generate_frames_query_calls (cfg : QueryParamGeneratorConfig) :
  frames query_calls (_generate_query_param w tables_metadata cfg).
Proof.
  unfold _generate_query_param, random_int_from_column_range,
    random_from_column_sample, resume_sample, sample_until_await,
    sample_after_await, pick_cached, date_range, random_randint, random_choice,
    _randbelow, now.
  frames_auto.
Qed.

Lemma range_returns_int (cfg : QueryParamGeneratorConfig) (st : Executor) :
  ∃ n, (random_int_from_column_range w tables_metadata cfg st).1 = Returns (PyInt n).
Proof.
  unfold random_int_from_column_range.
  destruct (negb (truthy_str (table cfg)) || negb (truthy_str (column cfg)));
    [by eexists|].
  destruct (tables_metadata !! default "" (table cfg)) as [meta|]; [|by eexists].
  destruct (min_id meta) as [lo|], (max_id meta) as [hi|]; try by eexists.
  unfold try_except, random_randint, _randbelow, Random.randint, mbind,
    StateExn_bind, bind, next_event, lift, ret.
  destruct (hi - lo + 1 <=? 0); cbn; by eexists.
Qed.

Lemma days_fit_sub (t : Q) (days : Z) :
  days_fit t days →
  ∃ delta, timedelta days = Returns delta
           ∧ datetime_sub t delta = Returns (t - timedelta_days days)%Q.
Proof.
  intros (Hdays & Hlo & Hhi). exists (timedelta_days days).
  unfold timedelta, datetime_sub.
  destruct (Z.ltb_spec 999999999 (Z.abs days)) as [?|_]; [lia|].
  split; [done|].
  apply Qle_bool_iff in Hlo, Hhi. by rewrite Hlo, Hhi.
Qed.

(** [date_range] returns when its two dates fit, and raises nothing but
    [OverflowError]. *)
Lemma date_range_returns (cfg : QueryParamGeneratorConfig) (st : Executor) :
  date_range_fits w (events st) cfg →
  ∃ items, (date_range w cfg st).1 = Returns (PyTuple items) ∧ length items = 2%nat.
Proof.
  intros [Hstart Hend].
  destruct (days_fit_sub _ _ Hstart) as (d1 & Hd1 & Hs1).
  destruct (days_fit_sub _ _ Hend) as (d2 & Hd2 & Hs2).
  unfold date_range, now, next_event, lift, mbind, StateExn_bind, bind, ret.
  cbn [fst snd events]. rewrite Hd1, Hs1. cbn [fst snd events].
  rewrite Hd2, Hs2. by eexists.
Qed.

Lemma date_range_raises (cfg : QueryParamGeneratorConfig) (st : Executor) (e : exn) :
  (date_range w cfg st).1 = Raises e → ∃ msg, e = OverflowError msg.
Proof.
  unfold date_range, now, next_event, lift, mbind, StateExn_bind, bind, ret,
    timedelta, datetime_sub.
  cbn [fst snd events].
  repeat (match goal with
          | |- context [if ?b then _ else _] => destruct b
          end; cbn [fst snd events]);
    intros [= <-] || discriminate; by eexists.
Qed.

(** X1. A generator that is not of the sample kind resolves without the
    adapter: it makes no fetch and leaves the cache, the query calls and
    the metrics as they are.  It returns a value, unless it is a date range
    one of whose dates does not fit: the only exception it can raise is the
    [OverflowError] of a date range.  A generator of none of the three
    known kinds yields [None] and a warning that names the kind. *)
Theorem generator_without_sample_stays_local
    (cfg : QueryParamGeneratorConfig) (st : Executor) :
  type cfg ≠ "random_from_column_sample" →
  let run := _generate_query_param w tables_metadata cfg st in
  ((type cfg = "date_range" → date_range_fits w (events st) cfg) →
   ∃ v, run.1 = Returns v)
  ∧ (∀ e, run.1 = Raises e →
          type cfg = "date_range" ∧ ∃ msg, e = OverflowError msg)
  ∧ fetch_calls run.2 = fetch_calls st
  ∧ _param_cache run.2 = _param_cache st
  ∧ query_calls run.2 = query_calls st
  ∧ query_log run.2 = query_log st
  ∧ (type cfg ≠ "random_int_from_column_range" → type cfg ≠ "date_range" →
     run.1 = Returns PyNone
     ∧ events run.2 = events st
     ∧ logged run.2
       = (logged st
          ++ [(WARNING,
               ("Unknown param generator type: " ++ type cfg
                ++ ". Returning None.")%string)])%list).
Proof.
  intros Hne run. subst run.
  split; [|split; [|split; [|split; [|split; [|split]]]]].
  - intros Hfits. unfold _generate_query_param.
    destruct (String.eqb_spec (type cfg) "random_int_from_column_range") as [Hr|_].
    { destruct (range_returns_int cfg st) as [n Hn]. by exists (PyInt n). }
    destruct (String.eqb_spec (type cfg) "random_from_column_sample") as [?|_]; [done|].
    destruct (String.eqb_spec (type cfg) "date_range") as [Hd|_]; [|by eexists].
    destruct (date_range_returns cfg st (Hfits Hd)) as (items & Hrun & _).
    by eexists.
  - intros e. unfold _generate_query_param.
    destruct (String.eqb_spec (type cfg) "random_int_from_column_range") as [Hr|_].
    { destruct (range_returns_int cfg st) as [n Hn]. rewrite Hn. discriminate. }
    destruct (String.eqb_spec (type cfg) "random_from_column_sample") as [?|_]; [done|].
    destruct (String.eqb_spec (type cfg) "date_range") as [Hd|_]; [|discriminate].
    intros Hraises. split; [done|]. by apply (date_range_raises cfg st).
  - by apply generate_frames_fetch_calls.
  - by apply generate_frames_param_cache.
  - apply generate_frames_query_calls.
  - apply generate_frames_query_log.
  - intros Hrange Hdate. unfold _generate_query_param.
    destruct (String.eqb_spec (type cfg) "random_int_from_column_range"); [done|].
    destruct (String.eqb_spec (type cfg) "random_from_column_sample"); [done|].
    destruct (String.eqb_spec (type cfg) "date_range"); [done|]. done.
Qed.

(** X2. A sample generator that names no table or no column yields the
    string "default_sample_value" with one warning: nothing is fetched, the
    cache is not touched and the environment is not consulted. *)
Theorem sample_without_table_or_column
    (cfg : QueryParamGeneratorConfig) (st : Executor) :
  type cfg = "random_from_column_sample" →
  truthy_str (table cfg) = false ∨ truthy_str (column cfg) = false →
  let run := _generate_query_param w tables_metadata cfg st in
  run.1 = Returns (PyStr "default_sample_value")
  ∧ fetch_calls run.2 = fetch_calls st
  ∧ _param_cache run.2 = _param_cache st
  ∧ events run.2 = events st
  ∧ logged run.2
    = (logged st
       ++ [(WARNING,
            "Missing table/column for random_from_column_sample. Returning 'default'.")])%list.
Proof.
  intros Htype Hmissing run. subst run.
  rewrite (generate_sample_eq w tables_metadata cfg Htype).
  unfold random_from_column_sample, sample_until_await.
  assert (negb (truthy_str (table cfg)) || negb (truthy_str (column cfg)) = true)
    as -> by (destruct Hmissing as [-> | ->]; [done|by rewrite orb_true_r]).
  done.
Qed.

(** X3. A range generator whose table has [min_id > max_id] yields the
    fallback 1 with the warning of an invalid range; nothing is drawn from
    the random generator. *)
Theorem range_with_inverted_bounds
    (cfg : QueryParamGeneratorConfig) (st : Executor) (tbl : string)
    (meta : TableMeta) (lo hi : Z) :
  type cfg = "random_int_from_column_range" →
  truthy_str (table cfg) = true → truthy_str (column cfg) = true →
  table cfg = Some tbl →
  tables_metadata !! tbl = Some meta →
  min_id meta = Some lo → max_id meta = Some hi → hi < lo →
  let run := _generate_query_param w tables_metadata cfg st in
  run.1 = Returns (PyInt 1)
  ∧ events run.2 = events st
  ∧ logged run.2 = (logged st ++ [(WARNING, "Range invalid. Default 1.")])%list.
Proof.
  intros Htype Ht Hc Htbl Hmeta Hlo Hhi Hlt run. subst run.
  rewrite (generate_range_eq w tables_metadata cfg Htype).
  unfold random_int_from_column_range. rewrite Ht, Hc, Htbl. cbn [negb orb].
  change (default "" (Some tbl)) with tbl. rewrite Hmeta, Hlo, Hhi.
  unfold try_except, random_randint, Random.randint, mbind, StateExn_bind, bind, lift.
  destruct (Z.leb_spec (hi - lo + 1) 0) as [_|?]; [|lia]. done.
Qed.

(** X4. The sample size is part of the cache key after its default is
    applied: two sample generators on the same table and column whose sizes
    agree once an absent or zero size is read as 100 share one cache entry.
    When the first misses and its fetch returns, the second, resolved next,
    fetches nothing and returns an element of the list the first stored. *)
Theorem sample_sizes_share_entry
    (cfg1 cfg2 : QueryParamGeneratorConfig) (st : Executor) (tbl col : string)
    (fetched : list PyValue) :
  type cfg1 = "random_from_column_sample" → type cfg2 = "random_from_column_sample" →
  table cfg1 = Some tbl → table cfg2 = Some tbl →
  column cfg1 = Some col → column cfg2 = Some col →
  truthy_str (Some tbl) = true → truthy_str (Some col) = true →
  or_default (sample_size cfg1) 100 = or_default (sample_size cfg2) 100 →
  _param_cache st
    !! ("random_from_column_sample", tbl, col, or_default (sample_size cfg1) 100)
  = None →
  get_column_sample w (events st) tbl col (or_default (sample_size cfg1) 100)
  = Returns fetched →
  let first := _generate_query_param w tables_metadata cfg1 st in
  let second := _generate_query_param w tables_metadata cfg2 first.2 in
  fetch_calls first.2
  = (fetch_calls st ++ [(tbl, col, or_default (sample_size cfg1) 100)])%list
  ∧ fetch_calls second.2 = fetch_calls first.2
  ∧ _param_cache second.2 = _param_cache first.2
  ∧ ∃ v, second.1 = Returns v ∧ v ∈ stored_sample fetched.
Proof.
  intros Ht1 Ht2 Htbl1 Htbl2 Hcol1 Hcol2 Htt Htc Hsize Hmiss Hfetch first second.
  subst first second.
  rewrite (generate_sample_eq w tables_metadata cfg1 Ht1).
  rewrite (generate_sample_eq w tables_metadata cfg2 Ht2).
  rewrite <- Ht1 in Hmiss at 1.
  rewrite (sample_miss_eq w cfg1 st tbl col fetched); try done;
    try (by rewrite ?Htbl1, ?Hcol1).
  set (key := (type cfg1, tbl, col, or_default (sample_size cfg1) 100)).
  match goal with |- context [pick_cached w key ?s] => set (st1 := s) end.
  destruct (pick_cached_hit w key (stored_sample fetched) st1)
    as (v1 & _ & _ & Hc1 & Hf1).
  { subst st1. cbn. apply lookup_insert_eq. }
  { apply stored_sample_nonempty. }
  set (st2 := (pick_cached w key st1).2) in *.
  assert (Hhit : _param_cache st2
                 !! (type cfg2, tbl, col, or_default (sample_size cfg2) 100)
                 = Some (stored_sample fetched)).
  { rewrite Hc1. subst st1. cbn. rewrite Ht2, <- Hsize, <- Ht1.
    apply lookup_insert_eq. }
  rewrite (sample_hit_eq w cfg2 st2 tbl col (stored_sample fetched)); try done;
    try (by rewrite ?Htbl2, ?Hcol2).
  destruct (pick_cached_hit w _ (stored_sample fetched) st2 Hhit)
    as (v & Hv & Hin & Hc2 & Hf2); [apply stored_sample_nonempty|].
  rewrite Hf2, Hc2, Hf1. subst st1. cbn. repeat split; eauto.
Qed.

End GeneratorFallbacks.

(** ** Parameter lists, labelled metrics, tasks that do nothing *)

Section MoreExecutor.

Import WorkloadExecutor.

Variable w : World.
Variable tables_metadata : gmap string TableMeta.



(** What one execution does to the metrics: nothing, or one metric with
    the names it was called with. *)
Lemma execute_appends_at_most_one (workload_name : string) (query_def : QueryDefinition)
    (st : Executor) :
  let run := _execute_single_query_instance w tables_metadata workload_name
               query_def st in
  query_log run.2 = query_log st
  ∨ ∃ metric,
      query_log run.2 = (query_log st ++ [metric])%list
      ∧ Models.workload_name metric = workload_name
      ∧ query_name metric = name query_def
      ∧ query_template metric = template query_def.
Proof.
  cbv zeta.
  destruct (_execute_single_query_instance w tables_metadata workload_name
              query_def st) as [r st'] eqn:Hrun.
  cbn [snd]. unfold _execute_single_query_instance in Hrun.
  pose proof (resolve_frames_query_log w tables_metadata
                (param_generators query_def) [] st) as Hframe.
  unfold mbind at 1 in Hrun. unfold StateExn_bind, bind in Hrun.
  destruct (resolve_params w tables_metadata (param_generators query_def) [] st)
    as [[params|e] st1]; cbn in Hframe.
  2: { injection Hrun as _ <-. by left. }
  unfold read_perf_counter, db_execute_query, now, mbind, StateExn_bind, bind,
    next_event, record_query, lift, mret, StateExn_ret, ret in Hrun. cbn in Hrun.
  destruct (execute_query w (S (events st1)) (template query_def) params)
    as [raw|e]; cbn in Hrun.
  2: { injection Hrun as _ <-. by left. }
  right. destruct raw; cbn in Hrun; injection Hrun as _ <-; cbn; rewrite Hframe;
    eexists; split; done.
Qed.

Lemma elem_of_expand (q : QueryDefinition) (qs : list QueryDefinition) :
  q ∈ expand qs ↔ q ∈ qs ∧ 1 <= weight q.
Proof.
  unfold expand. rewrite list_elem_of_In, in_flat_map. split.
  - intros (x & Hx & Hin). rewrite <- list_elem_of_In in Hx, Hin.
    apply elem_of_replicate in Hin as [-> Hn]. split; [done|lia].
  - intros [Hq Hw]. exists q. rewrite <- !list_elem_of_In. split; [done|].
    apply elem_of_replicate. split; [done|lia].
Qed.

(** X6. The pool of a workload holds exactly its queries of weight at least
    1: a query of weight zero or less is never selected, and a workload all
    of whose weights are zero or less makes its task return at once, without
    consulting the environment, like a workload without queries. *)
Theorem pool_holds_positive_weights (workload_cfg : WorkloadConfig) :
  (∀ q, q ∈ weighted_queries workload_cfg
        ↔ q ∈ queries workload_cfg ∧ 1 <= weight q)
  ∧ ((∀ q, q ∈ queries workload_cfg → weight q <= 0) →
     ∀ (fuel : nat) (st : Executor),
       let run := _run_workload_task w tables_metadata fuel workload_cfg st in
       run.1 = Returns Finished
       ∧ events run.2 = events st
       ∧ query_calls run.2 = query_calls st
       ∧ query_log run.2 = query_log st).
Proof.
  split; [intros q; apply elem_of_expand|].
  intros Hall fuel st.
  assert (Hpool : weighted_queries workload_cfg = []).
  { destruct (weighted_queries workload_cfg) as [|q pool] eqn:Hp; [done|].
    assert (Hq : q ∈ weighted_queries workload_cfg) by (rewrite Hp; left).
    apply elem_of_expand in Hq as [Hq Hw]. specialize (Hall q Hq). lia. }
  cbv zeta. unfold _run_workload_task. by rewrite Hpool.
Qed.

Lemma preserves_bind_post {S A B} (P : S -> Prop) (post : A -> Prop)
    (m : StateExn S A) (k : A -> StateExn S B) :
  preserves P m →
  (∀ st a, (m st).1 = Returns a → post a) →
  (∀ a, post a → preserves P (k a)) →
  preserves P (m ≫= k).
Proof.
  intros Hm Hpost Hk st HP. unfold mbind, StateExn_bind, bind.
  specialize (Hm st HP). specialize (Hpost st).
  destruct (m st) as [[a|e] st1]; cbn in *; [|done].
  apply Hk; [by apply Hpost|done].
Qed.

Lemma random_choice_member {A} (pool : list A) (st : Executor) (x : A) :
  (random_choice w pool st).1 = Returns x → x ∈ pool.
Proof.
  unfold random_choice, _randbelow, Random.choice, next_event, lift, mbind,
    StateExn_bind, bind, mret, StateExn_ret, ret. cbn.
  destruct (pool !! _) as [y|] eqn:Hy; [|done].
  intros [= <-]. by apply list_elem_of_lookup_2 in Hy.
Qed.

Lemma loop_appends_labelled (fuel : nat) (workload_cfg : WorkloadConfig)
    (pool : list QueryDefinition) (start : Q) (base : list QueryExecutionMetric) :
  pool ⊆ weighted_queries workload_cfg →
  preserves (appended_labelled workload_cfg base)
    (workload_loop w tables_metadata fuel workload_cfg pool start).
Proof.
  intros Hsub.
  induction fuel as [|fuel IH]; cbn [workload_loop]; [apply preserves_mret|].
  apply preserves_bind; [by intros st Hst|]. intros k.
  destruct (stop_event_is_set w k); [apply preserves_mret|].
  apply preserves_bind; [unfold read_time; preserves_auto|]. intros t.
  destruct (Qle_bool _ _); [apply preserves_mret|].
  apply (preserves_bind_post _ (fun q => q ∈ pool)).
  { unfold random_choice, _randbelow. preserves_auto. }
  { intros st q. apply random_choice_member. }
  intros q Hq.
  apply preserves_bind.
  { apply preserves_try_except; [|intros e h [= <-]; by intros st1 Hst1].
    intros st1 (new & Hnew & Hall).
    destruct (execute_appends_at_most_one (wl_name workload_cfg) q st1)
      as [Hsame|(metric & Happ & Hwn & Hqn & Hqt)].
    - exists new. by rewrite Hsame.
    - exists (new ++ [metric])%list. split.
      + by rewrite Happ, Hnew, app_assoc.
      + apply Forall_app. split; [done|]. apply Forall_singleton.
        split; [done|]. exists q. split; [by apply Hsub|done]. }
  intros _. apply preserves_bind; [unfold jitter_sleep; preserves_auto|].
  intros _. apply IH.
Qed.

(** X7. Every metric a workload task emits bears the name of its workload
    and the name and text of one of the workload's queries of weight at
    least 1; the metrics already recorded are kept, in order. *)
Theorem task_metrics_are_labelled
    (fuel : nat) (workload_cfg : WorkloadConfig) (st : Executor) :
  ∃ new,
    query_log (_run_workload_task w tables_metadata fuel workload_cfg st).2
    = (query_log st ++ new)%list
    ∧ Forall (fun metric =>
                workload_name metric = wl_name workload_cfg
                ∧ ∃ q, q ∈ queries workload_cfg ∧ 1 <= weight q
                       ∧ query_name metric = name q
                       ∧ query_template metric = template q) new.
Proof.
  assert (Htask : preserves (appended_labelled workload_cfg (query_log st))
                    (_run_workload_task w tables_metadata fuel workload_cfg)).
  { unfold _run_workload_task.
    apply preserves_bind; [by intros s Hs|]. intros _.
    destruct (weighted_queries workload_cfg) as [|q pool] eqn:Hpool.
    { apply preserves_bind; [by intros s Hs|]. intros _. apply preserves_mret. }
    apply preserves_bind; [by intros s Hs|]. intros start.
    apply preserves_bind.
    { apply loop_appends_labelled. by rewrite Hpool. }
    intros [|]; [|apply preserves_mret].
    apply preserves_bind; [by intros s Hs|]. intros _. apply preserves_mret. }
  destruct (Htask st) as (new & Hnew & Hall).
  { exists []. split; [by rewrite app_nil_r|done]. }
  exists new. split; [done|].
  eapply Forall_impl; [exact Hall|]. intros metric [Hwn (q & Hq & Hqn & Hqt)].
  split; [done|]. apply elem_of_expand in Hq as [Hq Hw]. by exists q.
Qed.

(** X8. A task whose stop signal is already set when the loop first looks,
    or whose duration is zero or negative while the clock has not gone back
    since the task read its start time, finishes without executing a query:
    no adapter call, no fetch, no metric. *)
Theorem task_stopped_or_expired_runs_nothing
    (fuel : nat) (workload_cfg : WorkloadConfig) (st : Executor) :
  stop_event_is_set w (S (events st)) = true
  ∨ (duration_seconds workload_cfg <= 0
     ∧ (time_time w (events st) <= time_time w (S (S (events st))))%Q) →
  let run := _run_workload_task w tables_metadata (S fuel) workload_cfg st in
  run.1 = Returns Finished
  ∧ query_calls run.2 = query_calls st
  ∧ fetch_calls run.2 = fetch_calls st
  ∧ query_log run.2 = query_log st.
Proof.
  intros Hwhy. cbv zeta. unfold _run_workload_task.
  destruct (weighted_queries workload_cfg) as [|q pool]; [done|].
  cbn [workload_loop].
  unfold read_time, next_event, logger, mbind, StateExn_bind, bind, mret,
    StateExn_ret, ret.
  cbn -[Qle_bool Qminus Nat.modulo lookup].
  destruct (stop_event_is_set w (S (events st))) eqn:Hstop; [done|].
  destruct Hwhy as [?|[Hdur Hclock]]; [done|].
  cbn -[Qle_bool Qminus Nat.modulo lookup].
  assert (Qle_bool (inject_Z (duration_seconds workload_cfg))
            (time_time w (S (S (events st))) - time_time w (events st)) = true)
    as ->; [|done].
  apply Qle_bool_iff.
  assert (inject_Z (duration_seconds workload_cfg) <= 0)%Q
    by (change 0%Q with (inject_Z 0); by rewrite <- Zle_Qle).
  lra.
Qed.

(** The interactions are numbered upwards: no step of the executor takes
    the count back. *)
Lemma generate_advances (n : nat) (cfg : QueryParamGeneratorConfig) :
  preserves (fun s => (n <= events s)%nat)
    (_generate_query_param w tables_metadata cfg).
Proof.
  unfold _generate_query_param, random_int_from_column_range,
    random_from_column_sample, resume_sample, sample_until_await,
    sample_after_await, pick_cached, date_range, random_randint, random_choice,
    _randbelow, now.
  advances_auto.
Qed.

Lemma resolve_advances (n : nat) (gens : list QueryParamGeneratorConfig) :
  ∀ params_list,
    preserves (fun s => (n <= events s)%nat)
      (resolve_params w tables_metadata gens params_list).
Proof.
  induction gens as [|g gens IH]; intros params_list; cbn [resolve_params].
  - apply preserves_mret.
  - apply preserves_bind; [apply generate_advances|]. intros v. apply IH.
Qed.

Lemma execute_advances (n : nat) (workload_name : string)
    (query_def : QueryDefinition) :
  preserves (fun s => (n <= events s)%nat)
    (_execute_single_query_instance w tables_metadata workload_name query_def).
Proof.
  unfold _execute_single_query_instance.
  apply preserves_bind; [apply resolve_advances|]. intros params.
  unfold read_perf_counter, db_execute_query, now. advances_auto.
Qed.

(** Once the stop event stays set from interaction [K] on, the loop ends
    within [K] more iterations. *)
Lemma loop_finishes_when_stopped (K : nat) (workload_cfg : WorkloadConfig)
    (q : QueryDefinition) (pool : list QueryDefinition) (start : Q) :
  (∀ k, (K <= k)%nat → stop_event_is_set w k = true) →
  ∀ (d : nat) (st : Executor),
    (K - events st <= d)%nat →
    (workload_loop w tables_metadata (S d) workload_cfg (q :: pool) start st).1
    = Returns Finished.
Proof.
  intros Hstop. induction d as [|d IH]; intros st Hd.
  - cbn [workload_loop].
    rewrite (bind_returns next_event _ st _ (events st) eq_refl).
    rewrite Hstop by lia. done.
  - cbn [workload_loop].
    rewrite (bind_returns next_event _ st _ (events st) eq_refl).
    destruct (stop_event_is_set w (events st)) eqn:Hs; [done|].
    rewrite (bind_returns (read_time w) _ _ _ _ eq_refl).
    destruct (Qle_bool _ _); [done|].
    match goal with |- context [(random_choice w (q :: pool) ≫= _) ?s] =>
      set (s2 := s) end.
    destruct (never_raises_random_choice w q pool s2) as [chosen Hchosen].
    assert (S (S (events st)) <= events (random_choice w (q :: pool) s2).2)%nat
      as Hs3.
    { assert (preserves (fun s => (S (S (events st)) <= events s)%nat)
                (random_choice w (q :: pool))) as Hp
        by (unfold random_choice, _randbelow; advances_auto).
      apply Hp. subst s2. cbn. lia. }
    destruct (random_choice w (q :: pool) s2) as [r s3] eqn:Hrun3.
    cbn [fst snd] in Hchosen, Hs3. subst r.
    rewrite (bind_returns _ _ _ _ _ Hrun3).
    match goal with |- context [(try_except ?m ?h ≫= _) s3] =>
      set (attempt := try_except m h) end.
    assert (never_raises attempt) as Hnever.
    { apply (never_raises_try_except _ (fun _ => logger ERROR _)).
      intros _. apply never_raises_logger. }
    assert (preserves (fun s => (S (S (events st)) <= events s)%nat) attempt)
      as Hattempt.
    { apply preserves_try_except; [apply execute_advances|].
      intros e h [= <-]. by intros s Hs'. }
    destruct (Hnever s3) as [u Hu]. specialize (Hattempt s3 Hs3).
    destruct (attempt s3) as [r s4] eqn:Hrun4. cbn [fst snd] in Hu, Hattempt.
    subst r. rewrite (bind_returns _ _ _ _ _ Hrun4).
    rewrite (bind_returns jitter_sleep _ s4 _ tt eq_refl).
    apply IH. cbn. assert (events st < K)%nat; [|lia].
    destruct (decide (K <= events st)%nat) as [Hle|]; [|lia].
    rewrite (Hstop _ Hle) in Hs. done.
Qed.

(** X9. Against an adapter whose [execute_query] raises on every call (a
    pool that was never connected), a workload task emits no metric at all
    and never raises: every attempt is contained in the loop.  And once the
    stop event stays set, the task does end: observed for long enough, it
    has finished, still without a metric. *)
Theorem unconnected_task_emits_nothing (workload_cfg : WorkloadConfig) :
  (∀ k query params, ∃ e, execute_query w k query params = Raises e) →
  (∀ (fuel : nat) (st : Executor),
     let run := _run_workload_task w tables_metadata fuel workload_cfg st in
     query_log run.2 = query_log st
     ∧ ∃ status, run.1 = Returns status)
  ∧ (∀ K : nat,
       (∀ k, (K <= k)%nat → stop_event_is_set w k = true) →
       ∀ st : Executor,
         ∃ fuel,
           let run := _run_workload_task w tables_metadata fuel workload_cfg st in
           run.1 = Returns Finished
           ∧ query_log run.2 = query_log st).
Proof.
  intros Hraises.
  assert (Hexec : ∀ wn q, frames query_log
            (_execute_single_query_instance w tables_metadata wn q)).
  { intros wn q s.
    destruct (_execute_single_query_instance w tables_metadata wn q s)
      as [r s'] eqn:Hrun.
    cbn [snd]. unfold _execute_single_query_instance in Hrun.
    pose proof (resolve_frames_query_log w tables_metadata
                  (param_generators q) [] s) as Hframe.
    unfold mbind at 1 in Hrun. unfold StateExn_bind, bind in Hrun.
    destruct (resolve_params w tables_metadata (param_generators q) [] s)
      as [[params|e] s1]; cbn in Hframe.
    2: { by injection Hrun as _ <-. }
    unfold read_perf_counter, db_execute_query, now, mbind, StateExn_bind, bind,
      next_event, record_query, lift, mret, StateExn_ret, ret in Hrun.
    cbn in Hrun.
    destruct (Hraises (S (events s1)) (template q) params) as [e He].
    rewrite He in Hrun. cbn in Hrun. by injection Hrun as _ <-. }
  assert (Hloop : ∀ fuel pool start, frames query_log
            (workload_loop w tables_metadata fuel workload_cfg pool start)).
  { intros fuel pool start. induction fuel as [|n IH]; cbn [workload_loop];
      [apply frames_mret|].
    apply frames_bind; [by intros s|]. intros k.
    destruct (stop_event_is_set w k); [apply frames_mret|].
    apply frames_bind; [by intros s|]. intros t.
    destruct (Qle_bool _ _); [apply frames_mret|].
    apply frames_bind; [unfold random_choice, _randbelow; frames_auto|]. intros q.
    apply frames_bind.
    { apply frames_try_except; [apply Hexec|]. intros e h [= <-]. by intros s. }
    intros _. apply frames_bind; [by intros s|]. intros _. apply IH. }
  assert (Hquiet : ∀ fuel st,
            query_log (_run_workload_task w tables_metadata fuel workload_cfg st).2
            = query_log st).
  { intros fuel. unfold _run_workload_task.
    apply (frames_bind query_log); [by intros s|]. intros _.
    destruct (weighted_queries workload_cfg) as [|q pool].
    { apply frames_bind; [by intros s|]. intros _. apply frames_mret. }
    apply frames_bind; [by intros s|]. intros start.
    apply frames_bind; [apply Hloop|]. intros [|]; [|apply frames_mret].
    apply frames_bind; [by intros s|]. intros _. apply frames_mret. }
  split.
  - intros fuel st. split; [apply Hquiet|apply (task_never_raises w tables_metadata)].
  - intros K Hstop st. exists (S (K - S (events st))).
    split; [|apply Hquiet].
    unfold _run_workload_task.
    rewrite (bind_returns (logger INFO _) _ st _ tt eq_refl).
    destruct (weighted_queries workload_cfg) as [|q pool]; [done|].
    rewrite (bind_returns (read_time w) _ _ _ _ eq_refl).
    match goal with |- context [(workload_loop _ _ ?f _ ?p ?t ≫= _) ?s] =>
      pose proof (loop_finishes_when_stopped K workload_cfg q pool t Hstop
                    (K - S (events st)) s) as Hfinished;
      destruct (workload_loop w tables_metadata f workload_cfg p t s)
        as [r s'] eqn:Hrun
    end.
    cbn [fst] in Hfinished. rewrite Hfinished in Hrun by (cbn; lia).
    rewrite (bind_returns _ _ _ _ _ Hrun). done.
Qed.

Lemma length_spawned (workloads_config : list WorkloadConfig) :
  length (spawned workloads_config) = task_count workloads_config.
Proof.
  unfold spawned. induction workloads_config as [|wl wls IH]; [done|].
  rewrite filter_cons. cbn [task_count foldr].
  destruct (decide (enabled wl = true)) as [He|He].
  - cbn [flat_map]. rewrite length_app, length_replicate, IH, He. done.
  - rewrite IH. destruct (enabled wl); [done|]. done.
Qed.

Lemma elem_of_spawned (workloads_config : list WorkloadConfig)
    (wl : WorkloadConfig) :
  wl ∈ spawned workloads_config
  ↔ wl ∈ workloads_config ∧ enabled wl = true ∧ 1 <= concurrency wl.
Proof.
  unfold spawned. rewrite list_elem_of_In, in_flat_map. split.
  - intros (x & Hx & Hin). rewrite <- list_elem_of_In in Hx, Hin.
    apply elem_of_replicate in Hin as [-> Hn].
    apply list_elem_of_filter in Hx as [He Hx]. repeat split; try done. lia.
  - intros (Hin & He & Hc). exists wl. rewrite <- !list_elem_of_In. split.
    + by apply list_elem_of_filter.
    + apply elem_of_replicate. split; [done|lia].
Qed.

(** X10. [run_all_workloads] always empties the parameter cache, so that no
    sample of an earlier run is reused.  With an enabled workload, the tasks
    it has created when it returns are, for every enabled workload, as many
    as its concurrency says (none for a concurrency of zero or less) and
    none for a disabled workload.  With no enabled workload it creates no
    task, gathers nothing, leaves the stop event alone and returns without
    waiting, after one log record. *)
Theorem run_all_spawns_by_concurrency
    (workloads_config : list WorkloadConfig)
    (task_outcome : nat -> WorkloadConfig -> result TaskStatus)
    (global_duration_seconds : Z) (l : EventLoop) :
  let run := run_all_workloads w workloads_config task_outcome
               global_duration_seconds l in
  _param_cache (executor run.2) = ∅
  ∧ (filter (fun wl => enabled wl = true) workloads_config ≠ [] →
     length (tasks run.2) = task_count workloads_config
     ∧ ∀ wl, wl ∈ tasks run.2
             ↔ wl ∈ workloads_config ∧ enabled wl = true ∧ 1 <= concurrency wl)
  ∧ (Forall (fun wl => enabled wl = false) workloads_config →
     tasks run.2 = tasks l
     ∧ gathered run.2 = gathered l
     ∧ global_stop_event run.2 = global_stop_event l
     ∧ events (executor run.2) = events (executor l)
     ∧ logged (executor run.2)
       = (logged (executor l) ++ [(INFO, "No enabled workloads to run.")])%list).
Proof.
  cbv zeta. split; [|split].
  - destruct (decide (filter (fun wl => enabled wl = true) workloads_config = []))
      as [Hnone|Hactive].
    + unfold run_all_workloads. rewrite Hnone. done.
    + destruct (run_all_workloads_active w workloads_config task_outcome
                  global_duration_seconds l Hactive) as (st' & Hcache & ->).
      done.
  - intros Hactive.
    destruct (run_all_workloads_active w workloads_config task_outcome
                global_duration_seconds l Hactive) as (st' & _ & ->).
    cbn [snd tasks]. split; [apply length_spawned|apply elem_of_spawned].
  - intros Hnone.
    assert (filter (fun wl => enabled wl = true) workloads_config = []) as Hf.
    { induction Hnone as [|wl wls Hwl _ IH]; [done|].
      rewrite filter_cons. destruct (decide (enabled wl = true)); [congruence|done]. }
    unfold run_all_workloads. rewrite Hf. done.
Qed.

End MoreExecutor.

(** ** More on the resource sampler *)

Section MoreSampler.

Import ResourceMonitor.

Variable w : World.
Variable monitoring_config : MonitoringConfig.

(** X11. [_collect_one_dbms_metric] never raises.  When the adapter raises,
    or returns [None] or a row count instead of rows, no record is handed to
    the metrics collector and the failure is logged: as a warning after
    [None], as an error after an exception or a row count. *)
Theorem collect_one_is_contained (metric_cfg_name query : string) (st : Monitor) :
  let run := _collect_one_dbms_metric w metric_cfg_name query st in
  run.1 = Returns tt
  ∧ ((∀ rows, execute_query w (events st) query [] ≠ Returns (Rows rows)) →
     dbms_log run.2 = dbms_log st
     ∧ ∃ level msg,
         logged run.2
         = (logged st
            ++ [(DEBUG, ("Collecting DBMS metric: " ++ metric_cfg_name)%string);
                (level, msg)])%list
         ∧ (level = WARNING
            ↔ execute_query w (events st) query [] = Returns NoResult)
         ∧ (level = ERROR
            ↔ execute_query w (events st) query [] ≠ Returns NoResult)).
Proof.
  cbv zeta.
  destruct (_collect_one_dbms_metric w metric_cfg_name query st) as [r st'] eqn:Hrun.
  unfold _collect_one_dbms_metric in Hrun.
  eassert (Hlog : logger DEBUG ("Collecting DBMS metric: " ++ metric_cfg_name) st
                  = (Returns tt, _)) by reflexivity.
  rewrite (bind_returns _ _ _ _ _ Hlog) in Hrun. clear Hlog.
  unfold try_except in Hrun.
  unfold mbind at 1 in Hrun. unfold StateExn_bind, bind, next_event at 1 in Hrun.
  cbn [fst snd events] in Hrun.
  unfold mbind at 1 in Hrun. unfold StateExn_bind, bind, lift in Hrun.
  destruct (execute_query w (events st) query []) as [[rows|n|]|e] eqn:Hq.
  - match type of Hrun with context [emit_rows w ?n ?r ?s] =>
      destruct (emit_rows_spec w n r s) as (Hr & _);
      destruct (emit_rows w n r s) as [r2 st2]
    end.
    cbn in Hr. subst r2. injection Hrun as <- _.
    split; [done|]. intros Hno. by destruct (Hno rows).
  - cbn in Hrun. injection Hrun as <- <-. split; [done|]. intros _.
    split; [done|]. eexists ERROR, _. cbn. split; [by rewrite <- app_assoc|].
    split; split; done.
  - cbn in Hrun. injection Hrun as <- <-. split; [done|]. intros _.
    split; [done|]. eexists WARNING, _. cbn. split; [by rewrite <- app_assoc|].
    split; split; done.
  - cbn in Hrun. injection Hrun as <- <-. split; [done|]. intros _.
    split; [done|]. eexists ERROR, _. cbn. split; [by rewrite <- app_assoc|].
    split; split; done.
Qed.

(** X12. Once a metric has been dispatched at time [t], a check at a time
    less than its frequency after [t] changes nothing: the rate of dispatch
    of a metric is bounded by its frequency, whatever the spacing of the
    passes. *)
Theorem no_redispatch_within_frequency
    (t now : Q) (metric_cfg : MonitoringMetricConfig) (st : Monitor) :
  is_due t st metric_cfg = true →
  (now - t < inject_Z (frequency_seconds metric_cfg))%Q →
  let dispatched_at_t := (check_metric t metric_cfg st).2 in
  dispatched dispatched_at_t
  = (dispatched st ++ [(metric_cfg_name metric_cfg, query metric_cfg, t)])%list
  ∧ (check_metric now metric_cfg dispatched_at_t).2 = dispatched_at_t.
Proof.
  intros Hdue Hsoon. cbv zeta.
  rewrite (check_metric_due t metric_cfg st), Hdue.
  split; [done|].
  rewrite check_metric_due.
  assert (is_due now (dispatch metric_cfg t st).2 metric_cfg = false) as ->; [|done].
  unfold is_due. cbn. rewrite lookup_insert_eq. cbn.
  destruct (Qle_bool _ _) eqn:Hle; [|done].
  apply Qle_bool_iff in Hle. lra.
Qed.

(** X13. Two configured metrics of the same name share one [last_run]: when
    the second has a positive frequency not smaller than the first's, it
    adds no dispatch in any pass, from any state; the second metric is never
    sampled. *)
Theorem duplicate_name_is_starved
    (now : Q) (first second : MonitoringMetricConfig) (st : Monitor) :
  metric_cfg_name second = metric_cfg_name first →
  frequency_seconds first <= frequency_seconds second →
  0 < frequency_seconds second →
  (check_metrics now [first; second] st).2 = (check_metric now first st).2.
Proof.
  intros Hname Hfreq Hpos. cbn [check_metrics].
  assert (Hstep : check_metric now first st
                  = (Returns tt, (check_metric now first st).2)).
  { rewrite check_metric_due. by destruct (is_due now st first). }
  rewrite (bind_returns _ _ _ _ _ Hstep).
  set (st1 := (check_metric now first st).2).
  assert (Hnot : is_due now st1 second = false).
  { subst st1. rewrite check_metric_due. unfold is_due. rewrite Hname.
    destruct (Qle_bool (inject_Z (frequency_seconds first)) _) eqn:Hfirst.
    - cbn. rewrite lookup_insert_eq. cbn.
      destruct (Qle_bool (inject_Z (frequency_seconds second)) (now - now)) eqn:Hle;
        [|done].
      apply Qle_bool_iff in Hle.
      assert (inject_Z 0 < inject_Z (frequency_seconds second))%Q
        by (by rewrite <- Zlt_Qlt).
      change (inject_Z 0) with 0%Q in *. lra.
    - cbn. destruct (Qle_bool (inject_Z (frequency_seconds second)) _) eqn:Hle;
        [|done].
      apply Qle_bool_iff in Hle.
      assert (inject_Z (frequency_seconds first)
              <= inject_Z (frequency_seconds second))%Q by (by rewrite <- Zle_Qle).
      assert (Qle_bool (inject_Z (frequency_seconds first))
                (now - default 0%Q (_dbms_metric_last_run st
                                    !! metric_cfg_name first)) = true)
        by (apply Qle_bool_iff; lra).
      congruence. }
  assert (Hsecond : check_metric now second st1 = (Returns tt, st1))
    by (by rewrite check_metric_due, Hnot).
  rewrite (bind_returns _ _ _ _ _ Hsecond). done.
Qed.

Lemma last_run_reset_is_zero (cfgs : list MonitoringMetricConfig) (key : string) :
  default 0%Q
    ((list_to_map ((fun cfg => (metric_cfg_name cfg, 0%Q)) <$> cfgs) : gmap string Q)
     !! key) = 0%Q.
Proof.
  induction cfgs as [|cfg cfgs IH]; [done|].
  cbn [fmap list_fmap list_to_map foldr]. cbn.
  destruct (decide (metric_cfg_name cfg = key)) as [->|Hne].
  - by rewrite lookup_insert_eq.
  - by rewrite lookup_insert_ne.
Qed.

(** X14. [start_monitoring] resets every [last_run] to 0, so on the first
    pass after a start, at time [now], exactly the configured metrics whose
    frequency is at most [now] are dispatched, in configuration order: with
    [now] an epoch time, all of them. *)
Theorem first_pass_after_start (now : Q) (st : Monitor) :
  thread_is_running st = false →
  NoDup (metric_cfg_name <$> dbms_metrics monitoring_config) →
  let started := (start_monitoring monitoring_config st).2 in
  dispatched (check_metrics now (dbms_metrics monitoring_config) started).2
  = (dispatched st
     ++ ((fun m => (metric_cfg_name m, query m, now))
         <$> filter (fun m => Qle_bool (inject_Z (frequency_seconds m)) now = true)
                    (dbms_metrics monitoring_config)))%list.
Proof.
  intros Hidle Hnd. cbv zeta.
  destruct (check_metrics_spec now _ Hnd (start_monitoring monitoring_config st).2)
    as (_ & Hd & _).
  rewrite Hd. unfold start_monitoring. rewrite Hidle.
  unfold start_thread, logger, mbind, StateExn_bind, bind. cbn [fst snd dispatched].
  f_equal. f_equal. apply filter_ext_elem. intros m _.
  unfold is_due. cbn [_dbms_metric_last_run]. rewrite last_run_reset_is_zero.
  rewrite !Qle_bool_iff. split; intros H; lra.
Qed.

Lemma check_metrics_keeps (now : Q) (cfgs : list MonitoringMetricConfig) :
  ∀ st : Monitor,
    (check_metrics now cfgs st).1 = Returns tt
    ∧ system_log (check_metrics now cfgs st).2 = system_log st
    ∧ _stop_event (check_metrics now cfgs st).2 = _stop_event st
    ∧ events (check_metrics now cfgs st).2 = events st.
Proof.
  induction cfgs as [|m cfgs IH]; intros st; [done|].
  cbn [check_metrics].
  assert (Hstep : check_metric now m st = (Returns tt, (check_metric now m st).2)).
  { rewrite check_metric_due. by destruct (is_due now st m). }
  rewrite (bind_returns _ _ _ _ _ Hstep).
  destruct (IH (check_metric now m st).2) as (Hr & Hs & He & Hev).
  rewrite Hr, Hs, He, Hev, check_metric_due. by destruct (is_due now st m).
Qed.

(** One pass of the loop: it returns, keeps the stop event, and records what
    the host sampling gave, if anything. *)
Lemma loop_body_host (st : Monitor) :
  let st' := (loop_body w monitoring_config st).2 in
  (loop_body w monitoring_config st).1 = Returns tt
  ∧ _stop_event st' = _stop_event st
  ∧ system_log st'
    = (system_log st
       ++ match (_collect_os_metrics_sync w monitoring_config st).1 with
          | Returns (Some d) => [d]
          | _ => []
          end)%list.
Proof.
  cbv zeta. unfold loop_body.
  destruct (collect_os_frames w monitoring_config st) as ([d Hd] & _ & Hs & _ & _).
  assert (Hsys : system_log (_collect_os_metrics_sync w monitoring_config st).2
                 = system_log st).
  { unfold _collect_os_metrics_sync.
    destruct (os_metrics monitoring_config); [done|].
    unfold now, next_event, logger, mbind, StateExn_bind, bind, mret, StateExn_ret,
      ret. cbn. by destruct (_ && ps_fails _). }
  destruct (_collect_os_metrics_sync w monitoring_config st) as [r st1] eqn:Hos.
  cbn in Hd, Hs, Hsys. subst r. cbn [fst].
  rewrite (bind_returns _ _ st st1 d Hos).
  set (record := match d with Some d0 => log_system_metric d0 | None => mret tt end).
  assert (Hrec : ∃ st2, record st1 = (Returns tt, st2)
                 ∧ _stop_event st2 = _stop_event st1
                 ∧ system_log st2
                   = (system_log st1
                      ++ match d with Some d0 => [d0] | None => [] end)%list).
  { subst record. destruct d; eexists; (split; [reflexivity|]); cbn;
      [done|by rewrite app_nil_r]. }
  destruct Hrec as (st2 & Hr2 & Hs2 & Hl2).
  rewrite (bind_returns _ _ st1 st2 tt Hr2).
  eassert (Hrt : read_time w st2 = (Returns (time_time w (events st2)), _))
    by reflexivity.
  rewrite (bind_returns _ _ _ _ _ Hrt). clear Hrt.
  match goal with
  | |- context [(check_metrics ?n ?c ≫= ?k) ?s] =>
      destruct (check_metrics_keeps n c s) as (Hr3 & Hl3 & Hs3 & _);
      destruct (check_metrics n c s) as [r3 st3] eqn:Hcm
  end.
  cbn in Hr3, Hl3, Hs3. subst r3.
  rewrite (bind_returns _ _ _ _ _ Hcm).
  unfold next_event, mbind, StateExn_bind, bind, mret, StateExn_ret, ret. cbn.
  rewrite Hs3, Hl3, Hs2, Hl2, Hs, Hsys. destruct d; done.
Qed.

(** X15. While the stop event is clear, the loop records one host sample
    per pass when host metrics are configured and [psutil] does not fail,
    and none when no host metric is configured.  In every sample the
    processor and the memory field are set exactly when their metric is
    configured.  The two disk counters are set together, and only when the
    disk counters are configured: then they are set in every sample when
    [psutil] always reports counters, and in none when it never does. *)
Theorem host_sample_per_pass (n : nat) (st : Monitor) :
  _stop_event st = false →
  let st' := (sampling_loop w monitoring_config n st).2 in
  (os_metrics monitoring_config = [] → system_log st' = system_log st)
  ∧ (os_metrics monitoring_config ≠ [] →
     (∀ k, ps_fails (psutil w k) = false) →
     ∃ new,
       system_log st' = (system_log st ++ new)%list
       ∧ length new = n
       ∧ Forall (fun d =>
           (is_Some (cpu_percent d) ↔ "cpu_percent" ∈ os_metrics monitoring_config)
           ∧ (is_Some (memory_percent d)
              ↔ "memory_percent" ∈ os_metrics monitoring_config)
           ∧ (is_Some (disk_io_read_bytes d)
              → "disk_io_counters" ∈ os_metrics monitoring_config)
           ∧ (is_Some (disk_io_read_bytes d) ↔ is_Some (disk_io_write_bytes d))
           ∧ ((∀ k, is_Some (ps_disk_io_counters (psutil w k))) →
              "disk_io_counters" ∈ os_metrics monitoring_config →
              is_Some (disk_io_read_bytes d))
           ∧ ((∀ k, ps_disk_io_counters (psutil w k) = None) →
              disk_io_read_bytes d = None))
           new).
Proof.
  intros Hstop. cbv zeta. split.
  - intros Hnone. revert st Hstop. induction n as [|n IH]; intros st Hstop; [done|].
    cbn [sampling_loop]. rewrite Hstop.
    destruct (loop_body_host st) as (Hr & Hs & Hl).
    destruct (loop_body w monitoring_config st) as [r st1] eqn:Hbody.
    cbn in Hr, Hs, Hl. subst r. rewrite (bind_returns _ _ _ _ _ Hbody).
    rewrite IH by (by rewrite Hs). rewrite Hl.
    unfold _collect_os_metrics_sync. rewrite Hnone. cbn. by rewrite app_nil_r.
  - intros Hsome Hok. revert st Hstop.
    induction n as [|n IH]; intros st Hstop.
    { exists []. by rewrite app_nil_r. }
    cbn [sampling_loop]. rewrite Hstop.
    destruct (loop_body_host st) as (Hr & Hs & Hl).
    destruct (loop_body w monitoring_config st) as [r st1] eqn:Hbody.
    cbn in Hr, Hs, Hl. subst r. rewrite (bind_returns _ _ _ _ _ Hbody).
    destruct (IH st1) as (new & Hnew & Hlen & Hall); [by rewrite Hs|].
    unfold _collect_os_metrics_sync in Hl.
    destruct (os_metrics monitoring_config) as [|m ms] eqn:Hcfg; [done|].
    unfold now, next_event, logger, mbind, StateExn_bind, bind, mret, StateExn_ret,
      ret in Hl. cbn -[andb orb] in Hl. rewrite Hok, andb_false_r in Hl.
    cbn in Hl.
    eexists (_ :: new). split; [|split].
    + rewrite Hnew, Hl, <- app_assoc. reflexivity.
    + cbn. by rewrite Hlen.
    + apply Forall_cons. split; [|done]. cbn. unfold configured. rewrite Hcfg.
      repeat split.
      * intros H. destruct (bool_decide _) eqn:Hb; [|by destruct H].
        by apply bool_decide_eq_true in Hb.
      * intros H. rewrite bool_decide_eq_true_2 by done. by eexists.
      * intros H. destruct (bool_decide _) eqn:Hb; [|by destruct H].
        by apply bool_decide_eq_true in Hb.
      * intros H. rewrite bool_decide_eq_true_2 by done. by eexists.
      * intros H. destruct (bool_decide ("disk_io_counters" ∈ m :: ms)) eqn:Hb;
          [by apply bool_decide_eq_true in Hb|]. by destruct H.
      * intros [x Hx]. destruct (if bool_decide _ then _ else _) as [[a b]|];
          [by eexists|done].
      * intros [x Hx]. destruct (if bool_decide _ then _ else _) as [[a b]|];
          [by eexists|done].
      * intros Hreports Hdisk. rewrite bool_decide_eq_true_2 by done.
        match goal with
        | |- context [ps_disk_io_counters (psutil w ?k)] =>
            destruct (Hreports k) as [[a b] ->]
        end.
        by eexists.
      * intros Hnever. rewrite Hnever. by destruct (bool_decide _).
Qed.

(** X16. [stop_monitoring] on a sampler that is not running only logs that
    there is nothing to stop: it returns at once, does not set the stop
    event and keeps the rest of the state; in particular a second [stop]
    after a first adds nothing but that record. *)
Theorem stop_when_idle_is_inert (exit_delay : option Q) (st : Monitor) :
  (thread_is_running st = false →
   stop_monitoring exit_delay st
   = (Returns 0%Q,
      (logger INFO "Monitoring not running or already stopped." st).2))
  ∧ ∀ first_delay,
      let stopped := (stop_monitoring first_delay st).2 in
      stop_monitoring exit_delay stopped
      = (Returns 0%Q,
         (logger INFO "Monitoring not running or already stopped." stopped).2).
Proof.
  assert (Hidle : ∀ s, thread_is_running s = false →
            stop_monitoring exit_delay s
            = (Returns 0%Q,
               (logger INFO "Monitoring not running or already stopped." s).2)).
  { intros s Hs. unfold stop_monitoring. by rewrite Hs. }
  split; [apply Hidle|]. intros first_delay. apply Hidle. apply stop_leaves_idle.
Qed.

End MoreSampler.

(** ** More on the metric log *)

Section MoreReadBack.

Import MetricsCollector.

Variable json_loads : string -> result Json.
Variable fromisoformat : string -> result Q.

Lemma read_lines_tolerant (metric_name_filter : option string) (lines : list string) :
  Forall (tolerated json_loads fromisoformat metric_name_filter) lines →
  ∀ (collected : list ReadBack) (log : list LogRecord),
    read_lines json_loads fromisoformat metric_name_filter lines collected log
    = ((collected
        ++ omap (entry_of json_loads fromisoformat metric_name_filter) lines)%list,
       (log
        ++ ((fun line => (WARNING, ("Skipping malformed line: " ++ line)%string))
            <$> filter (fun line =>
                          raises_on json_loads fromisoformat metric_name_filter line
                          = true) lines))%list).
Proof.
  induction 1 as [|line lines Hline _ IH]; intros collected log.
  - cbn. by rewrite !app_nil_r.
  - assert (Hentry : entry_of json_loads fromisoformat metric_name_filter line
                     = match read_entry json_loads fromisoformat
                               metric_name_filter line with
                       | Returns (Some entry) => Some entry
                       | _ => None
                       end) by reflexivity.
    assert (Hraises : raises_on json_loads fromisoformat metric_name_filter line
                      = match read_entry json_loads fromisoformat
                                metric_name_filter line with
                        | Raises _ => true
                        | Returns _ => false
                        end) by reflexivity.
    unfold tolerated in Hline.
    destruct (read_entry json_loads fromisoformat metric_name_filter line)
      as [[entry|]|e] eqn:Hread;
      cbn [read_lines omap list_omap]; rewrite Hread, Hentry, filter_cons, Hraises.
    + rewrite IH. destruct (decide (false = true)); [done|].
      by rewrite <- app_assoc.
    + rewrite IH. by destruct (decide (false = true)).
    + rewrite (Hline e eq_refl), IH. destruct (decide (true = true)); [|done].
      cbn. by rewrite <- app_assoc.
Qed.

(** X17. On a log every line of which either reads or fails in one of the
    ways the per-line clause catches (a JSON decoding error, a missing key,
    a type error), the read-back returns exactly the records of the lines
    that read and are selected by the filter, in file order, and logs one
    warning for each line that failed, in file order. *)
Theorem read_back_of_tolerated_log
    (metric_name_filter : option string) (lines : list string) :
  Forall (tolerated json_loads fromisoformat metric_name_filter) lines →
  get_collected_dbms_metrics json_loads fromisoformat (Returns lines)
    metric_name_filter
  = (omap (entry_of json_loads fromisoformat metric_name_filter) lines,
     (fun line => (WARNING, ("Skipping malformed line: " ++ line)%string))
     <$> filter (fun line =>
                   raises_on json_loads fromisoformat metric_name_filter line = true)
                lines).
Proof.
  intros Hall. unfold get_collected_dbms_metrics.
  by rewrite (read_lines_tolerant _ _ Hall).
Qed.

Lemma read_entry_selected (wanted line : string) (entry : ReadBack) :
  read_entry json_loads fromisoformat (Some wanted) line = Returns (Some entry) →
  rb_metric_name entry = JStr wanted.
Proof.
  unfold read_entry.
  destruct (json_loads line) as [[| | | | |fields]|]; try done.
  unfold selected, getitem.
  destruct (dict_lookup "metric_name" fields) as [[| | |s| |]|] eqn:Hname; try done.
  destruct (String.eqb_spec s wanted) as [->|]; [|done].
  destruct (dict_lookup "timestamp" fields) as [stamp|]; [|done].
  destruct (parse_timestamp fromisoformat stamp); [|done].
  destruct (dict_lookup "data" fields); [|done].
  by intros [= <-].
Qed.

Lemma read_lines_selected (wanted : string) (lines : list string) :
  ∀ (collected : list ReadBack) (log : list LogRecord),
    Forall (fun entry => rb_metric_name entry = JStr wanted) collected →
    Forall (fun entry => rb_metric_name entry = JStr wanted)
      (read_lines json_loads fromisoformat (Some wanted) lines collected log).1.
Proof.
  induction lines as [|line lines IH]; intros collected log Hall; [done|].
  cbn [read_lines].
  destruct (read_entry json_loads fromisoformat (Some wanted) line)
    as [[entry|]|e] eqn:Hread.
  - apply IH. apply Forall_app. split; [done|]. apply Forall_singleton.
    by apply (read_entry_selected wanted line).
  - by apply IH.
  - destruct (caught_per_line e); [by apply IH|done].
Qed.

(** X18. Whatever the log holds, and whether or not the reading is cut
    short, every record the read-back returns under a filter bears exactly
    the wanted metric name, as a string. *)
Theorem read_back_returns_only_wanted
    (file : result (list string)) (wanted : string) :
  Forall (fun entry => rb_metric_name entry = JStr wanted)
    (get_collected_dbms_metrics json_loads fromisoformat file (Some wanted)).1.
Proof.
  unfold get_collected_dbms_metrics. destruct file as [lines|e].
  - by apply read_lines_selected.
  - by destruct e.
Qed.

End MoreReadBack.

Section RoundTrip.

Import MetricsCollector MetricsSink.

Variable json_dumps : Json -> string.
Variable json_loads : string -> result Json.
Variable isoformat : Q -> string.
Variable fromisoformat : string -> result Q.

Lemma log_all_app (writes : list (bool * DBMSMetricData)) :
  ∀ file,
    log_all json_dumps isoformat writes file
    = (file
       ++ ((fun w => (json_dumps (dbms_entry isoformat w.2) ++ newline)%string)
           <$> filter (fun w => w.1 = true) writes))%list.
Proof.
  induction writes as [|[opened d] writes IH]; intros file.
  - cbn. by rewrite app_nil_r.
  - cbn [log_all]. rewrite IH, filter_cons. unfold log_dbms_metric,
      _append_to_jsonl_file. cbn [fst snd].
    destruct opened; cbn [fst].
    + destruct (decide (true = true)); [|done]. cbn. by rewrite <- app_assoc.
    + by destruct (decide (false = true)).
Qed.

Lemma written_line_reads (d : DBMSMetricData) (metric_name_filter : option string) :
  json_loads (json_dumps (dbms_entry isoformat d) ++ newline)
  = Returns (dbms_entry isoformat d) →
  fromisoformat (isoformat (dm_timestamp d)) = Returns (dm_timestamp d) →
  read_entry json_loads fromisoformat metric_name_filter
    (json_dumps (dbms_entry isoformat d) ++ newline)
  = Returns (if selected [("metric_name", JStr (metric_name d))] metric_name_filter
             then Some (read_back_of d) else None).
Proof.
  intros Hloads Hiso. unfold read_entry. rewrite Hloads. unfold dbms_entry.
  unfold selected. destruct metric_name_filter as [wanted|]; cbn.
  - destruct (String.eqb (metric_name d) wanted); [|done]. by rewrite Hiso.
  - by rewrite Hiso.
Qed.

(** X19. Round trip through the log.  When [json.loads] reads back what
    [json.dumps] wrote for the records and [fromisoformat] inverts
    [isoformat] on their timestamps, the records handed to
    [log_dbms_metric], starting from an empty log, are returned by the
    read-back in the order written: all those whose file could be opened
    when no filter is given, those of the wanted name under a filter; and no
    line is skipped. *)
Theorem written_records_read_back
    (writes : list (bool * DBMSMetricData)) (metric_name_filter : option string) :
  Forall (fun w =>
            json_loads (json_dumps (dbms_entry isoformat w.2) ++ newline)
            = Returns (dbms_entry isoformat w.2)
            ∧ fromisoformat (isoformat (dm_timestamp w.2))
              = Returns (dm_timestamp w.2)) writes →
  get_collected_dbms_metrics json_loads fromisoformat
    (Returns (log_all json_dumps isoformat writes [])) metric_name_filter
  = (read_back_of
     <$> filter (fun d => wanted_by metric_name_filter d = true)
                (snd <$> filter (fun w => w.1 = true) writes),
     []).
Proof.
  intros Hall. rewrite log_all_app, app_nil_l.
  unfold get_collected_dbms_metrics.
  assert (Hgen : ∀ collected,
    read_lines json_loads fromisoformat metric_name_filter
      ((fun w => (json_dumps (dbms_entry isoformat w.2) ++ newline)%string)
       <$> filter (fun w => w.1 = true) writes) collected []
    = ((collected
        ++ (read_back_of
            <$> filter (fun d => wanted_by metric_name_filter d = true)
                       (snd <$> filter (fun w => w.1 = true) writes)))%list, [])).
  { induction Hall as [|[opened d] writes [Hloads Hiso] _ IH]; intros collected.
    - cbn. by rewrite app_nil_r.
    - rewrite filter_cons. cbn [fst snd] in *.
      destruct (decide (opened = true)) as [->|Hno]; [|apply IH].
      cbn [fmap list_fmap read_lines fst snd].
      rewrite (written_line_reads d metric_name_filter Hloads Hiso).
      rewrite filter_cons. unfold selected, wanted_by. cbn [dict_lookup].
      change (String.eqb "metric_name" "metric_name") with true. cbv iota.
      destruct metric_name_filter as [wanted|].
      + destruct (String.eqb (metric_name d) wanted).
        * destruct (decide (true = true)); [|done].
          rewrite IH. cbn. by rewrite <- app_assoc.
        * destruct (decide (false = true)); [done|]. apply IH.
      + destruct (decide (true = true)); [|done]. rewrite IH. cbn.
        by rewrite <- app_assoc. }
  by rewrite Hgen.
Qed.

End RoundTrip.

(** ** The adapter's column reads *)

Section ColumnReads.

Import SQLServerAdapter.

Variable a : Adapter.

Lemma execute_query_fetch (k : nat) (query : string)
    (description : option (list string)) (rows : list (list PyValue))
    (rowcount : Z) :
  pool a = true →
  cursor a k query [] = Executes description (Some rows) rowcount →
  execute_query a k query [] true
  = Returns (Rows ((fun row => dict (zip (default [] description) row)) <$> rows)).
Proof. intros Hpool Hcur. unfold execute_query. by rewrite Hpool, Hcur. Qed.

(** X20. The bounds of a column are read off the two values of the single
    result row, and a row is a dictionary keyed by the column names the
    driver reports: when the two columns come back under one name the
    dictionary has one entry and the bounds are reported absent, whatever
    the table holds; under two names they are the two values. *)
Theorem min_max_by_reported_names (k : nat) (table_name column_name : string)
    (name1 name2 : string) (lo hi : PyValue) (rowcount : Z) :
  pool a = true →
  cursor a k (min_max_query table_name column_name) []
  = Executes (Some [name1; name2]) (Some [[lo; hi]]) rowcount →
  get_column_min_max a k table_name column_name
  = Returns (if decide (name1 = name2) then (PyNone, PyNone) else (lo, hi)).
Proof.
  intros Hpool Hcur. unfold get_column_min_max.
  rewrite (execute_query_fetch _ _ _ _ _ Hpool Hcur).
  cbn. destruct (decide (name1 = name2)); reflexivity.
Qed.

(** X21. The sample keeps the first value of every fetched row when the
    driver reports the column under exactly the name asked for; under any
    other name every row is dropped and the sample is empty. *)
Theorem sample_by_reported_name (k : nat) (table_name column_name : string)
    (sample_size : Z) (name : string) (rows : list (list PyValue))
    (rowcount : Z) :
  pool a = true →
  cursor a k (sample_query table_name column_name sample_size) []
  = Executes (Some [name]) (Some rows) rowcount →
  get_column_sample a k table_name column_name sample_size
  = Returns (if decide (name = column_name) then omap head rows else []).
Proof.
  intros Hpool Hcur. unfold get_column_sample.
  rewrite (execute_query_fetch _ _ _ _ _ Hpool Hcur). f_equal.
  cbn [default from_option id]. clear Hcur.
  induction rows as [|row rows IH]; [by destruct (decide _)|].
  rewrite fmap_cons. cbn [omap list_omap]. rewrite IH.
  destruct row as [|v row]; cbn.
  - by destruct (decide (name = column_name)).
  - destruct (decide (name = column_name)); reflexivity.
Qed.

End ColumnReads.

(** ** A sample the database does not deliver *)

Section FailedSample.

Import WorkloadExecutor.

Variable w : World.
Variable tables_metadata : gmap string TableMeta.

(** X22. When the adapter's sample statement is rejected by the database,
    the parameter resolves to the string "default_if_empty" and that
    fallback is what the cache keeps for the key: every later resolution
    that finds it returns the same string and fetches nothing, so the
    database is not asked again. *)
Theorem rejected_sample_is_cached_as_fallback (a : SQLServerAdapter.Adapter)
    (cfg : QueryParamGeneratorConfig) (st : Executor) (tbl col : string) :
  type cfg = "random_from_column_sample" →
  table cfg = Some tbl → column cfg = Some col → tbl ≠ "" → col ≠ "" →
  let size := or_default (sample_size cfg) 100 in
  let key := (type cfg, tbl, col, size) in
  _param_cache st !! key = None →
  get_column_sample w (events st) tbl col size
  = SQLServerAdapter.get_column_sample a (events st) tbl col size →
  SQLServerAdapter.pool a = true →
  SQLServerAdapter.cursor a (events st)
    (SQLServerAdapter.sample_query tbl col size) []
  = SQLServerAdapter.Fails →
  let run := _generate_query_param w tables_metadata cfg st in
  run.1 = Returns (PyStr "default_if_empty")
  ∧ _param_cache run.2 !! key = Some [PyStr "default_if_empty"]
  ∧ ∀ st', _param_cache st' !! key = Some [PyStr "default_if_empty"] →
      let again := _generate_query_param w tables_metadata cfg st' in
      again.1 = Returns (PyStr "default_if_empty")
      ∧ fetch_calls again.2 = fetch_calls st'.
Proof.
  intros Htype Htbl Hcol Htne Hcne size key Hmiss Hadapter Hpool Hfails run.
  assert (truthy_str (table cfg) = true) as Ht.
  { rewrite Htbl. cbn. by destruct (String.eqb_spec tbl ""). }
  assert (truthy_str (column cfg) = true) as Hc.
  { rewrite Hcol. cbn. by destruct (String.eqb_spec col ""). }
  assert (get_column_sample w (events st) tbl col size = Returns []) as Hfetch.
  { rewrite Hadapter. unfold SQLServerAdapter.get_column_sample,
      SQLServerAdapter.execute_query. by rewrite Hpool, Hfails. }
  assert (∀ s, _param_cache s !! key = Some [PyStr "default_if_empty"] →
            (pick_cached w key s).1 = Returns (PyStr "default_if_empty")
            ∧ fetch_calls (pick_cached w key s).2 = fetch_calls s
            ∧ _param_cache (pick_cached w key s).2 = _param_cache s) as Hpick.
  { intros s Hs. unfold pick_cached, get_param_cache, mbind, StateExn_bind, bind.
    cbn beta iota. unfold CacheKey in *. rewrite Hs.
    unfold random_choice, _randbelow, next_event, Random.choice, lift, mbind,
      StateExn_bind, bind, ret. cbn. done. }
  subst run. rewrite (generate_sample_eq w tables_metadata cfg Htype).
  split; [|split].
  - rewrite (sample_miss_eq w cfg st tbl col [] Ht Hc Htbl Hcol Hmiss Hfetch).
    apply Hpick. cbn. by rewrite lookup_insert_eq.
  - rewrite (sample_miss_eq w cfg st tbl col [] Ht Hc Htbl Hcol Hmiss Hfetch).
    match goal with |- context [pick_cached w _ ?s] =>
      destruct (Hpick s) as (_ & _ & Hkeeps) end.
    { cbn. by rewrite lookup_insert_eq. }
    etrans; [exact (f_equal (fun c => c !! key) Hkeeps)|].
    cbn. by rewrite lookup_insert_eq.
  - intros st' Hst' again. subst again.
    rewrite (sample_hit_eq w cfg st' tbl col _ Ht Hc Htbl Hcol Hst').
    destruct (Hpick st' Hst') as (? & ? & _). done.
Qed.

End FailedSample.

(** ** The metadata refresh *)

Section Refresh.

Import SchemaModels SchemaManager.

Variable get_column_min_max :
  nat -> string -> string -> result (option Z * option Z).

Lemma refresh_tables_entries (tables all : list TableSchema) (k : nat)
    (md : gmap string TableMeta) :
  tables ⊆ all →
  (∀ name meta, md !! name = Some meta →
     (∃ table_cfg col, table_cfg ∈ all ∧ tbl_name table_cfg = name
        ∧ pk_column_def table_cfg = Some col ∧ pk_column meta = col_name col)
     ∧ (min_id meta = None ↔ max_id meta = None)) →
  ∀ name meta,
    (refresh_tables get_column_min_max tables k md).2 !! name = Some meta →
    (∃ table_cfg col, table_cfg ∈ all ∧ tbl_name table_cfg = name
       ∧ pk_column_def table_cfg = Some col ∧ pk_column meta = col_name col)
    ∧ (min_id meta = None ↔ max_id meta = None).
Proof.
  revert k md. induction tables as [|table_cfg rest IH]; intros k md Hsub Hmd.
  { exact Hmd. }
  assert (table_cfg ∈ all) as Hin by (apply Hsub; left).
  assert (rest ⊆ all) as Hrest by (intros x Hx; apply Hsub; by right).
  cbn [refresh_tables].
  destruct (pk_column_def table_cfg) as [col|] eqn:Hpk; [|by apply IH].
  destruct (get_column_min_max k (tbl_name table_cfg) (col_name col))
    as [[lo hi]|e]; [|exact Hmd].
  assert (∀ m, (min_id m = None ↔ max_id m = None) → pk_column m = col_name col →
            ∀ name meta, <[tbl_name table_cfg := m]> md !! name = Some meta →
              (∃ table_cfg col, table_cfg ∈ all ∧ tbl_name table_cfg = name
                 ∧ pk_column_def table_cfg = Some col
                 ∧ pk_column meta = col_name col)
              ∧ (min_id meta = None ↔ max_id meta = None)) as Hins.
  { intros m Hm Hcolm name meta.
    destruct (decide (tbl_name table_cfg = name)) as [<-|Hne].
    - rewrite lookup_insert_eq. intros [= <-]. split; [|done].
      by exists table_cfg, col.
    - rewrite lookup_insert_ne by done. apply Hmd. }
  destruct lo as [lo|], hi as [hi|]; apply IH; try done; apply Hins; done.
Qed.

(** X23. Whatever the adapter answers, and also when it raises half-way,
    every entry the refresh leaves belongs to a configured table with an
    identity primary key and names that column, and its two bounds are both
    present or both absent. *)
Theorem refreshed_entries_are_consistent (schema_config : SchemaConfig)
    (k : nat) (name : string) (meta : TableMeta) :
  (refresh_tables_metadata get_column_min_max schema_config k).2 !! name
  = Some meta →
  (∃ table_cfg col,
     table_cfg ∈ tables schema_config ∧ tbl_name table_cfg = name
     ∧ pk_column_def table_cfg = Some col ∧ pk_column meta = col_name col)
  ∧ (min_id meta = None ↔ max_id meta = None).
Proof.
  apply refresh_tables_entries; [done|]. intros ? ?. by rewrite lookup_empty.
Qed.

Lemma refresh_tables_other (tables : list TableSchema) (k : nat)
    (md : gmap string TableMeta) (name : string) :
  name ∉ tbl_name <$> tables →
  (refresh_tables get_column_min_max tables k md).2 !! name = md !! name.
Proof.
  revert k md. induction tables as [|table_cfg rest IH]; intros k md Hnot; [done|].
  rewrite fmap_cons, not_elem_of_cons in Hnot. destruct Hnot as [Hne Hnot].
  cbn [refresh_tables].
  destruct (pk_column_def table_cfg) as [col|]; [|by apply IH].
  destruct (get_column_min_max k (tbl_name table_cfg) (col_name col))
    as [[[lo|] [hi|]]|e]; [| | | |done];
    rewrite IH by done; by rewrite lookup_insert_ne.
Qed.

Lemma refresh_tables_lookup (tables : list TableSchema) (k : nat)
    (md : gmap string TableMeta) (table_cfg : TableSchema)
    (col : ColumnDefinition) (answer : option Z * option Z) :
  NoDup (tbl_name <$> tables) →
  table_cfg ∈ tables →
  pk_column_def table_cfg = Some col →
  (∀ k, get_column_min_max k (tbl_name table_cfg) (col_name col)
        = Returns answer) →
  (refresh_tables get_column_min_max tables k md).1 = Returns tt →
  (refresh_tables get_column_min_max tables k md).2 !! tbl_name table_cfg
  = Some match answer with
         | (Some lo, Some hi) =>
             {| pk_column := col_name col; min_id := Some lo; max_id := Some hi |}
         | _ => {| pk_column := col_name col; min_id := None; max_id := None |}
         end.
Proof.
  revert k md. induction tables as [|head rest IH]; intros k md Hnd Hin Hpk Hans.
  { by apply elem_of_nil in Hin. }
  rewrite fmap_cons in Hnd. apply NoDup_cons in Hnd as [Hhead Hnd].
  apply elem_of_cons in Hin as [<-|Hin].
  - cbn [refresh_tables]. rewrite Hpk, Hans.
    destruct answer as [[lo|] [hi|]]; intros _;
      rewrite refresh_tables_other by done; by rewrite lookup_insert_eq.
  - cbn [refresh_tables].
    destruct (pk_column_def head) as [c|]; [|by apply IH].
    destruct (get_column_min_max k (tbl_name head) (col_name c))
      as [[[lo|] [hi|]]|e]; [| | | |done]; by apply IH.
Qed.

(** X24. From the refresh to the workload: for a table (of a unique name)
    with an identity primary key whose bounds the adapter reports as
    [lo <= hi], a range generator over the refreshed metadata yields an
    integer of [lo, hi], whichever column of the table it names. *)
Theorem refreshed_bounds_feed_the_range (w : World)
    (schema_config : SchemaConfig) (k : nat) (md : gmap string TableMeta)
    (table_cfg : TableSchema) (col : ColumnDefinition) (lo hi : Z)
    (cfg : QueryParamGeneratorConfig) (st : WorkloadExecutor.Executor) :
  NoDup (tbl_name <$> tables schema_config) →
  table_cfg ∈ tables schema_config →
  pk_column_def table_cfg = Some col →
  (∀ k, get_column_min_max k (tbl_name table_cfg) (col_name col)
        = Returns (Some lo, Some hi)) →
  lo <= hi →
  refresh_tables_metadata get_column_min_max schema_config k = (Returns tt, md) →
  type cfg = "random_int_from_column_range" →
  table cfg = Some (tbl_name table_cfg) → tbl_name table_cfg ≠ "" →
  truthy_str (column cfg) = true →
  ∃ n, (WorkloadExecutor._generate_query_param w md cfg st).1 = Returns (PyInt n)
       ∧ lo <= n <= hi.
Proof.
  intros Hnd Hin Hpk Hans Hle Hrefresh Htype Htbl Hne Hcol.
  pose proof (refresh_tables_lookup (tables schema_config) k ∅ table_cfg col
                (Some lo, Some hi) Hnd Hin Hpk Hans) as Hlook.
  unfold refresh_tables_metadata in Hrefresh. rewrite Hrefresh in Hlook.
  specialize (Hlook eq_refl). cbn [snd] in Hlook.
  rewrite (generate_range_eq w md cfg Htype).
  unfold WorkloadExecutor.random_int_from_column_range.
  rewrite Hcol, Htbl. cbn [truthy_str].
  destruct (String.eqb_spec (tbl_name table_cfg) "") as [?|_]; [done|].
  cbn [negb orb default from_option id]. rewrite Hlook. cbn [min_id max_id].
  destruct (random_randint_in_range w lo hi st Hle) as (d & _ & Hrun & Hbounds & _).
  exists (lo + Z.of_nat d). split; [|done].
  unfold try_except, mbind, StateExn_bind, bind.
  destruct (WorkloadExecutor.random_randint w lo hi st) as [r st'].
  cbn [fst] in Hrun. by rewrite Hrun.
Qed.

End Refresh.

(** ** The data generator *)

Section GeneratedRows.

Import SchemaModels DataGenerator.

Variable entropy : nat -> nat.
Variable faker_value : nat -> ColumnDefinition -> result PyValue.
Variable pool : bool.
Variable acquire : nat -> result unit.
Variable executemany : nat -> string -> list (list PyValue) -> result unit.
Variable tables_metadata : gmap string TableMeta.
Variable batch_size : Z.

Local Abbreviation column_value := (column_value entropy faker_value tables_metadata).
Local Abbreviation row_data_from := (row_data_from entropy faker_value tables_metadata).
Local Abbreviation _generate_row_data :=
  (_generate_row_data entropy faker_value tables_metadata).
Local Abbreviation batch_rows := (batch_rows entropy faker_value tables_metadata).
Local Abbreviation send_batch := (send_batch pool acquire executemany).
Local Abbreviation insert_batches :=
  (insert_batches entropy faker_value pool acquire executemany tables_metadata
     batch_size).
Local Abbreviation generate_data_for_table :=
  (generate_data_for_table entropy faker_value pool acquire executemany
     tables_metadata batch_size).

Lemma column_value_frames (col : ColumnDefinition) :
  frames executemany_calls (column_value col).
Proof.
  unfold DataGenerator.column_value, foreign_key_value, generated_value,
    random_randint, _randbelow.
  frames_auto.
Qed.

Lemma errors_snoc (records : list LogRecord) (record : LogRecord) :
  length (filter (fun r => is_bulk_error r = true) (records ++ [record])%list)
  = (length (filter (fun r => is_bulk_error r = true) records)
     + if is_bulk_error record then 1 else 0)%nat.
Proof.
  rewrite filter_app, length_app, filter_cons. f_equal.
  destruct (is_bulk_error record); by destruct (decide _).
Qed.

(** Generating rows logs no bulk-insert error. *)
Lemma logger_keeps_errors (level : LogLevel) (msg : string) (st : Generator) :
  is_bulk_error (level, msg) = false →
  bulk_insert_errors (logger level msg st).2 = bulk_insert_errors st.
Proof.
  intros Hother. unfold bulk_insert_errors, logger. cbn [snd logged].
  rewrite errors_snoc, Hother. lia.
Qed.

Lemma column_value_quiet (col : ColumnDefinition) :
  frames bulk_insert_errors (column_value col).
Proof.
  unfold DataGenerator.column_value, foreign_key_value, generated_value,
    random_randint, _randbelow.
  frames_auto; by apply logger_keeps_errors.
Qed.

Lemma row_data_from_quiet (columns : list ColumnDefinition)
    (row_data : list PyValue) :
  frames bulk_insert_errors (row_data_from columns row_data).
Proof.
  revert row_data. induction columns as [|col rest IH]; intros row_data;
    cbn [DataGenerator.row_data_from]; [apply frames_ret|].
  destruct (identity col); [apply IH|].
  apply frames_bind; [apply column_value_quiet|]. intros v. apply IH.
Qed.

Lemma batch_rows_quiet (table_cfg : TableSchema) (n : nat)
    (batch : list (list PyValue)) :
  frames bulk_insert_errors (batch_rows table_cfg n batch).
Proof.
  revert batch. induction n as [|n IH]; intros batch;
    cbn [DataGenerator.batch_rows]; [apply frames_ret|].
  apply frames_bind; [apply row_data_from_quiet|]. intros row. apply IH.
Qed.

Lemma column_value_returns (col : ColumnDefinition) :
  names_ref_table col = true → never_raises (column_value col).
Proof.
  intros Hfk st. unfold DataGenerator.column_value, names_ref_table in *.
  assert (∃ v, ((if truthy_str (generator col)
                 then generated_value faker_value col
                 else ret (null_or col (PyStr "DefaultValue"))) st).1
               = Returns v) as Hother.
  { destruct (truthy_str (generator col)); [|by eexists].
    unfold generated_value, next_event, mbind, StateExn_bind, bind. cbn.
    destruct (faker_value (events st) col); by eexists. }
  destruct (foreign_key col) as [fk_conf|]; [|exact Hother].
  destruct (decide (fk_conf = ∅)) as [|Hne]; [exact Hother|].
  rewrite bool_decide_eq_false_2 in Hfk by done. cbn in Hfk.
  apply bool_decide_eq_true in Hfk as [ref Href].
  unfold foreign_key_value. rewrite Href.
  destruct (tables_metadata !! ref) as [meta|]; [|by eexists].
  destruct (min_id meta) as [lo|], (max_id meta) as [hi|]; try by eexists.
  unfold try_except. destruct (Z.eqb_spec lo hi); [by eexists|].
  unfold random_randint, _randbelow, Random.randint, next_event, lift, mbind,
    StateExn_bind, bind, ret.
  destruct (hi - lo + 1 <=? 0); cbn; by eexists.
Qed.

Lemma row_data_from_spec (columns : list ColumnDefinition)
    (row_data : list PyValue) (st : Generator) :
  Forall (fun col => names_ref_table col = true) columns →
  ∃ row st',
    row_data_from columns row_data st = (Returns row, st')
    ∧ length row
      = (length row_data
         + length (filter (fun col => identity col = false) columns))%nat
    ∧ executemany_calls st' = executemany_calls st.
Proof.
  intros Hfk. revert row_data st.
  induction Hfk as [|col rest Hcol _ IH]; intros row_data st.
  { exists row_data, st. cbn. split; [done|]. split; [lia|done]. }
  cbn [DataGenerator.row_data_from].
  destruct (identity col) eqn:Hid.
  - destruct (IH row_data st) as (row & st' & Hrun & Hlen & Hcalls).
    exists row, st'. split; [done|]. split; [|done].
    rewrite filter_cons_False by (by rewrite Hid). done.
  - destruct (column_value_returns col Hcol st) as [v Hv].
    pose proof (column_value_frames col st) as Hframe.
    destruct (column_value col st) as [r st1] eqn:Hrun1. cbn in Hv, Hframe. subst r.
    rewrite (bind_returns _ _ _ _ _ Hrun1).
    destruct (IH (row_data ++ [v])%list st1) as (row & st' & Hrun & Hlen & Hcalls).
    exists row, st'. split; [done|]. split; [|congruence].
    rewrite filter_cons_True by done. rewrite Hlen, length_app. cbn. lia.
Qed.

(** X25. When every foreign key that is set names its table, a generated
    row is returned, holds one value for each column that is not an
    identity (as many as the INSERT statement has placeholders) and nothing
    is sent to the database meanwhile. *)
Theorem row_has_a_value_per_inserted_column (table_cfg : TableSchema)
    (st : Generator) :
  Forall (fun col => names_ref_table col = true) (columns table_cfg) →
  let run := _generate_row_data table_cfg st in
  ∃ row, run.1 = Returns row
    ∧ length row = length (inserted_columns table_cfg)
    ∧ length row = length (column_names_for_insert table_cfg)
    ∧ executemany_calls run.2 = executemany_calls st.
Proof.
  intros Hfk run. subst run. unfold DataGenerator._generate_row_data.
  destruct (row_data_from_spec (columns table_cfg) [] st Hfk)
    as (row & st' & -> & Hlen & Hcalls).
  exists row. unfold column_names_for_insert, inserted_columns.
  rewrite length_fmap. cbn in *. done.
Qed.

Lemma batch_rows_spec (table_cfg : TableSchema) (n : nat)
    (batch : list (list PyValue)) (st : Generator) :
  Forall (fun col => names_ref_table col = true) (columns table_cfg) →
  ∃ rows st',
    batch_rows table_cfg n batch st = (Returns (batch ++ rows)%list, st')
    ∧ length rows = n
    ∧ Forall (fun row => length row = length (inserted_columns table_cfg)) rows
    ∧ executemany_calls st' = executemany_calls st.
Proof.
  intros Hfk. revert batch st. induction n as [|n IH]; intros batch st.
  { exists [], st. rewrite app_nil_r. done. }
  cbn [DataGenerator.batch_rows]. unfold DataGenerator._generate_row_data.
  destruct (row_data_from_spec (columns table_cfg) [] st Hfk)
    as (row & st1 & Hrun & Hlen & Hcalls).
  rewrite (bind_returns _ _ _ _ _ Hrun).
  destruct (IH (batch ++ [row])%list st1) as (rows & st' & Hrun' & Hn & Hall & Hcalls').
  exists (row :: rows), st'. rewrite Hrun', <- app_assoc. cbn.
  split; [done|]. split; [lia|]. split; [|congruence].
  constructor; [|done]. unfold inserted_columns. cbn in Hlen. done.
Qed.

(** A batch sent over an open cursor to a database that accepts it. *)
Lemma send_batch_accepted (sql : string) (batch : list (list PyValue))
    (st : Generator) :
  pool = true → (∀ k, acquire k = Returns tt) →
  (∀ k sql batch, executemany k sql batch = Returns tt) →
  send_batch sql batch st
  = (Returns tt,
     {| events := S (events st);
        executemany_calls := executemany_calls st ++ [(sql, batch)];
        logged := logged st |}).
Proof.
  intros Hpool Hacquire Hok. unfold DataGenerator.send_batch. rewrite Hpool.
  unfold next_event, record_executemany, lift, mbind, StateExn_bind, bind.
  cbn [fst snd events]. rewrite Hacquire. cbn [fst snd events]. by rewrite Hok.
Qed.

Lemma accepted_attempt (sql : string) (batch : list (list PyValue))
    (st : Generator) (handler : exn -> option (M bool)) :
  pool = true → (∀ k, acquire k = Returns tt) →
  (∀ k sql batch, executemany k sql batch = Returns tt) →
  try_except (send_batch sql batch;; ret true) handler st
  = (Returns true,
     {| events := S (events st);
        executemany_calls := executemany_calls st ++ [(sql, batch)];
        logged := logged st |}).
Proof.
  intros Hpool Hacquire Hok. unfold try_except, mbind, StateExn_bind, bind.
  by rewrite (send_batch_accepted _ _ _ Hpool Hacquire Hok).
Qed.

(** The batches of a run in which every batch is sent and accepted. *)
Lemma insert_batches_all (table_cfg : TableSchema) (sql : string)
    (starts : list Z) (generated_count : Z) (st : Generator) :
  Forall (fun col => names_ref_table col = true) (columns table_cfg) →
  pool = true → (∀ k, acquire k = Returns tt) →
  (∀ k sql batch, executemany k sql batch = Returns tt) →
  Forall (fun i => 0 < Z.min batch_size (row_count table_cfg - i)) starts →
  ∃ batches st',
    insert_batches table_cfg sql starts generated_count st
    = (Returns (generated_count + Z.of_nat (length (concat batches))), st')
    ∧ executemany_calls st'
      = (executemany_calls st ++ ((fun batch => (sql, batch)) <$> batches))%list
    ∧ length <$> batches
      = (fun i => Z.to_nat (Z.min batch_size (row_count table_cfg - i))) <$> starts
    ∧ Forall (fun row => length row = length (inserted_columns table_cfg))
        (concat batches).
Proof.
  intros Hfk Hpool Hacquire Hok Hpos. revert generated_count st.
  induction Hpos as [|i rest Hi _ IH]; intros generated_count st.
  { exists [], st. cbn. rewrite Z.add_0_r, app_nil_r. done. }
  cbn [DataGenerator.insert_batches].
  destruct (batch_rows_spec table_cfg
              (Z.to_nat (Z.min batch_size (row_count table_cfg - i))) [] st Hfk)
    as (rows & st1 & Hrun & Hn & Hall & Hcalls).
  rewrite (bind_returns _ _ _ _ _ Hrun). cbn [app].
  destruct rows as [|row rows]; [cbn in Hn; lia|].
  rewrite (bind_returns _ _ _ _ _
             (accepted_attempt sql (row :: rows) st1 _ Hpool Hacquire Hok)).
  unfold logger, mbind, StateExn_bind, bind. cbn [fst snd].
  match goal with |- context [insert_batches _ _ _ ?c ?s] =>
    destruct (IH c s) as (batches & st' & Hrest & Hcalls' & Hlens & Hall') end.
  exists ((row :: rows) :: batches), st'. rewrite Hrest.
  split; [|split; [|split]].
  - f_equal. f_equal. cbn [concat]. rewrite length_app. lia.
  - rewrite Hcalls'. cbn [executemany_calls]. rewrite Hcalls, <- app_assoc. done.
  - rewrite !fmap_cons. by rewrite Hlens, Hn.
  - cbn [concat]. apply Forall_app. done.
Qed.

(** The batch sizes add up to the number of rows. *)
Lemma batch_sizes_sum (b : Z) (n : nat) (rows : Z) :
  0 < b → 0 <= rows →
  (Z.of_nat n - 1) * b < rows → rows <= Z.of_nat n * b →
  foldr Z.add 0 ((fun j => Z.min b (rows - Z.of_nat j * b)) <$> seq 0 n) = rows
  ∧ Forall (fun j => 0 < Z.min b (rows - Z.of_nat j * b)) (seq 0 n).
Proof.
  intros Hb. revert rows. induction n as [|n IH]; intros rows Hnn Hlo Hhi.
  { split; [cbn; lia|constructor]. }
  cbn [seq]. rewrite fmap_cons. cbn [foldr].
  rewrite <- (fmap_S_seq 0 n), <- list_fmap_compose.
  destruct n as [|n].
  { cbn. split; [lia|]. repeat constructor. lia. }
  destruct (IH (rows - b)) as [Hsum Hall]; [lia|lia|lia|].
  split.
  - erewrite list_fmap_ext; [rewrite Hsum; lia|].
    intros _ j _. cbn. f_equal. lia.
  - constructor; [nia|].
    rewrite Forall_fmap. eapply Forall_impl; [exact Hall|].
    intros j Hj. cbn. replace (rows - Z.of_nat (S j) * b) with (rows - b - Z.of_nat j * b) by lia.
    done.
Qed.

Lemma length_concat_sum {A} (ls : list (list A)) :
  Z.of_nat (length (concat ls))
  = foldr Z.add 0 ((fun n => Z.of_nat n) <$> (length <$> ls)).
Proof.
  induction ls as [|l ls IH]; [done|]. cbn. rewrite length_app. lia.
Qed.

(** X26. With a positive batch size and a positive row count, foreign keys
    that name their table, a connection that opens every time and a
    database that accepts every batch,
    [generate_data_for_table] returns after sending the rows in
    ceil(row_count / batch_size) batches under the one INSERT statement:
    none is empty or larger than the batch size, together they hold exactly
    [row_count] rows, and every row has one value per inserted column. *)
Theorem batches_cover_the_row_count (table_cfg : TableSchema) (st : Generator) :
  0 < batch_size → 0 < row_count table_cfg →
  inserted_columns table_cfg ≠ [] →
  Forall (fun col => names_ref_table col = true) (columns table_cfg) →
  pool = true → (∀ k, acquire k = Returns tt) →
  (∀ k sql batch, executemany k sql batch = Returns tt) →
  let run := generate_data_for_table table_cfg st in
  run.1 = Returns tt
  ∧ ∃ batches,
      executemany_calls run.2
      = (executemany_calls st
         ++ ((fun batch => (insert_sql table_cfg "dbo", batch)) <$> batches))%list
      ∧ Z.of_nat (length (concat batches)) = row_count table_cfg
      ∧ Z.of_nat (length batches)
        = (row_count table_cfg + batch_size - 1) / batch_size
      ∧ Forall (fun batch => 0 < Z.of_nat (length batch) <= batch_size) batches
      ∧ Forall (fun row => length row = length (inserted_columns table_cfg))
          (concat batches).
Proof.
  intros Hb Hrows Hcols Hfk Hpool Hacquire Hok run. subst run.
  destruct (generate_data_for_table table_cfg st) as [r final] eqn:Hgen.
  unfold DataGenerator.generate_data_for_table in Hgen.
  destruct (Z.eqb_spec (row_count table_cfg) 0) as [?|_]; [lia|].
  destruct (column_names_for_insert table_cfg) as [|c cs] eqn:Hnames.
  { unfold column_names_for_insert in Hnames.
    apply fmap_nil_inv in Hnames. by destruct Hcols. }
  unfold range in Hgen. destruct (Z.eqb_spec batch_size 0) as [?|_]; [lia|].
  destruct (Z.ltb_spec 0 batch_size) as [_|?]; [|lia].
  set (s0 := {| events := events st; executemany_calls := executemany_calls st;
                logged := logged st ++ [(INFO, "Starting data generation")] |}).
  rewrite (bind_returns (logger INFO "Starting data generation") _ st s0 tt
             eq_refl) in Hgen.
  rewrite (bind_returns (lift (Returns _)) _ s0 s0 _ eq_refl) in Hgen.
  set (n := Z.to_nat ((row_count table_cfg - 0 + batch_size - 1) / batch_size))
    in Hgen.
  assert (0 <= (row_count table_cfg - 0 + batch_size - 1) / batch_size) as Hn0
    by (apply Z.div_pos; lia).
  assert ((Z.of_nat n - 1) * batch_size < row_count table_cfg
          ∧ row_count table_cfg <= Z.of_nat n * batch_size) as [Hlo Hhi].
  { subst n. rewrite Z2Nat.id by done.
    pose proof (Z.div_mod (row_count table_cfg - 0 + batch_size - 1) batch_size).
    pose proof (Z.mod_pos_bound (row_count table_cfg - 0 + batch_size - 1) batch_size).
    nia. }
  destruct (batch_sizes_sum batch_size n (row_count table_cfg) Hb
              ltac:(lia) Hlo Hhi) as [Hsum Hall].
  match type of Hgen with context [insert_batches _ ?sql ?starts 0] =>
    destruct (insert_batches_all table_cfg sql starts 0 s0 Hfk Hpool Hacquire Hok)
      as (batches & st' & Hrun & Hcalls & Hlens & Hrowlen) end.
  { rewrite Forall_fmap. eapply Forall_impl; [exact Hall|].
    intros j Hj. cbn. by replace (0 + Z.of_nat j * batch_size)
      with (Z.of_nat j * batch_size) by lia. }
  rewrite (bind_returns _ _ _ _ _ Hrun) in Hgen.
  unfold logger in Hgen. injection Hgen as <- <-.
  split; [done|]. exists batches.
  rewrite <- list_fmap_compose in Hlens.
  split; [|split; [|split; [|split]]].
  - cbn. rewrite Hcalls. cbn. done.
  - rewrite length_concat_sum, Hlens, <- list_fmap_compose, <- Hsum. f_equal.
    apply list_fmap_ext. intros i j Hj. cbn.
    apply (list_elem_of_lookup_2 (seq 0 n)) in Hj.
    rewrite Forall_forall in Hall. specialize (Hall j Hj).
    rewrite Z2Nat.id by lia. f_equal. lia.
  - apply (f_equal length) in Hlens. rewrite !length_fmap, length_seq in Hlens.
    rewrite Hlens. subst n. rewrite Z2Nat.id by done. f_equal. lia.
  - apply Forall_forall. intros batch Hbatch.
    apply (list_elem_of_fmap_2 length) in Hbatch. rewrite Hlens in Hbatch.
    apply list_elem_of_fmap in Hbatch as (j & -> & Hj).
    rewrite Forall_forall in Hall. specialize (Hall j Hj).
    cbn. lia.
  - done.
Qed.

(** Sending a batch that does not get through: whether [executemany] was
    reached, the attempt is logged once as a bulk-insert error. *)
Lemma failed_attempt (sql : string) (batch : list (list PyValue))
    (st : Generator) :
  pool = false ∨ (∀ k, ∃ e, acquire k = Raises e)
  ∨ (∀ k sql batch, ∃ e, executemany k sql batch = Raises e) →
  let attempt :=
    try_except (send_batch sql batch;; ret true)
      (fun e => Some (logger ERROR "Error bulk inserting";;
                      logger ERROR "Problematic SQL";;
                      logger ERROR "Sample data";;
                      ret false)) st in
  attempt.1 = Returns false
  ∧ bulk_insert_errors attempt.2 = S (bulk_insert_errors st)
  ∧ executemany_calls attempt.2
    = (executemany_calls st
       ++ match pool, acquire (events st) with
          | true, Returns _ => [(sql, batch)]
          | _, _ => []
          end)%list.
Proof.
  intros Hfails. cbv zeta.
  assert (∀ s : Generator,
            bulk_insert_errors
              {| events := events s; executemany_calls := executemany_calls s;
                 logged := ((logged s ++ [(ERROR, "Error bulk inserting")])
                            ++ [(ERROR, "Problematic SQL")])
                           ++ [(ERROR, "Sample data")] |}
            = S (bulk_insert_errors s)) as Hcount.
  { intros s. unfold bulk_insert_errors. cbn [logged].
    rewrite !errors_snoc. cbn. lia. }
  unfold try_except, DataGenerator.send_batch.
  destruct pool.
  2: { unfold raise, logger, mbind, StateExn_bind, bind, ret. cbn [fst snd].
       split; [done|]. split; [apply Hcount|]. cbn. by rewrite app_nil_r. }
  unfold next_event, record_executemany, lift, logger, mbind, StateExn_bind,
    bind, ret.
  cbn [fst snd events].
  destruct (acquire (events st)) as [[]|e] eqn:Hacquire; cbn [fst snd events].
  - destruct Hfails as [?|[Hacq|Hexec]]; [done| |].
    { destruct (Hacq (events st)) as [e He]. congruence. }
    destruct (Hexec (events st) sql batch) as [e ->]. cbn [fst snd].
    split; [done|]. split; [|done].
    match goal with |- bulk_insert_errors ?s' = _ =>
      change (bulk_insert_errors s')
        with (bulk_insert_errors
                {| events := S (events st);
                   executemany_calls := executemany_calls st ++ [(sql, batch)];
                   logged := ((logged st ++ [(ERROR, "Error bulk inserting")])
                              ++ [(ERROR, "Problematic SQL")])
                             ++ [(ERROR, "Sample data")] |}) end.
    unfold bulk_insert_errors. cbn [logged].
    rewrite !errors_snoc. cbn. lia.
  - split; [done|]. split; [|cbn; by rewrite app_nil_r].
    unfold bulk_insert_errors. cbn [logged].
    rewrite !errors_snoc. cbn. lia.
Qed.

Lemma insert_batches_refused (table_cfg : TableSchema) (sql : string)
    (i : Z) (rest : list Z) (generated_count : Z) (st : Generator) :
  Forall (fun col => names_ref_table col = true) (columns table_cfg) →
  pool = false ∨ (∀ k, ∃ e, acquire k = Raises e)
  ∨ (∀ k sql batch, ∃ e, executemany k sql batch = Raises e) →
  0 < Z.min batch_size (row_count table_cfg - i) →
  ∃ batch st1 st',
    insert_batches table_cfg sql (i :: rest) generated_count st
    = (Returns generated_count, st')
    ∧ length batch = Z.to_nat (Z.min batch_size (row_count table_cfg - i))
    ∧ bulk_insert_errors st' = S (bulk_insert_errors st)
    ∧ executemany_calls st'
      = (executemany_calls st
         ++ match pool, acquire (events st1) with
            | true, Returns _ => [(sql, batch)]
            | _, _ => []
            end)%list.
Proof.
  intros Hfk Hfails Hi. cbn [DataGenerator.insert_batches].
  destruct (batch_rows_spec table_cfg
              (Z.to_nat (Z.min batch_size (row_count table_cfg - i))) [] st Hfk)
    as (rows & st1 & Hrun & Hn & _ & Hcalls).
  pose proof (batch_rows_quiet table_cfg
                (Z.to_nat (Z.min batch_size (row_count table_cfg - i))) [] st)
    as Hquiet.
  rewrite Hrun in Hquiet. cbn [snd] in Hquiet.
  rewrite (bind_returns _ _ _ _ _ Hrun). cbn [app].
  destruct rows as [|row rows]; [cbn in Hn; lia|].
  destruct (failed_attempt sql (row :: rows) st1 Hfails)
    as (Hsent & Herrors & Hsentcalls).
  match goal with |- context [(try_except ?m ?h ≫= _) st1] =>
    destruct (try_except m h st1) as [r st2] eqn:Hattempt end.
  cbn [fst snd] in Hsent, Herrors, Hsentcalls. subst r.
  rewrite (bind_returns _ _ _ _ _ Hattempt).
  exists (row :: rows), st1, st2. split; [done|]. split; [done|].
  split; [congruence|]. by rewrite Hsentcalls, Hcalls.
Qed.

(** X27. When no batch gets through, [generate_data_for_table] generates
    the first batch, of min(batch_size, row_count) rows, logs one
    bulk-insert error, gives the table up and returns normally.  What the
    database saw depends on where the attempt failed: with the pool unset,
    or a connection that cannot be opened, [executemany] is never called;
    with an open cursor and a database that refuses the batch, it is called
    once, with that first batch. *)
Theorem refused_batch_ends_the_table (table_cfg : TableSchema) (st : Generator) :
  0 < batch_size → 0 < row_count table_cfg →
  inserted_columns table_cfg ≠ [] →
  Forall (fun col => names_ref_table col = true) (columns table_cfg) →
  let run := generate_data_for_table table_cfg st in
  (pool = false ∨ (∀ k, ∃ e, acquire k = Raises e) →
   run.1 = Returns tt
   ∧ bulk_insert_errors run.2 = S (bulk_insert_errors st)
   ∧ executemany_calls run.2 = executemany_calls st)
  ∧ (pool = true → (∀ k, acquire k = Returns tt) →
     (∀ k sql batch, ∃ e, executemany k sql batch = Raises e) →
     run.1 = Returns tt
     ∧ bulk_insert_errors run.2 = S (bulk_insert_errors st)
     ∧ ∃ batch,
         executemany_calls run.2
         = (executemany_calls st ++ [(insert_sql table_cfg "dbo", batch)])%list
         ∧ Z.of_nat (length batch) = Z.min batch_size (row_count table_cfg)).
Proof.
  intros Hb Hrows Hcols Hfk run. subst run.
  assert (∀ Hfails : pool = false ∨ (∀ k, ∃ e, acquire k = Raises e)
                     ∨ (∀ k sql batch, ∃ e, executemany k sql batch = Raises e),
            ∃ batch st1,
              (generate_data_for_table table_cfg st).1 = Returns tt
              ∧ bulk_insert_errors (generate_data_for_table table_cfg st).2
                = S (bulk_insert_errors st)
              ∧ Z.of_nat (length batch) = Z.min batch_size (row_count table_cfg)
              ∧ executemany_calls (generate_data_for_table table_cfg st).2
                = (executemany_calls st
                   ++ match pool, acquire (events st1) with
                      | true, Returns _ => [(insert_sql table_cfg "dbo", batch)]
                      | _, _ => []
                      end)%list) as Hgiven_up.
  { intros Hfails.
    destruct (generate_data_for_table table_cfg st) as [r final] eqn:Hgen.
    unfold DataGenerator.generate_data_for_table in Hgen.
    destruct (Z.eqb_spec (row_count table_cfg) 0) as [?|_]; [lia|].
    destruct (column_names_for_insert table_cfg) as [|c cs] eqn:Hnames.
    { unfold column_names_for_insert in Hnames.
      apply fmap_nil_inv in Hnames. by destruct Hcols. }
    unfold range in Hgen. destruct (Z.eqb_spec batch_size 0) as [?|_]; [lia|].
    destruct (Z.ltb_spec 0 batch_size) as [_|?]; [|lia].
    set (s0 := {| events := events st; executemany_calls := executemany_calls st;
                  logged := logged st ++ [(INFO, "Starting data generation")] |}).
    rewrite (bind_returns (logger INFO "Starting data generation") _ st s0 tt
               eq_refl) in Hgen.
    rewrite (bind_returns (lift (Returns _)) _ s0 s0 _ eq_refl) in Hgen.
    assert (0 < (row_count table_cfg - 0 + batch_size - 1) / batch_size) as Hn.
    { apply Z.div_str_pos. lia. }
    destruct (Z.to_nat ((row_count table_cfg - 0 + batch_size - 1) / batch_size))
      as [|n] eqn:Hcount; [lia|].
    cbn [seq fmap list_fmap] in Hgen.
    destruct (insert_batches_refused table_cfg (insert_sql table_cfg "dbo")
                (0 + Z.of_nat 0 * batch_size)
                ((fun j => 0 + Z.of_nat j * batch_size) <$> seq 1 n) 0 s0 Hfk
                Hfails)
      as (batch & st1 & st' & Hrun & Hlen & Herrors & Hcalls); [lia|].
    rewrite (bind_returns _ _ _ _ _ Hrun) in Hgen.
    injection Hgen as <- <-.
    exists batch, st1. split; [done|]. split.
    { assert (bulk_insert_errors s0 = bulk_insert_errors st) as Hs0
        by (by apply (logger_keeps_errors INFO "Starting data generation" st)).
      unfold bulk_insert_errors in *. cbn [snd logger logged].
      rewrite errors_snoc. cbn [is_bulk_error]. lia. }
    split; [rewrite Hlen; lia|]. cbn. by rewrite Hcalls. }
  split.
  - intros Hunreached.
    destruct (Hgiven_up ltac:(tauto)) as (batch & st1 & Hr & He & _ & Hcalls).
    split; [done|]. split; [done|]. rewrite Hcalls.
    destruct Hunreached as [->|Hacq]; [by rewrite app_nil_r|].
    destruct (Hacq (events st1)) as [e ->]. destruct pool; by rewrite app_nil_r.
  - intros Hpool Hacquire Hrefused.
    destruct (Hgiven_up ltac:(tauto)) as (batch & st1 & Hr & He & Hlen & Hcalls).
    split; [done|]. split; [done|]. exists batch. split; [|done].
    by rewrite Hcalls, Hpool, Hacquire.
Qed.

Lemma insert_batches_none (table_cfg : TableSchema) (sql : string)
    (starts : list Z) (generated_count : Z) (st : Generator) :
  Forall (fun i => Z.min batch_size (row_count table_cfg - i) <= 0) starts →
  insert_batches table_cfg sql starts generated_count st
  = (Returns generated_count, st).
Proof.
  intros Hnone. induction Hnone as [|i rest Hi _ IH]; [done|].
  cbn [DataGenerator.insert_batches].
  replace (Z.to_nat (Z.min batch_size (row_count table_cfg - i))) with 0%nat by lia.
  cbn [DataGenerator.batch_rows]. unfold mbind at 1. unfold StateExn_bind, bind.
  cbn. exact IH.
Qed.

(** X28. A row count that is not positive, or a negative batch size, sends
    nothing: unless the batch size is zero while the row count is not, the
    call returns without a single [executemany]. *)
Theorem nothing_to_insert (table_cfg : TableSchema) (st : Generator) :
  row_count table_cfg <= 0 ∨ batch_size < 0 →
  row_count table_cfg = 0 ∨ batch_size ≠ 0 →
  let run := generate_data_for_table table_cfg st in
  run.1 = Returns tt ∧ executemany_calls run.2 = executemany_calls st.
Proof.
  intros Hdegenerate Hstep run. subst run.
  destruct (generate_data_for_table table_cfg st) as [r final] eqn:Hgen.
  unfold DataGenerator.generate_data_for_table in Hgen.
  destruct (Z.eqb_spec (row_count table_cfg) 0) as [?|Hne].
  { unfold logger in Hgen. by injection Hgen as <- <-. }
  set (s0 := {| events := events st; executemany_calls := executemany_calls st;
                logged := logged st ++ [(INFO, "Starting data generation")] |}).
  rewrite (bind_returns (logger INFO "Starting data generation") _ st s0 tt
             eq_refl) in Hgen.
  destruct (column_names_for_insert table_cfg) as [|c cs].
  { unfold logger in Hgen. by injection Hgen as <- <-. }
  unfold range in Hgen. destruct (Z.eqb_spec batch_size 0) as [?|_]; [lia|].
  rewrite (bind_returns (lift (Returns _)) _ s0 s0 _ eq_refl) in Hgen.
  match type of Hgen with context [insert_batches _ ?sql ?starts 0] =>
    assert (Forall (fun i => Z.min batch_size (row_count table_cfg - i) <= 0)
              starts) as Hnone
  end.
  { rewrite Forall_fmap. apply Forall_forall. intros j Hj. cbn.
    apply elem_of_seq in Hj as [_ Hj].
    destruct (Z.ltb_spec 0 batch_size) as [Hpos|Hneg]; [|lia].
    assert (row_count table_cfg <= 0) by lia.
    assert ((row_count table_cfg - 0 + batch_size - 1) / batch_size <= 0).
    { apply Z.lt_succ_r. apply Z.div_lt_upper_bound; lia. }
    lia. }
  rewrite (bind_returns _ _ _ _ _
             (insert_batches_none table_cfg _ _ 0 s0 Hnone)) in Hgen.
  unfold logger in Hgen. by injection Hgen as <- <-.
Qed.

(** X29. A batch size of zero with rows to insert is not caught: the call
    raises [ValueError] before any row is generated or sent. *)
Theorem zero_batch_size_raises (table_cfg : TableSchema) (st : Generator) :
  batch_size = 0 → row_count table_cfg ≠ 0 →
  inserted_columns table_cfg ≠ [] →
  let run := generate_data_for_table table_cfg st in
  (∃ msg, run.1 = Raises (ValueError msg))
  ∧ executemany_calls run.2 = executemany_calls st
  ∧ events run.2 = events st.
Proof.
  intros Hb Hrows Hcols run. subst run.
  destruct (generate_data_for_table table_cfg st) as [r final] eqn:Hgen.
  unfold DataGenerator.generate_data_for_table in Hgen.
  destruct (Z.eqb_spec (row_count table_cfg) 0) as [?|_]; [done|].
  set (s0 := {| events := events st; executemany_calls := executemany_calls st;
                logged := logged st ++ [(INFO, "Starting data generation")] |}).
  rewrite (bind_returns (logger INFO "Starting data generation") _ st s0 tt
             eq_refl) in Hgen.
  destruct (column_names_for_insert table_cfg) as [|c cs] eqn:Hnames.
  { unfold column_names_for_insert in Hnames.
    apply fmap_nil_inv in Hnames. by destruct Hcols. }
  unfold range in Hgen. rewrite Hb in Hgen. cbn in Hgen.
  injection Hgen as <- <-. split; [by eexists|done].
Qed.

End GeneratedRows.


(** * The properties at concrete inputs *)

Section Instances.

Import Examples.

(** In the workload [oltp], with weights 3 and 1, [by_id], listed once,
    is selected with probability 3/4. *)
Lemma C1_witness :
  (Random.probability (WorkloadExecutor.weighted_queries oltp) by_id
   == inject_Z (weight by_id) / inject_Z (total_weight oltp))%Q.
Proof.
  refine (proj2 (proj2 (proj2 (C1_weighted_pool_probability oltp by_id _))) _).
  - intros q' Hq'. cbn in Hq'.
    apply elem_of_cons in Hq' as [->|Hq']; [cbn; lia|].
    apply list_elem_of_singleton in Hq' as ->. cbn. lia.
  - vm_compute. reflexivity.
Defined.

(** In the workload [listed_twice] every weight is at least 1 and the
    weights sum to 5; [count_orders], of weight 1, is listed twice and is
    selected with probability 2/5, not 1/5. *)
Lemma C1_counterexample :
  (∀ q', q' ∈ queries listed_twice → 1 <= weight q')
  ∧ weight count_orders = 1 ∧ total_weight listed_twice = 5
  ∧ (Random.probability (WorkloadExecutor.weighted_queries listed_twice)
       count_orders == 2 / 5)%Q
  ∧ ¬ (Random.probability (WorkloadExecutor.weighted_queries listed_twice)
         count_orders
       == inject_Z (weight count_orders) / inject_Z (total_weight listed_twice))%Q.
Proof.
  split.
  { intros q' Hq'. cbn in Hq'.
    repeat (apply elem_of_cons in Hq' as [->|Hq']; [cbn; lia|]).
    by apply elem_of_nil in Hq'. }
  split; [reflexivity|]. split; [reflexivity|].
  split; [vm_compute; reflexivity|].
  vm_compute. intros H. discriminate H.
Qed.

(** [count_orders] executed against the answering database: the two rows it
    returns give one metric with row count 2 and [success] true. *)
Lemma C2_witness :
  ∃ metric st',
    WorkloadExecutor._execute_single_query_instance answering orders_42
      "counting" count_orders fresh_executor = (Returns tt, st')
    ∧ WorkloadExecutor.query_log st'
      = (WorkloadExecutor.query_log fresh_executor ++ [metric])%list
    ∧ (0 <= duration_ms metric)%Q
    ∧ (success metric = true ↔ Rows order_rows ≠ NoResult)
    ∧ rows_affected_or_fetched metric = Some (Z.of_nat (length order_rows))
    ∧ parameters metric = []
    ∧ query_name metric = name count_orders
    ∧ workload_name metric = "counting".
Proof.
  apply (C2_one_metric_per_execution answering orders_42 "counting" count_orders
           fresh_executor fresh_executor [] (Rows order_rows)).
  - intros i j Hij. cbn. rewrite <- Zle_Qle. lia.
  - reflexivity.
  - reflexivity.
Defined.

(** One metric of frequency 10 sampled every second for 25 passes: the
    query is dispatched on passes 0, 10 and 20. *)
Lemma C3_witness :
  ResourceMonitor.dispatched
    (ResourceMonitor.sampling_loop answering every_second 25 idle_monitor).2
  = (ResourceMonitor.dispatched idle_monitor
     ++ ((fun j => (metric_cfg_name wait_stats, query wait_stats,
                    time_time answering
                      (time_read every_second (ResourceMonitor.events idle_monitor) j)))
         <$> filter (fun j => (j `mod` 10 = 0)%nat) (seq 0 25)))%list.
Proof.
  apply (proj2 (proj2 (C3_dispatch_cadence answering every_second))
           wait_stats 1700000000%Q 25%nat idle_monitor).
  - reflexivity.
  - reflexivity.
  - reflexivity.
  - unfold inject_Z, Qle. cbn. lia.
  - intros j. unfold time_read, os_events. cbn [os_metrics every_second].
    cbn [ResourceMonitor.events idle_monitor time_time answering
         monitoring_interval_seconds].
    replace ((0 + (0 + 2) * j + 0) / 2)%nat with j
      by (replace (0 + (0 + 2) * j + 0)%nat with (j * 2)%nat by lia;
          by rewrite Nat.div_mul).
    by rewrite Z.mul_1_r.
  - reflexivity.
  - vm_compute. reflexivity.
Defined.

(** Metadata with both bounds 42: a range generator naming its table and
    its column yields 42. *)
Lemma C4_witness :
  (WorkloadExecutor._generate_query_param answering orders_42 range_orders
     fresh_executor).1 = Returns (PyInt 42).
Proof.
  pose proof (C4_range_from_table answering orders_42 range_orders fresh_executor
                eq_refl) as (_ & _ & H).
  destruct (H eq_refl eq_refl "Orders" eq_refl) as [Hbounds _].
  destruct (Hbounds {| pk_column := "OrderID"; min_id := Some 42; max_id := Some 42 |}
              42 42) as [Heq _].
  - vm_compute. reflexivity.
  - reflexivity.
  - reflexivity.
  - exact (Heq eq_refl).
Defined.

(** The same metadata, a range generator that names the table and no
    column: the result is the fallback 1, not the constant 42. *)
Lemma C4_counterexample :
  type range_orders_no_column = "random_int_from_column_range"
  ∧ table range_orders_no_column = Some "Orders"
  ∧ orders_42 !! "Orders"
    = Some {| pk_column := "OrderID"; min_id := Some 42; max_id := Some 42 |}
  ∧ (WorkloadExecutor._generate_query_param answering orders_42
       range_orders_no_column fresh_executor).1 = Returns (PyInt 1)
  ∧ (WorkloadExecutor._generate_query_param answering orders_42
       range_orders_no_column fresh_executor).1 ≠ Returns (PyInt 42).
Proof.
  split; [reflexivity|]. split; [reflexivity|].
  split; [vm_compute; reflexivity|].
  split; [vm_compute; reflexivity|].
  vm_compute. intros H. discriminate H.
Qed.

(** A task of [oltp] running on its own against the answering database
    issues no fetch twice, and the first resolution of [sample_customers]
    fetches once and stores the three values fetched. *)
Lemma C5_witness :
  NoDup (WorkloadExecutor.fetch_calls
           (WorkloadExecutor._run_workload_task answering orders_42 3 oltp
              fresh_executor).2)
  ∧ ∃ fetched,
      get_column_sample answering (WorkloadExecutor.events fresh_executor)
        "Orders" "CustomerID" 100 = Returns fetched
      ∧ WorkloadExecutor.fetch_calls
          (WorkloadExecutor._generate_query_param answering orders_42
             sample_customers fresh_executor).2
        = (WorkloadExecutor.fetch_calls fresh_executor
           ++ [("Orders", "CustomerID", 100)])%list.
Proof.
  assert (Hreturns : ∀ k tbl col size,
            ∃ l, get_column_sample answering k tbl col size = Returns l)
    by (intros; eexists; reflexivity).
  destruct (C5_one_fetch_per_key_in_turn answering orders_42 Hreturns)
    as [Hone Htask].
  split.
  - apply Htask. reflexivity.
  - destruct (Hone sample_customers fresh_executor "Orders" "CustomerID"
                eq_refl eq_refl eq_refl eq_refl eq_refl) as [Hmiss _].
    destruct Hmiss as (fetched & Hf & Hcalls & _).
    + vm_compute. reflexivity.
    + exists fetched. split; [exact Hf|exact Hcalls].
Defined.

(** Two tasks resolving [sample_customers] at the same time both miss the
    cache and both fetch; and with an adapter that raises, the cache is
    never populated and every resolution fetches again. *)
Lemma C5_counterexample :
  WorkloadExecutor.fetch_calls
    (WorkloadExecutor.two_tasks_interleaved answering sample_customers
       sample_customers fresh_executor).2
  = [("Orders", "CustomerID", 100); ("Orders", "CustomerID", 100)]
  ∧ WorkloadExecutor.fetch_calls
      (WorkloadExecutor._generate_query_param disconnected orders_42 sample_customers
         (WorkloadExecutor._generate_query_param disconnected orders_42
            sample_customers fresh_executor).2).2
    = [("Orders", "CustomerID", 100); ("Orders", "CustomerID", 100)].
Proof. split; vm_compute; reflexivity. Qed.

(** Against the disconnected database the execution of [count_orders]
    raises; the iteration logs it and the loop goes on.  A run of [oltp]
    (two tasks) and [counting] (one) whose second task fails returns, with
    the failure held between the results of the other two. *)
Lemma C6_witness :
  (let st_exc :=
     (WorkloadExecutor._execute_single_query_instance disconnected orders_42
        (wl_name counting) count_orders (later 3 fresh_executor)).2 in
   WorkloadExecutor.workload_loop disconnected orders_42 1 counting [count_orders]
     1700000000%Q fresh_executor
   = WorkloadExecutor.workload_loop disconnected orders_42 0 counting [count_orders]
       1700000000%Q
       (later 2
          {| WorkloadExecutor._param_cache := WorkloadExecutor._param_cache st_exc;
             WorkloadExecutor.events := WorkloadExecutor.events st_exc;
             WorkloadExecutor.fetch_calls := WorkloadExecutor.fetch_calls st_exc;
             WorkloadExecutor.query_calls := WorkloadExecutor.query_calls st_exc;
             WorkloadExecutor.query_log := WorkloadExecutor.query_log st_exc;
             WorkloadExecutor.logged :=
               WorkloadExecutor.logged st_exc
               ++ [(ERROR, ("Exception in workload task " ++ wl_name counting
                            ++ " for query " ++ name count_orders)%string)] |}))
  ∧ (let run := WorkloadExecutor.run_all_workloads answering [oltp; counting]
                  second_fails 60 idle_loop in
     run.1 = Returns tt
     ∧ WorkloadExecutor.tasks run.2 = [oltp; oltp; counting]
     ∧ WorkloadExecutor.global_stop_event run.2 = true
     ∧ ∃ results,
         WorkloadExecutor.gathered run.2 = Some results
         ∧ results !! 1%nat = Some (inr (OSError "logging failed"))
         ∧ results !! 2%nat = Some (inl WorkloadExecutor.Finished)).
Proof.
  split.
  - intros st_exc.
    apply (proj1 (C6_failures_are_contained disconnected orders_42) 0%nat counting
             [count_orders] 1700000000%Q fresh_executor st_exc count_orders
             (ConnectionError "Database connection pool is not initialized.")).
    + reflexivity.
    + vm_compute. reflexivity.
    + reflexivity.
    + vm_compute. reflexivity.
  - intros run.
    destruct (proj2 (proj2 (C6_failures_are_contained answering orders_42))
                [oltp; counting] second_fails 60 idle_loop) as [Hreturns Hrun].
    destruct Hrun as (Htasks & Hstop & results & Hgathered & _ & Hheld & _).
    { vm_compute. discriminate. }
    fold run in Hreturns, Htasks, Hstop, Hgathered, Hheld.
    split; [exact Hreturns|]. split; [exact Htasks|]. split; [exact Hstop|].
    exists results. split; [exact Hgathered|]. split.
    + apply (proj1 (Hheld 1%nat oltp ltac:(by rewrite Htasks)) _ eq_refl).
    + apply (proj2 (Hheld 2%nat counting ltac:(by rewrite Htasks)) _ eq_refl).
Defined.

(** The two example lines, read with parsers that act as [json.loads] and
    [datetime.fromisoformat] do on them. *)
Lemma C7_witness :
  MetricsCollector.get_collected_dbms_metrics loads_two_lines fromisoformat_2024
    (Returns [bad_stamp_line; good_line]) (Some "wait_stats")
  = ([], [(ERROR, "Error reading DBMS metrics")])
  ∧ MetricsCollector.get_collected_dbms_metrics loads_two_lines fromisoformat_2024
      (Returns [good_line]) (Some "wait_stats")
    = ([{| MetricsCollector.rb_metric_name := MetricsCollector.JStr "wait_stats";
           MetricsCollector.rb_timestamp := 1704067200%Q;
           MetricsCollector.rb_data :=
             MetricsCollector.JObj [("n", MetricsCollector.JNum 1)] |}], []).
Proof.
  apply (C7_malformed_timestamp_ends_the_read loads_two_lines fromisoformat_2024
           bad_stamp_line good_line "Invalid isoformat string" 1704067200%Q).
  - vm_compute. reflexivity.
  - vm_compute. reflexivity.
  - vm_compute. reflexivity.
  - vm_compute. reflexivity.
Defined.

(** The two rows the answering database returns give two records. *)
Lemma C8_witness :
  let run := ResourceMonitor._collect_one_dbms_metric answering
               (metric_cfg_name wait_stats) (query wait_stats) idle_monitor in
  run.1 = Returns tt
  ∧ ResourceMonitor.dbms_log run.2
    = (ResourceMonitor.dbms_log idle_monitor
       ++ imap (fun i row =>
                  {| metric_name := metric_cfg_name wait_stats;
                     dm_timestamp :=
                       datetime_now answering
                         (S (ResourceMonitor.events idle_monitor) + i);
                     data := row |}) order_rows)%list
  ∧ length (ResourceMonitor.dbms_log run.2)
    = (length (ResourceMonitor.dbms_log idle_monitor) + length order_rows)%nat.
Proof.
  apply (C8_one_record_per_row answering (metric_cfg_name wait_stats)
           (query wait_stats) order_rows idle_monitor).
  reflexivity.
Defined.

(** With a clock that advances between two readings, the two records of
    one dispatch carry different timestamps. *)
Lemma C8_counterexample :
  ∃ first second,
    execute_query answering (ResourceMonitor.events idle_monitor)
      (query wait_stats) [] = Returns (Rows order_rows)
    ∧ ResourceMonitor.dbms_log
        (ResourceMonitor._collect_one_dbms_metric answering
           (metric_cfg_name wait_stats) (query wait_stats) idle_monitor).2
      = [first; second]
    ∧ ¬ (dm_timestamp first == dm_timestamp second)%Q.
Proof.
  eexists _, _. split; [reflexivity|]. split; [vm_compute; reflexivity|].
  cbn. intros H. vm_compute in H. discriminate H.
Qed.

(** Stopping the running monitor when its loop returns after 2 seconds,
    then starting it again. *)
Lemma C9_witness :
  (phase ((ResourceMonitor.logger INFO "Stopping resource monitoring...";;
           ResourceMonitor.set_stop_event) running_monitor).2 = Stopping
   ∧ ∃ waited st',
       ResourceMonitor.stop_monitoring (Some 2%Q) running_monitor
       = (Returns waited, st')
       ∧ (waited <= 10)%Q
       ∧ ResourceMonitor._stop_event st' = true
       ∧ ResourceMonitor._monitor_thread st' = None
       ∧ phase st' = Idle
       ∧ (∀ thread,
            ResourceMonitor._monitor_thread running_monitor = Some thread →
            thread ∈ ResourceMonitor.alive st' →
            (WARNING, "Monitoring thread did not stop in time.")
            ∈ ResourceMonitor.logged st')
       ∧ (∀ delay, Some 2%Q = Some delay → (delay <= 10)%Q →
            ∀ thread,
              ResourceMonitor._monitor_thread running_monitor = Some thread →
              ¬ (thread ∈ ResourceMonitor.alive st')))
  ∧ ((ResourceMonitor.start_monitoring every_second idle_monitor).1 = Returns tt
     ∧ phase (ResourceMonitor.start_monitoring every_second idle_monitor).2 = Running)
  ∧ ResourceMonitor.logged
      (ResourceMonitor.start_monitoring every_second running_monitor).2
    = (ResourceMonitor.logged running_monitor
       ++ [(WARNING, "Monitoring is already running.")])%list.
Proof.
  destruct (C9_start_stop_protocol every_second) as (Hidle & Hrunning & Hstop & _).
  split; [|split].
  - apply (Hstop running_monitor (Some 2%Q)). vm_compute. reflexivity.
  - apply (Hidle idle_monitor). vm_compute. reflexivity.
  - apply (Hrunning running_monitor). vm_compute. reflexivity.
Defined.

(** The workload without queries: the task returns at once. *)
Lemma C10_witness :
  let run := WorkloadExecutor._run_workload_task answering orders_42 5 no_queries
               fresh_executor in
  run.1 = Returns WorkloadExecutor.Finished
  ∧ WorkloadExecutor.query_calls run.2 = WorkloadExecutor.query_calls fresh_executor
  ∧ WorkloadExecutor.fetch_calls run.2 = WorkloadExecutor.fetch_calls fresh_executor
  ∧ WorkloadExecutor.query_log run.2 = WorkloadExecutor.query_log fresh_executor
  ∧ WorkloadExecutor.events run.2 = WorkloadExecutor.events fresh_executor
  ∧ WorkloadExecutor.logged run.2
    = (WorkloadExecutor.logged fresh_executor
       ++ [(INFO, ("Starting task for workload: " ++ wl_name no_queries)%string);
           (WARNING, ("No queries in workload " ++ wl_name no_queries
                      ++ ". Task exiting.")%string)])%list.
Proof.
  apply (proj2 (C10_empty_pool_returns_at_once answering orders_42 5 no_queries
                  fresh_executor)).
  reflexivity.
Defined.

End Instances.

(** * The further properties at concrete inputs *)

Section MoreInstances.

Import Examples MoreExamples.

(** A generator of an unknown kind yields [None]. *)
Lemma X1_witness :
  (WorkloadExecutor._generate_query_param answering orders_42 unknown_kind
     fresh_executor).1 = Returns PyNone.
Proof.
  assert (type unknown_kind ≠ "random_from_column_sample") as Hkind
    by (vm_compute; discriminate).
  destruct (generator_without_sample_stays_local answering orders_42
              unknown_kind fresh_executor Hkind)
    as (_ & _ & _ & _ & _ & _ & Hunknown).
  apply Hunknown; vm_compute; discriminate.
Defined.

(** A sample generator without a column fetches nothing. *)
Lemma X2_witness :
  (WorkloadExecutor._generate_query_param answering orders_42 sample_no_column
     fresh_executor).1 = Returns (PyStr "default_sample_value")
  ∧ WorkloadExecutor.fetch_calls
      (WorkloadExecutor._generate_query_param answering orders_42
         sample_no_column fresh_executor).2 = [].
Proof.
  destruct (sample_without_table_or_column answering orders_42 sample_no_column
              fresh_executor eq_refl (or_intror eq_refl))
    as (Hvalue & Hfetch & _).
  split; [exact Hvalue|exact Hfetch].
Defined.

(** Bounds 50 and 10: the fallback 1. *)
Lemma X3_witness :
  (WorkloadExecutor._generate_query_param answering orders_inverted range_orders
     fresh_executor).1 = Returns (PyInt 1).
Proof.
  refine (proj1 (range_with_inverted_bounds answering orders_inverted
                   range_orders fresh_executor "Orders"
                   {| pk_column := "OrderID"; min_id := Some 50; max_id := Some 10 |}
                   50 10 eq_refl eq_refl eq_refl eq_refl _ eq_refl eq_refl _)).
  - vm_compute. reflexivity.
  - lia.
Defined.

(** A sample of size 100 resolved after the same sample without a size:
    the second fetches nothing. *)
Lemma X4_witness :
  let first := WorkloadExecutor._generate_query_param answering orders_42
                 sample_customers fresh_executor in
  WorkloadExecutor.fetch_calls
    (WorkloadExecutor._generate_query_param answering orders_42
       sample_customers_100 first.2).2
  = WorkloadExecutor.fetch_calls first.2.
Proof.
  refine (proj1 (proj2 (sample_sizes_share_entry answering orders_42
                          sample_customers sample_customers_100 fresh_executor
                          "Orders" "CustomerID" [PyInt 7; PyInt 8; PyInt 9]
                          eq_refl eq_refl eq_refl eq_refl eq_refl eq_refl
                          eq_refl eq_refl eq_refl _ eq_refl))).
  vm_compute. reflexivity.
Defined.


(** A workload whose only query has weight 0 finishes at once. *)
Lemma X6_witness :
  (WorkloadExecutor._run_workload_task answering orders_42 5 weightless
     fresh_executor).1 = Returns WorkloadExecutor.Finished.
Proof.
  refine (proj1 (proj2 (pool_holds_positive_weights answering orders_42 weightless)
                   _ 5%nat fresh_executor)).
  intros q Hq. apply list_elem_of_singleton in Hq as ->. vm_compute. discriminate.
Defined.

(** With the stop event set, a task of [oltp] executes nothing. *)
Lemma X8_witness :
  WorkloadExecutor.query_calls
    (WorkloadExecutor._run_workload_task stopped orders_42 3 oltp
       fresh_executor).2 = [].
Proof.
  refine (proj1 (proj2 (task_stopped_or_expired_runs_nothing stopped orders_42
                          2 oltp fresh_executor (or_introl eq_refl)))).
Defined.

(** Against the disconnected adapter a task of [counting] finishes once
    the stop event is set, and has emitted nothing. *)
Lemma X9_witness :
  ∃ fuel,
    let run := WorkloadExecutor._run_workload_task disconnected_then_stopped
                 orders_42 fuel counting fresh_executor in
    run.1 = Returns WorkloadExecutor.Finished
    ∧ WorkloadExecutor.query_log run.2 = WorkloadExecutor.query_log fresh_executor.
Proof.
  refine (proj2 (unconnected_task_emits_nothing disconnected_then_stopped
                   orders_42 counting _) 20%nat _ fresh_executor).
  - intros k query params. eexists. reflexivity.
  - intros k Hk. apply Nat.leb_le. exact Hk.
Defined.

(** [oltp] with concurrency 2, a disabled workload and [counting] with
    concurrency 1: three tasks. *)
Lemma X10_witness :
  length (WorkloadExecutor.tasks
            (WorkloadExecutor.run_all_workloads answering
               [oltp; switched_off; counting]
               (fun _ _ => Returns WorkloadExecutor.Finished) 60 idle_loop).2)
  = 3%nat.
Proof.
  refine (proj1 (proj1 (proj2 (run_all_spawns_by_concurrency answering
            [oltp; switched_off; counting]
            (fun _ _ => Returns WorkloadExecutor.Finished) 60 idle_loop)) _)).
  vm_compute. discriminate.
Defined.

(** The disconnected adapter: no record reaches the metrics collector. *)
Lemma X11_witness :
  ResourceMonitor.dbms_log
    (ResourceMonitor._collect_one_dbms_metric disconnected "wait_stats"
       (query wait_stats) idle_monitor).2 = [].
Proof.
  refine (proj1 (proj2 (collect_one_is_contained disconnected "wait_stats"
                          (query wait_stats) idle_monitor) _)).
  intros rows. vm_compute. discriminate.
Defined.

(** [wait_stats] dispatched at 100 is not dispatched again at 105. *)
Lemma X12_witness :
  let dispatched_at_100 :=
    (ResourceMonitor.check_metric 100 wait_stats idle_monitor).2 in
  (ResourceMonitor.check_metric 105 wait_stats dispatched_at_100).2
  = dispatched_at_100.
Proof.
  refine (proj2 (no_redispatch_within_frequency 100 105 wait_stats idle_monitor
                   _ _)).
  - vm_compute. reflexivity.
  - vm_compute. reflexivity.
Defined.

(** A second metric named [wait_stats] adds nothing to the pass. *)
Lemma X13_witness :
  (ResourceMonitor.check_metrics 100 [wait_stats; wait_stats_again]
     idle_monitor).2
  = (ResourceMonitor.check_metric 100 wait_stats idle_monitor).2.
Proof.
  apply (duplicate_name_is_starved 100 wait_stats wait_stats_again idle_monitor).
  - reflexivity.
  - vm_compute. discriminate.
  - reflexivity.
Defined.

(** Started at an epoch time, [wait_stats] is dispatched on the first
    pass. *)
Lemma X14_witness :
  ResourceMonitor.dispatched
    (ResourceMonitor.check_metrics 1700000000 (dbms_metrics every_second)
       (ResourceMonitor.start_monitoring every_second idle_monitor).2).2
  = [(metric_cfg_name wait_stats, query wait_stats, 1700000000%Q)].
Proof.
  apply (first_pass_after_start every_second 1700000000 idle_monitor).
  - reflexivity.
  - vm_compute. repeat constructor. intros H. inversion H.
Defined.

(** Three passes with the processor load and the disk counters configured,
    [psutil] reporting no disk counters: three samples, each with the load
    and without counters. *)
Lemma X15_witness :
  ∃ new,
    ResourceMonitor.system_log
      (ResourceMonitor.sampling_loop answering host_cpu_disk 3 idle_monitor).2
    = new
    ∧ length new = 3%nat
    ∧ Forall (fun d => is_Some (cpu_percent d) ∧ disk_io_read_bytes d = None) new.
Proof.
  destruct (host_sample_per_pass answering host_cpu_disk 3 idle_monitor eq_refl)
    as [_ Hsamples].
  destruct Hsamples as (new & Hlog & Hlen & Hall).
  - vm_compute. discriminate.
  - intros k. reflexivity.
  - exists new. split; [exact Hlog|]. split; [exact Hlen|].
    eapply Forall_impl; [exact Hall|].
    intros d (Hcpu & _ & _ & _ & _ & Hnone). split.
    + apply Hcpu. left.
    + apply Hnone. intros k. reflexivity.
Defined.

(** Stopping the idle sampler returns at once. *)
Lemma X16_witness :
  (ResourceMonitor.stop_monitoring None idle_monitor).1 = Returns 0%Q.
Proof.
  pose proof (proj1 (stop_when_idle_is_inert None idle_monitor) eq_refl)
    as Hstop.
  rewrite Hstop. reflexivity.
Defined.

(** A well-formed line followed by a line that is not JSON: one record,
    one warning. *)
Lemma X17_witness :
  ∃ entry warning,
    MetricsCollector.get_collected_dbms_metrics loads_two_lines
      fromisoformat_2024 (Returns [good_line; "garbage"]) (Some "wait_stats")
    = ([entry], [warning]).
Proof.
  assert (Forall (tolerated loads_two_lines fromisoformat_2024 (Some "wait_stats"))
            [good_line; "garbage"]) as Htolerated.
  { repeat constructor; intros e He; vm_compute in He.
    - discriminate He.
    - injection He as <-. reflexivity. }
  rewrite (read_back_of_tolerated_log loads_two_lines fromisoformat_2024
             (Some "wait_stats") [good_line; "garbage"] Htolerated).
  eexists _, _. vm_compute. reflexivity.
Defined.

(** One record written and read back. *)
Lemma X19_witness :
  MetricsCollector.get_collected_dbms_metrics loads_written fromisoformat_2024
    (Returns (MetricsSink.log_all dumps_wait_record isoformat_2024
                [(true, wait_record)] []))
    (Some "wait_stats")
  = ([read_back_of wait_record], []).
Proof.
  refine (written_records_read_back dumps_wait_record loads_written
            isoformat_2024 fromisoformat_2024 [(true, wait_record)]
            (Some "wait_stats") _).
  repeat constructor; vm_compute; reflexivity.
Defined.

(** Two aggregates reported without a name: no bounds. *)
Lemma X20_witness :
  SQLServerAdapter.get_column_min_max unnamed_aggregates 0 "Orders" "OrderID"
  = Returns (PyNone, PyNone).
Proof.
  exact (min_max_by_reported_names unnamed_aggregates 0 "Orders" "OrderID"
           "" "" (PyInt 1) (PyInt 500) (-1) eq_refl eq_refl).
Defined.

(** The column reported in upper case: an empty sample. *)
Lemma X21_witness :
  SQLServerAdapter.get_column_sample upper_case_names 0 "Orders" "CustomerID" 100
  = Returns [].
Proof.
  exact (sample_by_reported_name upper_case_names 0 "Orders" "CustomerID" 100
           "CUSTOMERID" [[PyInt 7]; [PyInt 8]] (-1) eq_refl eq_refl).
Defined.

(** The sample of [sample_customers] rejected by the database. *)
Lemma X22_witness :
  (WorkloadExecutor._generate_query_param rejected_samples orders_42
     sample_customers fresh_executor).1 = Returns (PyStr "default_if_empty").
Proof.
  refine (proj1 (rejected_sample_is_cached_as_fallback rejected_samples orders_42
                   rejecting sample_customers fresh_executor "Orders" "CustomerID"
                   eq_refl eq_refl eq_refl _ _ _ eq_refl eq_refl eq_refl)).
  - discriminate.
  - discriminate.
  - vm_compute. reflexivity.
Defined.

(** The entry the refresh stores for [Orders] has both bounds. *)
Lemma X23_witness :
  ∃ meta,
    (SchemaManager.refresh_tables_metadata bounds_1_500 shop 0).2 !! "Orders"
    = Some meta
    ∧ (min_id meta = None ↔ max_id meta = None).
Proof.
  assert ((SchemaManager.refresh_tables_metadata bounds_1_500 shop 0).2 !! "Orders"
          = Some {| pk_column := "OrderID"; min_id := Some 1; max_id := Some 500 |})
    as Hentry by (vm_compute; reflexivity).
  eexists. split; [exact Hentry|].
  exact (proj2 (refreshed_entries_are_consistent bounds_1_500 shop 0 "Orders"
                  _ Hentry)).
Defined.

(** Bounds 1 and 500 refreshed for [Orders]: the range parameter lies
    between them. *)
Lemma X24_witness :
  ∃ n,
    (WorkloadExecutor._generate_query_param answering
       (SchemaManager.refresh_tables_metadata bounds_1_500 shop 0).2
       range_orders fresh_executor).1 = Returns (PyInt n)
    ∧ 1 <= n <= 500.
Proof.
  apply (refreshed_bounds_feed_the_range bounds_1_500 answering shop 0
           (SchemaManager.refresh_tables_metadata bounds_1_500 shop 0).2
           orders order_id 1 500 range_orders fresh_executor).
  - vm_compute. repeat constructor. intros H. inversion H.
  - left.
  - reflexivity.
  - intros k. reflexivity.
  - lia.
  - reflexivity.
  - reflexivity.
  - reflexivity.
  - discriminate.
  - reflexivity.
Defined.

(** A row of [Orders]: a value for the foreign key and one for the text. *)
Lemma X25_witness :
  ∃ row,
    (DataGenerator._generate_row_data (fun k => k) sentences customers_1_9
       orders fresh_generator).1 = Returns row
    ∧ length row = 2%nat.
Proof.
  assert (Forall (fun col => names_ref_table col = true)
            (SchemaModels.columns orders)) as Hfk
    by (repeat constructor).
  destruct (row_has_a_value_per_inserted_column (fun k => k) sentences
              customers_1_9 orders fresh_generator Hfk)
    as (row & Hrun & Hlen & _).
  exists row. split; [exact Hrun|exact Hlen].
Defined.

(** Five rows in batches of two: three batches. *)
Lemma X26_witness :
  ∃ batches,
    DataGenerator.executemany_calls
      (DataGenerator.generate_data_for_table (fun k => k) sentences true opening
         accepting customers_1_9 2 orders fresh_generator).2
    = (fun batch => (DataGenerator.insert_sql orders "dbo", batch)) <$> batches
    ∧ Z.of_nat (length (concat batches)) = 5
    ∧ Z.of_nat (length batches) = 3.
Proof.
  assert (Forall (fun col => names_ref_table col = true)
            (SchemaModels.columns orders)) as Hfk
    by (repeat constructor).
  destruct (batches_cover_the_row_count (fun k => k) sentences true opening
              accepting customers_1_9 2 orders fresh_generator)
    as (_ & batches & Hcalls & Hrows & Hcount & _).
  - lia.
  - vm_compute. reflexivity.
  - vm_compute. discriminate.
  - exact Hfk.
  - reflexivity.
  - intros k. reflexivity.
  - intros k sql batch. reflexivity.
  - exists batches. split; [exact Hcalls|]. split; [exact Hrows|exact Hcount].
Defined.

(** Five rows in batches of two that do not get through.  Without a pool
    nothing reaches [executemany]; with a database that refuses, the first
    batch of two rows is the only one sent.  Either way one bulk-insert
    error is logged. *)
Lemma X27_witness :
  (let run := DataGenerator.generate_data_for_table (fun k => k) sentences
                false opening accepting customers_1_9 2 orders fresh_generator in
   run.1 = Returns tt
   ∧ bulk_insert_errors run.2 = 1%nat
   ∧ DataGenerator.executemany_calls run.2 = [])
  ∧ (let run := DataGenerator.generate_data_for_table (fun k => k) sentences
                  true opening refusing customers_1_9 2 orders fresh_generator in
     run.1 = Returns tt
     ∧ bulk_insert_errors run.2 = 1%nat
     ∧ ∃ batch,
         DataGenerator.executemany_calls run.2
         = [(DataGenerator.insert_sql orders "dbo", batch)]
         ∧ Z.of_nat (length batch) = 2).
Proof.
  assert (Forall (fun col => names_ref_table col = true)
            (SchemaModels.columns orders)) as Hfk
    by (repeat constructor).
  split.
  - refine (proj1 (refused_batch_ends_the_table (fun k => k) sentences
                     false opening accepting customers_1_9 2 orders
                     fresh_generator _ _ _ Hfk) (or_introl eq_refl)).
    + lia.
    + vm_compute. reflexivity.
    + vm_compute. discriminate.
  - refine (proj2 (refused_batch_ends_the_table (fun k => k) sentences
                     true opening refusing customers_1_9 2 orders
                     fresh_generator _ _ _ Hfk) eq_refl _ _).
    + lia.
    + vm_compute. reflexivity.
    + vm_compute. discriminate.
    + intros k. reflexivity.
    + intros k sql batch. eexists. reflexivity.
Defined.

(** A batch size of -1 sends nothing. *)
Lemma X28_witness :
  DataGenerator.executemany_calls
    (DataGenerator.generate_data_for_table (fun k => k) sentences true opening
       accepting customers_1_9 (-1) orders fresh_generator).2 = [].
Proof.
  refine (proj2 (nothing_to_insert (fun k => k) sentences true opening accepting
                   customers_1_9 (-1) orders fresh_generator _ _)).
  - right. lia.
  - right. lia.
Defined.

(** A batch size of 0 raises. *)
Lemma X29_witness :
  ∃ msg,
    (DataGenerator.generate_data_for_table (fun k => k) sentences true opening
       accepting customers_1_9 0 orders fresh_generator).1
    = Raises (ValueError msg).
Proof.
  refine (proj1 (zero_batch_size_raises (fun k => k) sentences true opening
                   accepting customers_1_9 0 orders fresh_generator eq_refl _ _)).
  - vm_compute. discriminate.
  - vm_compute. discriminate.
Defined.

End MoreInstances.
